(** * The data-synchronisation layer of the consent application

    A shallow embedding of the two source modules that make up the
    synchronisation core:

    - [lib/supabase.ts] (connectivity monitor, two-tier cache, the
      configured client): module-level mutable state is the record [Lib];
    - the module of [ConsentimientosProvider] (the provider that loads,
      creates and archives consent records): React state is the record
      [Provider].

    Conventions of the embedding.

    - Every function that reads [Date.now()] takes the instant as an explicit
      argument [now] (milliseconds, [Z]).
    - Whatever the outside world decides (network replies, [Math.random()],
      whether a durable write is accepted) is an explicit argument, grouped
      in "oracle" records for the longer operations.
    - An [async] function is the composition of its segments between
      [await]s; state is threaded explicitly, exceptions are the [Throw]
      results of a small state-and-exception monad.
    - [console.log] / [console.error] output is not modelled, except that
      the load operation returns the error its outermost handler logs. *)

From Stdlib Require Import ZArith QArith Qminmax Qround Lqa Lia Bool.
From Stdlib Require Import Sorted Permutation.
From stdpp Require Import gmap strings list fin_maps pretty.

Open Scope string_scope.
Open Scope Z_scope.

(** ** JavaScript exceptions *)

(** An [Error] object, reduced to the two fields the code inspects. *)
Record JsError := mkJsError { name : string; message : string }.

(** [new Error(msg)] *)
Definition Error (msg : string) : JsError :=
  {| name := "Error"; message := msg |}.

(** Result of a computation that may throw. *)
Inductive Res (A : Type) : Type :=
| Ret (a : A)
| Throw (e : JsError).
Arguments Ret {A} a.
Arguments Throw {A} e.

(** ** Values the cache can hold *)

(** [cacheData<T>] is generic; the two tests it performs on [data] are the
    interface a payload type has to offer. *)
Class JsData (T : Type) := {
  isNull : T -> bool;        (* data === null *)
  isEmptyArray : T -> bool   (* Array.isArray(data) && data.length === 0 *)
}.

(** A JavaScript array value. *)
#[global] Instance JsData_list {A : Type} : JsData (list A) := {
  isNull := fun _ => false;
  isEmptyArray := fun l => match l with [] => true | _ => false end
}.

(** A nullable value, [T | null]. *)
#[global] Instance JsData_nullable {T : Type} `{JsData T} : JsData (option T) := {
  isNull := fun o => match o with None => true | Some _ => false end;
  isEmptyArray := fun o => match o with None => false | Some d => isEmptyArray d end
}.

(** ** Module state of [lib/supabase.ts] *)

(** [interface CacheItem<T>] *)
Record CacheItem (T : Type) := mkCacheItem {
  data : T;
  timestamp : Z;
  expiry : Z
}.
Arguments mkCacheItem {T}.
Arguments data {T}.
Arguments timestamp {T}.
Arguments expiry {T}.

(** A string held by [localStorage], classified by what the program can do
    with it.

    - Under the flag keys ([app_offline_mode], [app_network_unreachable])
      a value is a [Text]; it is only ever compared with ['true'].
    - Under a cache key ([cache_…]) the value is
      [Json it] when it is the serialisation of a cache item ([JSON.parse]
      gives back [it]; values are identified with their JSON image),
      [JsonOther] when [JSON.parse] accepts it but the result is a non-null
      value without a numeric [expiry], and [Text s] when [JSON.parse] or
      the field access after it throws. *)
Inductive Stored (T : Type) : Type :=
| Text (s : string)
| Json (it : CacheItem T)
| JsonOther.
Arguments Text {T} s.
Arguments Json {T} it.
Arguments JsonOther {T}.

(** [let lastConnectionStatus = { isConnected, timestamp }] (the field
    [timestamp] is [checkedAt] here, [timestamp] being taken by
    [CacheItem]). *)
Record ConnectionStatus := mkConnectionStatus {
  isConnected : bool;
  checkedAt : Z
}.

(** Requests that leave the program. *)
Inductive Query :=
| QConfigCount                 (* from('config').select('count', head)     *)
| QActive                      (* from('consents') … eq('archived', false) *)
| QArchived                    (* from('consents') … eq('archived', true)  *)
| QArtist (artistName : string)  (* from('artists') … eq('name', n).single() *)
| QInsert                      (* from('consents').insert(…).select()      *)
| QRpcArchive (id : string).   (* rpc('archivar_consentimiento', {id})     *)

Inductive Request :=
| HeadFetch (url : string)     (* fetch(url, {method: 'HEAD'}) *)
| SupabaseQuery (q : Query).

(** What the network does with one request handed to the browser's
    [fetch]: a response arrives, or the promise is rejected. *)
Inductive FetchOutcome :=
| Responds
| FetchFails (err : JsError).

(** What the caller of a query sees after [await]: the destructured
    [{ data, error }] ([None] is [null]), or a rejection. *)
Inductive QueryOutcome (A : Type) : Type :=
| Resolved (d : option A) (error : option string)
| Rejected (e : JsError).
Arguments Resolved {A} d error.
Arguments Rejected {A} e.

(** The world's answer to one query.  [net] is what happens below the
    client's configured [fetch]; [outcome] is what the client library hands
    back.  How the library derives the second from the first is library
    code, so both are given. *)
Record Reply (A : Type) := mkReply {
  net : FetchOutcome;
  outcome : QueryOutcome A
}.
Arguments mkReply {A}.
Arguments net {A}.
Arguments outcome {A}.

(** The outside world as seen by one connectivity check: which [HEAD]
    requests get through, and the reply to the [i]-th backend probe. *)
Record CheckOracle := mkCheckOracle {
  head_ok : string -> bool;
  probe : nat -> Reply unit
}.

(** [String.prototype.includes] *)
Definition includes (sub s : string) : bool :=
  match String.index 0 sub s with Some _ => true | None => false end.

Section Library.

Context {T : Type} `{JsData T}.

(** The mutable state of the module, with the log of requests issued so far
    ([requests], newest first; a ghost field, used to state that an
    operation did or did not go to the network). *)
Record Lib := mkLib {
  lastConnectionStatus : ConnectionStatus;
  dataCache : gmap string (CacheItem T);
  localStorage : gmap string (Stored T);
  requests : list Request
}.

Definition set_lastConnectionStatus (s : ConnectionStatus) (l : Lib) : Lib :=
  mkLib s (dataCache l) (localStorage l) (requests l).
Definition set_dataCache (c : gmap string (CacheItem T)) (l : Lib) : Lib :=
  mkLib (lastConnectionStatus l) c (localStorage l) (requests l).
Definition set_localStorage (s : gmap string (Stored T)) (l : Lib) : Lib :=
  mkLib (lastConnectionStatus l) (dataCache l) s (requests l).
Definition log_request (r : Request) (l : Lib) : Lib :=
  mkLib (lastConnectionStatus l) (dataCache l) (localStorage l) (r :: requests l).

(** [localStorage.setItem(k, v)], [localStorage.removeItem(k)] *)
Definition setItem (k : string) (v : Stored T) (l : Lib) : Lib :=
  set_localStorage (<[k := v]> (localStorage l)) l.
Definition removeItem (k : string) (l : Lib) : Lib :=
  set_localStorage (delete k (localStorage l)) l.

(** [localStorage.getItem(k) === 'true'] *)
Definition getItem_is_true (k : string) (l : Lib) : bool :=
  match localStorage l !! k with
  | Some (Text s) => String.eqb s "true"
  | _ => false
  end.

(** *** The two-tier cache *)

(** The key of the durable tier: [`cache_${key}`]. *)
Definition durable_key (key : string) : string := "cache_" ++ key.

(** [cacheData(key, data, ttlSeconds)] at instant [now].

    [durable_ok] tells whether the [try] block around
    [localStorage.setItem(…, JSON.stringify(…))] completes; when it throws
    (storage quota, a value [JSON.stringify] rejects) the handler only logs
    and the durable tier keeps what it had. *)
Definition cacheData (durable_ok : bool) (key : string) (d : T)
    (ttlSeconds : Z) (now : Z) (l : Lib) : Lib :=
  if isNull d || isEmptyArray d then l
  else
    let item := mkCacheItem d now (now + ttlSeconds * 1000) in
    let l1 := set_dataCache (<[key := item]> (dataCache l)) l in
    if durable_ok then setItem (durable_key key) (Json item) l1 else l1.

(** The second half of [getCachedData]: the lookup in [localStorage]. *)
Definition getCachedData_durable (key : string) (now : Z) (l : Lib)
    : option T * Lib :=
  match localStorage l !! durable_key key with
  | Some (Json parsedItem) =>
      if now <=? expiry parsedItem
      then (Some (data parsedItem),
            set_dataCache (<[key := parsedItem]> (dataCache l)) l)
      else (None, removeItem (durable_key key) l)
  | Some JsonOther => (None, removeItem (durable_key key) l)
  | Some (Text _) => (None, l)      (* the [catch] branch *)
  | None => (None, l)
  end.

(** [getCachedData(key)] at instant [now]; [None] is [null]. *)
Definition getCachedData (key : string) (now : Z) (l : Lib) : option T * Lib :=
  match dataCache l !! key with
  | Some item =>
      if now <=? expiry item then (Some (data item), l)
      else getCachedData_durable key now l
  | None => getCachedData_durable key now l
  end.

(** [clearCacheItem(key)] *)
Definition clearCacheItem (key : string) (l : Lib) : Lib :=
  removeItem (durable_key key) (set_dataCache (delete key (dataCache l)) l).

(** *** Connectivity monitor *)

(** [isOfflineMode()] *)
Definition isOfflineMode (l : Lib) : bool :=
  getItem_is_true "app_offline_mode" l
  || getItem_is_true "app_network_unreachable" l.

(** [toggleOfflineMode(active)] *)
Definition toggleOfflineMode (active : bool) (l : Lib) : Lib :=
  if active then setItem "app_offline_mode" (Text "true") l
  else removeItem "app_network_unreachable" (removeItem "app_offline_mode" l).

(** The [fetch] the client is configured with ([global.fetch] in the
    options of [createClient]): refuses in offline mode, otherwise forwards
    the request and maintains the [app_network_unreachable] flag. *)
Definition configuredFetch (n : FetchOutcome) (l : Lib) : Res unit * Lib :=
  if isOfflineMode l then (Throw (Error "Aplicación en modo offline"), l)
  else
    match n with
    | Responds =>
        (Ret tt,
         if getItem_is_true "app_network_unreachable" l
         then removeItem "app_network_unreachable" l else l)
    | FetchFails err =>
        let fallback :=
          if String.eqb (message err) ""
          then "Error desconocido al conectar con el servidor"
          else message err in
        if String.eqb (name err) "AbortError" then
          (Throw (mkJsError (name err)
                    "La conexión con el servidor ha excedido el tiempo de espera"),
           setItem "app_network_unreachable" (Text "true") l)
        else if String.eqb (name err) "TypeError"
                && (includes "NetworkError" (message err)
                    || includes "Failed to fetch" (message err)) then
          (Throw (mkJsError (name err)
                    "Error de red: No se pudo conectar al servidor. Compruebe su conexión a Internet."),
           setItem "app_network_unreachable" (Text "true") l)
        else (Throw (mkJsError (name err) fallback), l)
    end.

(** One query through the client: it is logged, goes through
    [configuredFetch], and the caller receives the reply's [outcome]. *)
Definition supabase_query {A : Type} (q : Query) (r : Reply A) (l : Lib)
    : QueryOutcome A * Lib :=
  (outcome r, snd (configuredFetch (net r) (log_request (SupabaseQuery q) l))).

Definition testUrls : list string :=
  [ "https://www.gstatic.com/generate/1x1.png";
    "https://www.apple.com/favicon.ico";
    "https://www.cloudflare.com/favicon.ico" ].

(** The [for] loop of [checkInternetConnection]: the first URL that answers
    ends it with [true]. *)
Fixpoint try_urls (ok : string -> bool) (urls : list string) (l : Lib)
    : bool * Lib :=
  match urls with
  | [] => (false, l)
  | url :: rest =>
      let l1 := log_request (HeadFetch url) l in
      if ok url then (true, l1) else try_urls ok rest l1
  end.

(** [checkInternetConnection()] *)
Definition checkInternetConnection (ok : string -> bool) (l : Lib) : bool * Lib :=
  try_urls ok testUrls l.

(** [RETRY_SETTINGS.maxRetries] *)
Definition maxRetries : nat := 10.

(** The [while (currentRetry < maxRetries)] loop of
    [checkSupabaseConnection], by recursion on the number [remaining] of
    iterations left ([remaining + currentRetry = maxRetries]).  The waits
    between attempts ([sleep(delay)], with the jittered doubling of
    [delay]) only let time pass; [now] was read before the loop. *)
Fixpoint probe_loop (remaining currentRetry : nat) (pr : nat -> Reply unit)
    (now : Z) (l : Lib) : bool * Lib :=
  match remaining with
  | O => (false, set_lastConnectionStatus (mkConnectionStatus false now) l)
  | S remaining' =>
      let '(out, l1) := supabase_query QConfigCount (pr currentRetry) l in
      match out with
      | Resolved _ error =>
          let connected := match error with None => true | Some _ => false end in
          let l2 := set_lastConnectionStatus (mkConnectionStatus connected now) l1 in
          (connected,
           if connected
           then removeItem "app_network_unreachable" (removeItem "app_offline_mode" l2)
           else l2)
      | Rejected _ =>
          let currentRetry' := S currentRetry in
          if (maxRetries <=? currentRetry')%nat then
            (false,
             setItem "app_network_unreachable" (Text "true")
               (set_lastConnectionStatus (mkConnectionStatus false now) l1))
          else probe_loop remaining' currentRetry' pr now l1
      end
  end.

(** [const CACHE_TTL = 10000] inside [checkSupabaseConnection] *)
Definition CACHE_TTL : Z := 10000.

(** [checkSupabaseConnection()] at instant [now]. *)
Definition checkSupabaseConnection (now : Z) (o : CheckOracle) (l : Lib)
    : bool * Lib :=
  if now - checkedAt (lastConnectionStatus l) <? CACHE_TTL then
    (isConnected (lastConnectionStatus l), l)
  else if isOfflineMode l then
    (false, set_lastConnectionStatus (mkConnectionStatus false now) l)
  else
    let '(hasInternet, l1) := checkInternetConnection (head_ok o) l in
    if negb hasInternet then
      (false,
       set_lastConnectionStatus (mkConnectionStatus false now)
         (setItem "app_network_unreachable" (Text "true") l1))
    else probe_loop maxRetries 0 (probe o) now l1.

End Library.

Arguments Lib T : clear implicits.

(** ** Domain records of the provider *)

(** Modelled from the spec: the type declarations of [../types] and
    [../types/supabase] are missing from the sources.  The spec's Record
    (a consent, §3) is given below with exactly the fields the provider
    reads and writes in [transformarDatos] and [addConsentimiento]; the
    health questionnaire is an object the provider only passes along. *)
Definition InformacionSalud : Type := list (string * string).

(** Modelled from the spec: [Consentimiento['cliente']], missing with
    [../types]; the fields are those copied by [transformarDatos]. *)
Record Cliente := mkCliente {
  nombre : string;
  apellidos : string;
  edad : Z;
  rut : string;
  fechaNacimiento : string;
  direccion : string;
  telefono : string;
  email : string;
  confirmacionDatos : bool
}.

(** Modelled from the spec: [Consentimiento['tutor']], missing with
    [../types]; the fields are those copied by [transformarDatos]
    ([nombre], [rut] and [firma] carry a prefix here, the names being taken
    by [Cliente] and [Consentimiento]). *)
Record Tutor := mkTutor {
  tutor_nombre : string;
  tutor_rut : string;
  parentesco : string;
  otroParentesco : string;
  tutor_firma : string
}.

(** Modelled from the spec: the interface [Consentimiento], missing with
    [../types]; the fields are those of the object built by
    [transformarDatos]. *)
Record Consentimiento := mkConsentimiento {
  id : string;
  codigo : string;
  fechaCreacion : string;
  cliente : Cliente;
  tutor : option Tutor;
  informacionSalud : InformacionSalud;
  artistaSeleccionado : string;
  firma : string;
  archivado : bool
}.

(** [Omit<Consentimiento, 'id' | 'codigo' | 'fechaCreacion' | 'archivado'>] *)
Record NuevoConsentimiento := mkNuevoConsentimiento {
  nuevo_cliente : Cliente;
  nuevo_tutor : option Tutor;
  nuevo_informacionSalud : InformacionSalud;
  nuevo_artistaSeleccionado : string;
  nuevo_firma : string
}.

(** Modelled from the spec: the JSON column [client_info] of a row, whose
    type is missing with [../types/supabase]: the client's fields and,
    possibly, the health questionnaire. *)
Record ClientInfo := mkClientInfo {
  ci_cliente : Cliente;
  ci_informacionSalud : option InformacionSalud
}.

(** Modelled from the spec: a row of table [consents] as selected by the
    two load queries, whose type is missing with [../types/supabase]; the
    fields are the columns of the [select]; [None] is [null]. *)
Record Row := mkRow {
  row_id : string;
  code : string;
  client_info : option ClientInfo;
  tutor_info : option Tutor;
  artists : option string;          (* artists:artist_id (name) *)
  client_signature : string;
  archived : bool;
  created_at : string
}.

(** The callback of [data.map] in [transformarDatos]: [None] is the [null]
    returned by its [catch] branch, reached when [clientInfo] is [null]
    and [clientInfo.nombre] throws. *)
Definition transformar_item (item : Row) : option Consentimiento :=
  match client_info item with
  | None => None
  | Some clientInfo =>
      Some {| id := row_id item;
              codigo := code item;
              fechaCreacion := created_at item;
              cliente := ci_cliente clientInfo;
              tutor := tutor_info item;
              informacionSalud := default [] (ci_informacionSalud clientInfo);
              artistaSeleccionado := default "" (artists item);
              firma := client_signature item;
              archivado := archived item |}
  end.

(** [.filter(Boolean)] on an array of objects and [null]s. *)
Fixpoint filter_Boolean {A : Type} (l : list (option A)) : list A :=
  match l with
  | [] => []
  | Some x :: rest => x :: filter_Boolean rest
  | None :: rest => filter_Boolean rest
  end.

(** [transformarDatos(data)] *)
Definition transformarDatos (d : option (list Row)) : list Consentimiento :=
  match d with
  | None => []
  | Some rows => filter_Boolean (map transformar_item rows)
  end.

Definition CONSENT_CACHE_KEY : string := "app_consents_data".
Definition ARCHIVED_CONSENT_CACHE_KEY : string := "app_archived_consents_data".
Definition CONSENT_CACHE_TTL : Z := 172800.
Definition MAX_RETRIES : nat := 15.

(** [getRetryDelay(attempt)], with the value [rnd] drawn by
    [Math.random()]; the arithmetic is exact (rationals). *)
Definition expBackoff (attempt : nat) : Q :=
  Qmin (inject_Z 120000) (inject_Z (3000 * 2 ^ Z.of_nat attempt)).

Definition getRetryDelay (attempt : nat) (rnd : Q) : Z :=
  let jitter := (expBackoff attempt * 0.3 * (rnd * 2 - 1))%Q in
  Qfloor (expBackoff attempt + jitter).


(** ** React state of the provider *)

(** The state variables an instance of the [loadConsentimientos] callback
    reads directly.  A callback sees the values of the render that created
    it, not the live state; [useCallback] keeps the instance until
    [retryCount] changes. *)
Record Closure := mkClosure {
  seen_isRetrying : bool;
  seen_retryCount : nat
}.

(** A pending [setTimeout] of the disconnected branch: its delay and the
    callback instance it will call (the instance that armed it). *)
Record Timer := mkTimer {
  timer_delay : Z;
  timer_closure : Closure
}.

(** The [useState] cells, plus two ghost fields: the [setTimeout]s armed and
    not yet fired ([timers]), and the number of load cycles that passed the
    guard of [loadConsentimientos] and have not reached its [finally]
    ([cyclesInFlight]). *)
Record Provider := mkProvider {
  consentimientos : list Consentimiento;
  consentimientosArchivados : list Consentimiento;
  loading : bool;
  connectionError : bool;
  retryCount : nat;
  lastConnectionAttempt : option Z;
  isRetrying : bool;
  timers : list Timer;
  cyclesInFlight : nat
}.

Definition setConsentimientos_ui (v : list Consentimiento) (p : Provider) :=
  mkProvider v (consentimientosArchivados p) (loading p) (connectionError p)
    (retryCount p) (lastConnectionAttempt p) (isRetrying p) (timers p)
    (cyclesInFlight p).
Definition setConsentimientosArchivados_ui (v : list Consentimiento) (p : Provider) :=
  mkProvider (consentimientos p) v (loading p) (connectionError p)
    (retryCount p) (lastConnectionAttempt p) (isRetrying p) (timers p)
    (cyclesInFlight p).
Definition setLoading_ui (v : bool) (p : Provider) :=
  mkProvider (consentimientos p) (consentimientosArchivados p) v
    (connectionError p) (retryCount p) (lastConnectionAttempt p)
    (isRetrying p) (timers p) (cyclesInFlight p).
Definition setConnectionError_ui (v : bool) (p : Provider) :=
  mkProvider (consentimientos p) (consentimientosArchivados p) (loading p) v
    (retryCount p) (lastConnectionAttempt p) (isRetrying p) (timers p)
    (cyclesInFlight p).
Definition setRetryCount_ui (v : nat) (p : Provider) :=
  mkProvider (consentimientos p) (consentimientosArchivados p) (loading p)
    (connectionError p) v (lastConnectionAttempt p) (isRetrying p) (timers p)
    (cyclesInFlight p).
Definition setLastConnectionAttempt_ui (v : option Z) (p : Provider) :=
  mkProvider (consentimientos p) (consentimientosArchivados p) (loading p)
    (connectionError p) (retryCount p) v (isRetrying p) (timers p)
    (cyclesInFlight p).
Definition setIsRetrying_ui (v : bool) (p : Provider) :=
  mkProvider (consentimientos p) (consentimientosArchivados p) (loading p)
    (connectionError p) (retryCount p) (lastConnectionAttempt p) v (timers p)
    (cyclesInFlight p).
Definition set_timers (v : list Timer) (p : Provider) :=
  mkProvider (consentimientos p) (consentimientosArchivados p) (loading p)
    (connectionError p) (retryCount p) (lastConnectionAttempt p)
    (isRetrying p) v (cyclesInFlight p).
Definition set_cyclesInFlight (v : nat) (p : Provider) :=
  mkProvider (consentimientos p) (consentimientosArchivados p) (loading p)
    (connectionError p) (retryCount p) (lastConnectionAttempt p)
    (isRetrying p) (timers p) v.

(** The whole application state: module state and provider state. *)
Record App := mkApp {
  lib : Lib (list Consentimiento);
  ui : Provider
}.

(** ** A state-and-exception monad over [App] *)

Definition M (A : Type) : Type := App -> Res A * App.

Definition ret {A : Type} (x : A) : M A := fun a => (Ret x, a).

Definition throw {A : Type} (e : JsError) : M A := fun a => (Throw e, a).

Definition bind {A B : Type} (m : M A) (k : A -> M B) : M B :=
  fun a =>
    match m a with
    | (Ret x, a1) => k x a1
    | (Throw e, a1) => (Throw e, a1)
    end.

(** [try { m } catch (e) { h e }] *)
Definition try_catch {A : Type} (m : M A) (h : JsError -> M A) : M A :=
  fun a =>
    match m a with
    | (Ret x, a1) => (Ret x, a1)
    | (Throw e, a1) => h e a1
    end.

(** [try { m } finally { f }], for a block [f] that does not throw. *)
Definition finally {A : Type} (m : M A) (f : App -> App) : M A :=
  fun a => let '(r, a1) := m a in (r, f a1).

(** A call into [lib/supabase.ts]. *)
Definition call_lib {A : Type}
    (f : Lib (list Consentimiento) -> A * Lib (list Consentimiento)) : M A :=
  fun a => let '(x, l) := f (lib a) in (Ret x, mkApp l (ui a)).

Definition update_lib
    (f : Lib (list Consentimiento) -> Lib (list Consentimiento)) : M unit :=
  fun a => (Ret tt, mkApp (f (lib a)) (ui a)).

(** A state setter of the provider. *)
Definition update_ui (f : Provider -> Provider) : M unit :=
  fun a => (Ret tt, mkApp (lib a) (f (ui a))).

(** Awaiting a query: a rejection is thrown at the [await]. *)
Definition await_query {A : Type} (q : Query) (r : Reply A)
    : M (option A * option string) :=
  fun a =>
    let '(out, l) := supabase_query q r (lib a) in
    match out with
    | Resolved d error => (Ret (d, error), mkApp l (ui a))
    | Rejected e => (Throw e, mkApp l (ui a))
    end.

Declare Scope js_scope.
Delimit Scope js_scope with js.
Notation "'do' x <- m ; k" := (bind m (fun x => k))
  (at level 10, x pattern, m at level 100, k at level 200) : js_scope.
Notation "'when' c 'then' m" := (if c then m else ret tt)
  (at level 10, c at level 100, m at level 200) : js_scope.
Open Scope js_scope.

Definition setConsentimientos v := update_ui (setConsentimientos_ui v).
Definition setConsentimientosArchivados v :=
  update_ui (setConsentimientosArchivados_ui v).
Definition setLoading v := update_ui (setLoading_ui v).
Definition setConnectionError v := update_ui (setConnectionError_ui v).
Definition setRetryCount v := update_ui (setRetryCount_ui v).
Definition setLastConnectionAttempt v := update_ui (setLastConnectionAttempt_ui v).
Definition setIsRetrying v := update_ui (setIsRetrying_ui v).

(** [setRetryCount(prev => prev + 1)] *)
Definition incrRetryCount : M unit :=
  update_ui (fun p => setRetryCount_ui (S (retryCount p)) p).

(** [setTimeout(…, delay)] of the disconnected branch. *)
Definition setTimeout (t : Timer) : M unit :=
  update_ui (fun p => set_timers (timers p ++ [t]) p).

(** ** The load cycle: [loadConsentimientos] *)

(** [cached?.length > 0] *)
Definition length_gt_0 (c : option (list Consentimiento)) : bool :=
  match c with
  | Some (_ :: _) => true
  | _ => false
  end.

(** The block that reads both cache entries and shows what they hold; it
    occurs twice in the function (after the first log line and in the
    outermost handler). *)
Definition use_cached (now : Z)
    : M (option (list Consentimiento) * option (list Consentimiento)) :=
  do cachedConsents <- call_lib (getCachedData CONSENT_CACHE_KEY now);
  do cachedArchivedConsents <-
    call_lib (getCachedData ARCHIVED_CONSENT_CACHE_KEY now);
  do _ <- (when length_gt_0 cachedConsents || length_gt_0 cachedArchivedConsents
           then
             do _ <- (when length_gt_0 cachedConsents
                      then setConsentimientos (default [] cachedConsents));
             when length_gt_0 cachedArchivedConsents
             then setConsentimientosArchivados (default [] cachedArchivedConsents));
  ret (cachedConsents, cachedArchivedConsents).

(** What the outside world decides during one load cycle. *)
Record LoadOracle := mkLoadOracle {
  load_now : Z;               (* Date.now() when the cycle starts        *)
  load_check : CheckOracle;   (* the connectivity check                  *)
  load_check_in_time : bool;  (* the check settles before the 60 s timer *)
  load_random : Q;            (* Math.random() in getRetryDelay          *)
  load_active : Reply (list Row);
  load_archived : Reply (list Row);
  load_commit_now : Z;        (* Date.now() when the results are cached  *)
  load_store_active_ok : bool;    (* durable write of the active list    *)
  load_store_archived_ok : bool;  (* durable write of the archived list  *)
  load_catch_now : Z          (* Date.now() in the outermost handler     *)
}.

(** The guard in front of the [try]: the call returns at once. *)
Definition load_guard (c : Closure) (isManualRetry : bool) : bool :=
  seen_isRetrying c && negb isManualRetry.

(** From the entry of the [try] to the call of [checkSupabaseConnection]. *)
Definition load_begin (isManualRetry : bool) (now : Z) : M unit :=
  do _ <- update_ui (fun p => set_cyclesInFlight (S (cyclesInFlight p)) p);
  do _ <- setIsRetrying true;
  do _ <- update_ui (fun p =>
            setLoading_ui (if isManualRetry then true else loading p) p);
  do _ <- setLastConnectionAttempt (Some now);
  do _ <- use_cached now;
  ret tt.

(** [Promise.race([checkSupabaseConnection(), timeout(60 s, false)])].  The
    check is run to its end here even when the timer wins. *)
Definition race_connection (now : Z) (o : CheckOracle) (in_time : bool) : M bool :=
  do connected <- call_lib (checkSupabaseConnection now o);
  ret (connected && in_time).

(** The branch [if (!isConnected) { … return; }]. *)
Definition load_disconnected (c : Closure) (isManualRetry : bool) (rnd : Q)
    : M unit :=
  do _ <- setConnectionError true;
  do _ <- (if (seen_retryCount c <? MAX_RETRIES)%nat && negb isManualRetry then
             let delay := getRetryDelay (seen_retryCount c) rnd in
             do _ <- incrRetryCount;
             setTimeout (mkTimer delay c)
           else
             when isManualRetry then setRetryCount 0);
  do _ <- setLoading false;
  setIsRetrying false.

(** The handler [catch (archivedError)] of the inner [try].

    In its [AbortError] branch the first statement calls [transformarDatos],
    a [const] declared inside the [try] block: the name is not in scope in
    the handler, so evaluating it throws a [ReferenceError] and the three
    statements after it are not reached. *)
Definition catch_archivedError (archivedError : JsError) : M unit :=
  if String.eqb (name archivedError) "AbortError" then
    throw (mkJsError "ReferenceError" "transformarDatos is not defined")
  else throw archivedError.

(** The inner [try]: the archived fetch and the commit of both lists. *)
Definition fetch_archived_and_commit (o : LoadOracle)
    (dataActivos : option (list Row)) : M unit :=
  try_catch
    (do (dataArchivados, errorArchivados) <- await_query QArchived (load_archived o);
     match errorArchivados with
     | Some m =>
         throw (Error ("Error al cargar consentimientos archivados: " ++ m))
     | None =>
         let consentimientosActivos := transformarDatos dataActivos in
         let consentimientosArchivadosLista := transformarDatos dataArchivados in
         do _ <- update_lib (cacheData (load_store_active_ok o) CONSENT_CACHE_KEY
                               consentimientosActivos CONSENT_CACHE_TTL
                               (load_commit_now o));
         do _ <- update_lib (cacheData (load_store_archived_ok o)
                               ARCHIVED_CONSENT_CACHE_KEY
                               consentimientosArchivadosLista CONSENT_CACHE_TTL
                               (load_commit_now o));
         do _ <- setConsentimientos consentimientosActivos;
         setConsentimientosArchivados consentimientosArchivadosLista
     end)
    catch_archivedError.

(** The outer [try]: the active fetch, then the inner [try]. *)
Definition fetch_and_commit (o : LoadOracle) : M unit :=
  try_catch
    (do (dataActivos, errorActivos) <- await_query QActive (load_active o);
     match errorActivos with
     | Some m =>
         throw (Error ("Error al cargar consentimientos activos: " ++ m))
     | None => fetch_archived_and_commit o dataActivos
     end)
    (fun fetchError =>
       if String.eqb (name fetchError) "AbortError" then
         throw (Error "Tiempo de espera agotado al cargar consentimientos activos.")
       else throw fetchError).

(** Everything after the race has settled, inside the outermost [try]. *)
Definition load_after_race (c : Closure) (isManualRetry : bool)
    (o : LoadOracle) (connected : bool) : M unit :=
  if negb connected then load_disconnected c isManualRetry (load_random o)
  else
    do _ <- setConnectionError false;
    do _ <- setRetryCount 0;
    fetch_and_commit o.

(** The outermost [catch (error)]; the model returns the error it logs. *)
Definition load_catch (o : LoadOracle) (error : JsError) : M (option JsError) :=
  do _ <- setConnectionError true;
  do _ <- use_cached (load_catch_now o);
  ret (Some error).

(** The [finally] block. *)
Definition load_finally (a : App) : App :=
  mkApp (lib a)
    (set_cyclesInFlight (pred (cyclesInFlight (ui a)))
       (setIsRetrying_ui false (setLoading_ui false (ui a)))).

(** [loadConsentimientos(isManualRetry)], called on the callback instance
    [c].  The result is the error logged by the outermost handler, if any;
    the promise itself never rejects. *)
Definition loadConsentimientos (c : Closure) (isManualRetry : bool)
    (o : LoadOracle) : M (option JsError) :=
  if load_guard c isManualRetry then ret None
  else
    finally
      (try_catch
         (do _ <- load_begin isManualRetry (load_now o);
          do connected <- race_connection (load_now o) (load_check o)
                            (load_check_in_time o);
          do _ <- load_after_race c isManualRetry o connected;
          ret None)
         (load_catch o))
      load_finally.

(** The same function cut at its first [await]: [load_start] is what runs
    synchronously inside the call (the state it leaves is the one other
    events see while the cycle is in flight), [load_continue] is the rest. *)
Definition load_start (c : Closure) (isManualRetry : bool) (now : Z) (a : App)
    : App :=
  if load_guard c isManualRetry then a
  else snd (load_begin isManualRetry now a).

Definition load_continue (c : Closure) (isManualRetry : bool) (o : LoadOracle)
    : M (option JsError) :=
  finally
    (try_catch
       (do connected <- race_connection (load_now o) (load_check o)
                          (load_check_in_time o);
        do _ <- load_after_race c isManualRetry o connected;
        ret None)
       (load_catch o))
    load_finally.


(** The first render: [useState(false)], [useState(0)]. *)
Definition initial_closure : Closure := mkClosure false 0.

(** ** Events that start a load cycle *)

(** [retryConnection()]: the part that runs inside the call, up to the
    first [await] of the load it starts. *)
Definition retryConnection_start (c : Closure) (now : Z) (a : App) : App :=
  load_start c true now
    (mkApp (lib a) (setConnectionError_ui false (setRetryCount_ui 0 (ui a)))).

(** [retryConnection()] followed to the end of the load it starts. *)
Definition retryConnection (c : Closure) (o : LoadOracle) : M (option JsError) :=
  do _ <- setRetryCount 0;
  do _ <- setConnectionError false;
  loadConsentimientos c true o.


Definition clear_flag (a : App) : App :=       (* setIsRetrying(false) *)
  mkApp (lib a) (setIsRetrying_ui false (ui a)).

(** Each handler below is followed up to the first [await] of the load it
    may start; [c] is the callback instance the handler calls. *)




(** The callback of the [setTimeout] armed by the disconnected branch. *)
Definition on_scheduled_retry (c : Closure) (now : Z) (a : App) : App :=
  load_start c false now (clear_flag a).



(** The first pending timer fires: it leaves the queue and its callback
    runs on the instance that armed it. *)
Definition fire_timer (now : Z) (a : App) : App :=
  match timers (ui a) with
  | [] => a
  | t :: rest =>
      on_scheduled_retry (timer_closure t) now
        (mkApp (lib a) (set_timers rest (ui a)))
  end.

(** ** Lookups *)

(** [getConsentimiento(id)] *)
Definition getConsentimiento (p : Provider) (i : string) : option Consentimiento :=
  match find (fun c => String.eqb (id c) i) (consentimientos p) with
  | Some c => Some c
  | None => find (fun c => String.eqb (id c) i) (consentimientosArchivados p)
  end.

(** [getConsentimientoPorCodigo(codigo)] *)
Definition getConsentimientoPorCodigo (p : Provider) (k : string)
    : option Consentimiento :=
  match find (fun c => String.eqb (codigo c) k) (consentimientos p) with
  | Some c => Some c
  | None => find (fun c => String.eqb (codigo c) k) (consentimientosArchivados p)
  end.

(** ** Create: [addConsentimiento] *)

Definition connectivity_message : string :=
  "No se puede conectar a Supabase. Por favor, verifica tu conexión a internet e inténtalo de nuevo.".

Record AddOracle := mkAddOracle {
  add_now : Z;                 (* Date.now() at the first check            *)
  add_check : CheckOracle;
  add_codigo : string;         (* generateCode()                          *)
  add_fechaCreacion : string;  (* new Date().toISOString()                *)
  add_artist : Reply string;   (* the row {id} of the artist              *)
  add_insert : Reply (list string);  (* the ids of the rows inserted      *)
  add_commit_now : Z;
  add_store_ok : bool;
  add_recheck_now : Z;         (* Date.now() at the check of the handler  *)
  add_recheck : CheckOracle
}.

(** The handler shared by create and archive: check again, flag the
    connection error if disconnected, rethrow. *)
Definition recheck_and_rethrow {A : Type} (now : Z) (o : CheckOracle)
    (error : JsError) : M A :=
  do stillConnected <- call_lib (checkSupabaseConnection now o);
  do _ <- (when negb stillConnected then setConnectionError true);
  throw error.

(** The innermost [try] of [addConsentimiento]: the insert and the local
    update. *)
Definition add_insert_and_commit (o : AddOracle) (n : NuevoConsentimiento)
    : M Consentimiento :=
  try_catch
    (do (d, error) <- await_query QInsert (add_insert o);
     match error with
     | Some m => throw (Error ("Error al guardar consentimiento: " ++ m))
     | None =>
         match d with
         | None | Some [] =>
             throw (Error "No se recibieron datos al crear el consentimiento")
         | Some (newId :: _) =>
             let consentimientoCompleto :=
               {| id := newId;
                  codigo := add_codigo o;
                  fechaCreacion := add_fechaCreacion o;
                  cliente := nuevo_cliente n;
                  tutor := nuevo_tutor n;
                  informacionSalud := nuevo_informacionSalud n;
                  artistaSeleccionado := nuevo_artistaSeleccionado n;
                  firma := nuevo_firma n;
                  archivado := false |} in
             do _ <- (fun a =>
                        let updated := consentimientoCompleto :: consentimientos (ui a) in
                        (Ret tt,
                         mkApp (cacheData (add_store_ok o) CONSENT_CACHE_KEY updated
                                  CONSENT_CACHE_TTL (add_commit_now o) (lib a))
                               (setConsentimientos_ui updated (ui a))));
             ret consentimientoCompleto
         end
     end)
    (fun fetchError =>
       if String.eqb (name fetchError) "AbortError" then
         throw (Error "Tiempo de espera agotado al guardar el consentimiento. Por favor intente nuevamente.")
       else throw fetchError).

(** [addConsentimiento(newConsentimiento)] *)
Definition addConsentimiento (o : AddOracle) (n : NuevoConsentimiento)
    : M Consentimiento :=
  do connected <- call_lib (checkSupabaseConnection (add_now o) (add_check o));
  if negb connected then throw (Error connectivity_message)
  else
    try_catch
      (try_catch
         (do (artistData, artistError) <-
            await_query (QArtist (nuevo_artistaSeleccionado n)) (add_artist o);
          match artistError with
          | Some m =>
              throw (Error ("No se pudo encontrar el artista seleccionado: " ++ m))
          | None =>
              match artistData with
              | None =>
                  (* artistData.id on null *)
                  throw (mkJsError "TypeError"
                           "Cannot read properties of null (reading 'id')")
              | Some _ => add_insert_and_commit o n
              end
          end)
         (fun artistFetchError =>
            if String.eqb (name artistFetchError) "AbortError" then
              throw (Error "Tiempo de espera agotado al buscar el artista. Por favor intente nuevamente.")
            else throw artistFetchError))
      (recheck_and_rethrow (add_recheck_now o) (add_recheck o)).

(** ** Archive: [archivarConsentimiento] *)

Definition not_found_message : string :=
  "No se encontró el consentimiento a archivar".

Definition archive_timeout_message : string :=
  "Tiempo de espera agotado al archivar el consentimiento. Los cambios locales se han aplicado pero podrían no sincronizarse hasta que se restablezca la conexión.".

Record ArchiveOracle := mkArchiveOracle {
  archive_now : Z;
  archive_check : CheckOracle;
  archive_commit_now : Z;
  archive_store_active_ok : bool;
  archive_store_archived_ok : bool;
  archive_rpc : Reply unit;
  archive_recheck_now : Z;
  archive_recheck : CheckOracle
}.

(** [{ ...consentimiento, archivado: true }] *)
Definition marcar_archivado (c : Consentimiento) : Consentimiento :=
  mkConsentimiento (id c) (codigo c) (fechaCreacion c) (cliente c) (tutor c)
    (informacionSalud c) (artistaSeleccionado c) (firma c) true.

(** The local half of the [try] block: from [getConsentimiento] to the two
    cache writes.  [p] is the provider state the function closed over. *)
Definition archivar_local (o : ArchiveOracle) (p : Provider) (i : string)
    : M unit :=
  match getConsentimiento p i with
  | None => throw (Error not_found_message)
  | Some consentimiento =>
      let consentimientoArchivado := marcar_archivado consentimiento in
      let nuevosActivos :=
        List.filter (fun c => negb (String.eqb (id c) i)) (consentimientos p) in
      do _ <- setConsentimientos nuevosActivos;
      let nuevosArchivados :=
        consentimientoArchivado :: consentimientosArchivados p in
      do _ <- setConsentimientosArchivados nuevosArchivados;
      do _ <- update_lib (cacheData (archive_store_active_ok o) CONSENT_CACHE_KEY
                            nuevosActivos CONSENT_CACHE_TTL (archive_commit_now o));
      update_lib (cacheData (archive_store_archived_ok o)
                    ARCHIVED_CONSENT_CACHE_KEY nuevosArchivados
                    CONSENT_CACHE_TTL (archive_commit_now o))
  end.

(** The remote half: the RPC under its own [try]. *)
Definition archivar_remote (o : ArchiveOracle) (i : string) : M unit :=
  try_catch
    (do (_, error) <- await_query (QRpcArchive i) (archive_rpc o);
     match error with
     | Some m => throw (Error ("Error al archivar consentimiento: " ++ m))
     | None => ret tt
     end)
    (fun fetchError =>
       if String.eqb (name fetchError) "AbortError" then
         throw (Error archive_timeout_message)
       else throw fetchError).

(** [archivarConsentimiento(id)] *)
Definition archivarConsentimiento (o : ArchiveOracle) (i : string) : M unit :=
  fun a =>
    let p := ui a in
    (do connected <- call_lib (checkSupabaseConnection (archive_now o)
                                 (archive_check o));
     if negb connected then throw (Error connectivity_message)
     else
       try_catch
         (do _ <- archivar_local o p i;
          archivar_remote o i)
         (recheck_and_rethrow (archive_recheck_now o) (archive_recheck o))) a.

(** ** Vocabulary of the statements *)

(** The requests a connectivity check may issue. *)
Definition is_probe (r : Request) : bool :=
  match r with
  | HeadFetch _ => true
  | SupabaseQuery QConfigCount => true
  | _ => false
  end.

(** Both tiers of the cache are the same in [l] and [l']. *)
Definition same_cache {T : Type} (l l' : Lib T) : Prop :=
  dataCache l' = dataCache l
  /\ forall key, localStorage l' !! durable_key key = localStorage l !! durable_key key.

(** Nothing was written into the cache between [l] and [l']: every entry of
    [l'] was in the same tier of [l], or was brought into memory from the
    durable tier of [l]. *)
Definition no_cache_write {T : Type} (l l' : Lib T) : Prop :=
  (forall key it, dataCache l' !! key = Some it ->
     dataCache l !! key = Some it
     \/ localStorage l !! durable_key key = Some (Json it))
  /\ (forall key v, localStorage l' !! durable_key key = Some v ->
        localStorage l !! durable_key key = Some v).

(** The list [v] is what some entry of the cache of [l] holds under [key]. *)
Definition held_in_cache {T : Type} (l : Lib T) (key : string) (v : T) : Prop :=
  exists it, data it = v
    /\ (dataCache l !! key = Some it
        \/ localStorage l !! durable_key key = Some (Json it)).

(** The connectivity monitor sees the same thing in [l] and [l']: status,
    the two flags, and the request log. *)
Definition same_monitor {T : Type} (l l' : Lib T) : Prop :=
  lastConnectionStatus l' = lastConnectionStatus l
  /\ requests l' = requests l
  /\ localStorage l' !! "app_offline_mode" = localStorage l !! "app_offline_mode"
  /\ localStorage l' !! "app_network_unreachable"
     = localStorage l !! "app_network_unreachable".

(** The provider state [p'] differs from [p] at most in the two lists. *)
Definition same_controls (p p' : Provider) : Prop :=
  loading p' = loading p
  /\ connectionError p' = connectionError p
  /\ retryCount p' = retryCount p
  /\ lastConnectionAttempt p' = lastConnectionAttempt p
  /\ isRetrying p' = isRetrying p
  /\ timers p' = timers p
  /\ cyclesInFlight p' = cyclesInFlight p.

(** The requests [l'] logged after [l] are all probes of the connectivity
    check: no query for data, no insert, no RPC. *)
Definition only_probes_added {T : Type} (l l' : Lib T) : Prop :=
  exists added : list Request,
    requests l' = (added ++ requests l)%list /\ forallb is_probe added = true.

(** The archived fetch fails otherwise than by an abort; [e] is the error
    that leaves the inner [try]. *)
Definition archived_fetch_fails (r : Reply (list Row)) (e : JsError) : Prop :=
  (exists d m, outcome r = Resolved d (Some m)
      /\ e = Error ("Error al cargar consentimientos archivados: " ++ m))
  \/ (outcome r = Rejected e /\ name e <> "AbortError").

(** An empty module state and an unmounted provider, for examples. *)
Definition empty_lib {T : Type} : Lib T :=
  mkLib (mkConnectionStatus false 0) ∅ ∅ [].

Definition initial_provider : Provider :=
  mkProvider [] [] true false 0 None false [] 0.

(** *** Sample data *)

Definition example_cliente : Cliente :=
  mkCliente "Ana" "Rojas" 30 "11.111.111-1" "1994-05-01" "Calle Uno 1"
    "+56 9 1111 1111" "ana@example.org" true.

Definition example_row (i : string) (arch : bool) : Row :=
  mkRow i ("TCF-" ++ i) (Some (mkClientInfo example_cliente None)) None
    (Some "Dani") "firma" arch "2024-01-01T10:00:00.000Z".

Definition example_consentimiento (i : string) : Consentimiento :=
  mkConsentimiento i ("TCF-" ++ i) "2024-01-01T10:00:00.000Z" example_cliente
    None [] "Dani" "firma" false.

Definition example_nuevo : NuevoConsentimiento :=
  mkNuevoConsentimiento example_cliente None [] "Dani" "firma".

(** A [DOMException] raised by an [AbortController]. *)
Definition abort_error : JsError :=
  mkJsError "AbortError" "The user aborted a request.".

(** A world in which everything answers, one in which nothing does. *)
Definition network_up : CheckOracle :=
  mkCheckOracle (fun _ => true) (fun _ => mkReply Responds (Resolved None None)).

Definition network_down : CheckOracle :=
  mkCheckOracle (fun _ => false)
    (fun _ => mkReply (FetchFails (mkJsError "TypeError" "Failed to fetch"))
                (Rejected (mkJsError "TypeError" "Failed to fetch"))).

(** The application right after the first render, nothing cached. *)
Definition app_at_mount : App := mkApp empty_lib initial_provider.

(** A load in which the backend answers the active query with one row and
    the archived query with an error object. *)
Definition load_archived_error : LoadOracle :=
  mkLoadOracle 1700000000000 network_up true 0
    (mkReply Responds (Resolved (Some [example_row "a1" false]) None))
    (mkReply Responds (Resolved None (Some "permission denied for table consents")))
    1700000000400 true true 1700000000500.

(** The same load with the archived query aborted by its 60 s timer. *)
Definition load_archived_timeout : LoadOracle :=
  mkLoadOracle 1700000000000 network_up true 0
    (mkReply Responds (Resolved (Some [example_row "a1" false]) None))
    (mkReply (FetchFails abort_error) (Rejected abort_error))
    1700000060400 true true 1700000060500.

(** A load with the network down. *)
Definition load_network_down : LoadOracle :=
  mkLoadOracle 1700000000000 network_down true (1 # 2)
    (mkReply Responds (Resolved None None))
    (mkReply Responds (Resolved None None))
    1700000000400 true true 1700000000500.

(** One active record, shown and cached by a load at 1700000000000, and a
    connectivity check that succeeded at 1700000095000. *)
Definition app_one_active : App :=
  mkApp
    (set_lastConnectionStatus (mkConnectionStatus true 1700000095000)
       (cacheData true CONSENT_CACHE_KEY [example_consentimiento "a1"]
          CONSENT_CACHE_TTL 1700000000000 empty_lib))
    (setLoading_ui false
       (setConsentimientos_ui [example_consentimiento "a1"] initial_provider)).

(** An archive call at 1700000100000 whose RPC is aborted by its 40 s
    timer. *)
Definition archive_rpc_timeout : ArchiveOracle :=
  mkArchiveOracle 1700000100000 network_up 1700000100300 true true
    (mkReply (FetchFails abort_error) (Rejected abort_error))
    1700000140300 network_down.

(** A create call at 1700000100000 with the network down. *)
Definition add_network_down : AddOracle :=
  mkAddOracle 1700000100000 network_down "TCF-AAAAA-BBBBB"
    "2023-11-14T22:15:00.000Z"
    (mkReply (FetchFails (mkJsError "TypeError" "Failed to fetch"))
       (Resolved None (Some "TypeError: Failed to fetch")))
    (mkReply (FetchFails (mkJsError "TypeError" "Failed to fetch"))
       (Resolved None (Some "TypeError: Failed to fetch")))
    1700000100500 true 1700000100600 network_down.

(** A store holding the list [1; 2] under ["k"] in both tiers. *)
Definition lib_with_entry : Lib (list Z) :=
  cacheData true "k" [1; 2] 60 0 empty_lib.

(** ** The rest of [lib/supabase.ts] *)

Section LibraryRest.

Context {T : Type} `{JsData T}.

(** The module after the page is loaded again: [lastConnectionStatus] and
    [dataCache] are back at their initialisers, [localStorage] persists
    (the request log, a ghost field, goes on). *)
Definition page_reload (l : Lib T) : Lib T :=
  mkLib (mkConnectionStatus false 0) ∅ (localStorage l) (requests l).

(** [clearCache()]: the memory tier is emptied and every key of
    [localStorage] that starts with ['cache_'] is removed. *)
Definition clearCache (l : Lib T) : Lib T :=
  set_localStorage
    (filter (fun kv => String.prefix "cache_" (fst kv) = false) (localStorage l))
    (set_dataCache ∅ l).

End LibraryRest.

(** The URLs [checkInternetConnection] gets to: all up to the first that
    answers. *)
Fixpoint tried_urls (ok : string -> bool) (urls : list string) : list string :=
  match urls with
  | [] => []
  | url :: rest => url :: (if ok url then [] else tried_urls ok rest)
  end.

(** The requests logged after [l] are at most [n] probes. *)
Definition at_most_probes {T : Type} (n : nat) (l l' : Lib T) : Prop :=
  exists added : list Request,
    requests l' = (added ++ requests l)%list
    /\ forallb is_probe added = true
    /\ (length added <= n)%nat.

(** The monitor is locked when offline mode holds and the remembered status
    is "disconnected". *)
Definition locked {T : Type} (l : Lib T) : Prop :=
  isOfflineMode l = true /\ isConnected (lastConnectionStatus l) = false.

(** ** The rest of the provider module *)







(** The initial values of the two [useState] cells that read the cache
    ([getCachedData(…) || []]) and of the others, at the first render. *)
Definition provider_at_mount (now : Z) (l : Lib (list Consentimiento))
    : Provider * Lib (list Consentimiento) :=
  let '(cachedConsents, l1) := getCachedData CONSENT_CACHE_KEY now l in
  let '(cachedArchived, l2) := getCachedData ARCHIVED_CONSENT_CACHE_KEY now l1 in
  (mkProvider (default [] cachedConsents) (default [] cachedArchived)
     true false 0 None false [] 0,
   l2).

(** *** Statistics: the fields of [getEstadisticas()] that do not go through
    the date library *)

(** [totalFormularios], [menoresEdad], [mayoresEdad] *)
Definition totalFormularios (p : Provider) : Z :=
  Z.of_nat (length (consentimientos p)).

Definition menoresEdad (p : Provider) : Z :=
  Z.of_nat (length (List.filter (fun c => edad (cliente c) <? 18)
                      (consentimientos p))).

Definition mayoresEdad (p : Provider) : Z :=
  totalFormularios p - menoresEdad p.

(** A [Map<string, number>], as the list of its entries in insertion
    order. *)
Definition JsMap : Type := list (string * Z).

(** [Map.prototype.get] *)
Fixpoint map_get (k : string) (m : JsMap) : option Z :=
  match m with
  | [] => None
  | (k', v) :: rest => if String.eqb k' k then Some v else map_get k rest
  end.

(** [Map.prototype.set]: an existing key keeps its place. *)
Fixpoint map_set (k : string) (v : Z) (m : JsMap) : JsMap :=
  match m with
  | [] => [(k, v)]
  | (k', v') :: rest =>
      if String.eqb k' k then (k, v) :: rest else (k', v') :: map_set k v rest
  end.

(** The [forEach] that fills [artistasMap]. *)
Definition artistasMap (cs : list Consentimiento) : JsMap :=
  fold_left
    (fun m c =>
       let artista := artistaSeleccionado c in
       if String.eqb artista "" then m
       else map_set artista (default 0 (map_get artista m) + 1) m)
    cs [].

(** [EstadisticaArtista] *)
Record EstadisticaArtista := mkEstadisticaArtista {
  artista_nombre : string;
  totalClientes : Z
}.

(** [Array.prototype.sort((a, b) => b.totalClientes - a.totalClientes)]:
    the sort is stable, so its result is the one of this insertion sort,
    which puts an element before the later elements that compare equal. *)
Fixpoint insert_desc (x : EstadisticaArtista) (l : list EstadisticaArtista)
    : list EstadisticaArtista :=
  match l with
  | [] => [x]
  | y :: rest =>
      if totalClientes x <? totalClientes y then y :: insert_desc x rest
      else x :: y :: rest
  end.

Definition sort_desc (l : list EstadisticaArtista) : list EstadisticaArtista :=
  fold_right insert_desc [] l.

(** [artistasStats] *)
Definition artistasStats (p : Provider) : list EstadisticaArtista :=
  sort_desc
    (map (fun kv => mkEstadisticaArtista (fst kv) (snd kv))
       (artistasMap (consentimientos p))).

(** How many records of [cs] name the artist [k]. *)
Definition clients_of (k : string) (cs : list Consentimiento) : Z :=
  Z.of_nat (length (List.filter
                      (fun c => String.eqb (artistaSeleccionado c) k) cs)).

(** ** [ErrorMessageSupabase]: [formatLastAttempt] *)

(** [formatLastAttempt()], with [lastConnectionAttempt] and the current
    instant in milliseconds. *)
Definition formatLastAttempt (lastAttempt : option Z) (now : Z) : string :=
  match lastAttempt with
  | None => "Sin intentos previos"
  | Some t =>
      let diff := now - t in
      if diff <? 60000 then "hace menos de un minuto"
      else if diff <? 3600000 then
        let minutes := diff / 60000 in
        "hace " ++ pretty minutes ++ " "
        ++ (if minutes =? 1 then "minuto" else "minutos")
      else
        let hours := diff / 3600000 in
        "hace " ++ pretty hours ++ " "
        ++ (if hours =? 1 then "hora" else "horas")
  end.

(** The active fetch fails; [e] is the error that leaves the outer [try]. *)
Definition active_fetch_fails (r : Reply (list Row)) (e : JsError) : Prop :=
  (exists d m, outcome r = Resolved d (Some m)
      /\ e = Error ("Error al cargar consentimientos activos: " ++ m))
  \/ (exists e0, outcome r = Rejected e0
        /\ e = if String.eqb (name e0) "AbortError"
               then Error "Tiempo de espera agotado al cargar consentimientos activos."
               else e0).

(** A load in which both queries are answered, with one row each. *)
Definition load_both_answered : LoadOracle :=
  mkLoadOracle 1700000000000 network_up true 0
    (mkReply Responds (Resolved (Some [example_row "a1" false]) None))
    (mkReply Responds (Resolved (Some [example_row "z9" true]) None))
    1700000000400 true true 1700000000500.

(** A load in which the active query is aborted by its 60 s timer. *)
Definition load_active_timeout : LoadOracle :=
  mkLoadOracle 1700000000000 network_up true 0
    (mkReply (FetchFails abort_error) (Rejected abort_error))
    (mkReply Responds (Resolved (Some [example_row "z9" true]) None))
    1700000060400 true true 1700000060500.

(** A create call at 1700000100000 in which the artist is found and the
    insert returns one row. *)
Definition add_answered : AddOracle :=
  mkAddOracle 1700000100000 network_up "TCF-AAAAA-BBBBB"
    "2023-11-16T02:15:00.000Z"
    (mkReply Responds (Resolved (Some "artist-1") None))
    (mkReply Responds (Resolved (Some ["n1"]) None))
    1700000100500 true 1700000100600 network_up.

(** An archive call at 1700000100000 whose RPC answers with an error. *)
Definition archive_rpc_error : ArchiveOracle :=
  mkArchiveOracle 1700000100000 network_up 1700000100300 true true
    (mkReply Responds (Resolved None (Some "function not found")))
    1700000100600 network_up.

(** One archived record, shown by the provider, after a connectivity check
    that succeeded at 1700000095000. *)
Definition app_one_archived : App :=
  mkApp
    (set_lastConnectionStatus (mkConnectionStatus true 1700000095000) empty_lib)
    (setLoading_ui false
       (setConsentimientosArchivados_ui
          [marcar_archivado (example_consentimiento "z9")] initial_provider)).

(** A store in which the user has switched offline mode on. *)
Definition lib_offline : Lib (list Z) := toggleOfflineMode true empty_lib.

(** The load started three seconds later by the timer, the network still
    down. *)
Definition load_network_still_down : LoadOracle :=
  mkLoadOracle 1700000003000 network_down true (1 # 4)
    (mkReply Responds (Resolved None None))
    (mkReply Responds (Resolved None None))
    1700000003400 true true 1700000003500.

(** The application five seconds after a check that found no connection. *)
Definition app_recently_disconnected : App :=
  mkApp (set_lastConnectionStatus (mkConnectionStatus false 1700000095000) empty_lib)
        initial_provider.

(** * Properties *)

(** ** The cache *)

Section CacheFacts.

Context {T : Type} `{JsData T}.
Implicit Types (l : Lib T) (key : string) (now ttl : Z).

Lemma cacheData_skip ok key (d : T) ttl now l :
  isNull d || isEmptyArray d = true -> cacheData ok key d ttl now l = l.
Proof. intros Hd. unfold cacheData. now rewrite Hd. Qed.

Lemma cacheData_memory ok key (d : T) ttl now l :
  isNull d || isEmptyArray d = false ->
  dataCache (cacheData ok key d ttl now l) !! key
  = Some (mkCacheItem d now (now + ttl * 1000)).
Proof.
  intros Hd. unfold cacheData. rewrite Hd.
  destruct ok; simpl; apply lookup_insert_eq.
Qed.

Lemma cacheData_durable ok key (d : T) ttl now l :
  isNull d || isEmptyArray d = false ->
  localStorage (cacheData ok key d ttl now l) !! durable_key key
  = if ok then Some (Json (mkCacheItem d now (now + ttl * 1000)))
    else localStorage l !! durable_key key.
Proof.
  intros Hd. unfold cacheData. rewrite Hd.
  destruct ok; simpl; [apply lookup_insert_eq | reflexivity].
Qed.

(** A hit in the memory tier. *)
Lemma getCachedData_memory_hit key now l it :
  dataCache l !! key = Some it -> now <= expiry it ->
  getCachedData key now l = (Some (data it), l).
Proof.
  intros Hm Hle. unfold getCachedData. rewrite Hm.
  apply Z.leb_le in Hle. now rewrite Hle.
Qed.

(** Past the expiry of the memory entry the durable tier decides. *)
Lemma getCachedData_memory_expired key now l it :
  dataCache l !! key = Some it -> expiry it < now ->
  getCachedData key now l = getCachedData_durable key now l.
Proof.
  intros Hm Hlt. unfold getCachedData. rewrite Hm.
  apply Z.leb_gt in Hlt. now rewrite Hlt.
Qed.

End CacheFacts.

(** C7.  Storing null or an empty array under a key that holds a good entry
    changes nothing: [cacheData] returns the module state it was given, so
    the entry is still the one held by the memory tier and by the durable
    tier. *)
Theorem set_null_or_empty_keeps_entry {T : Type} `{JsData T}
    (ok : bool) (key : string) (d : T) (ttl now : Z) (l : Lib T)
    (good : CacheItem T) :
  dataCache l !! key = Some good ->
  localStorage l !! durable_key key = Some (Json good) ->
  isNull d || isEmptyArray d = true ->
  cacheData ok key d ttl now l = l
  /\ dataCache (cacheData ok key d ttl now l) !! key = Some good
  /\ localStorage (cacheData ok key d ttl now l) !! durable_key key
     = Some (Json good).
Proof.
  intros Hmem Hdur Hd. rewrite (cacheData_skip _ _ _ _ _ _ Hd). auto.
Qed.

Lemma set_null_or_empty_keeps_entry_witness :
  cacheData true "k" ([] : list Z) 60 5 lib_with_entry = lib_with_entry
  /\ dataCache (cacheData true "k" [] 60 5 lib_with_entry) !! "k"
     = Some (mkCacheItem [1; 2] 0 60000)
  /\ localStorage (cacheData true "k" [] 60 5 lib_with_entry) !! durable_key "k"
     = Some (Json (mkCacheItem [1; 2] 0 60000)).
Proof.
  apply (set_null_or_empty_keeps_entry true "k" ([] : list Z) 60 5
           lib_with_entry (mkCacheItem [1; 2] 0 60000));
    reflexivity.
Defined.

(** C8, as stated, fails on one path: when the durable write of the [set]
    throws (the handler only logs), the durable tier keeps an older entry,
    and a [get] after the new entry has expired serves that older entry if
    it is still valid. *)
Lemma set_then_get_after_ttl_counterexample :
  ~ (forall (ok : bool) (key : string) (v : list Z) (ttl now now' : Z)
            (l : Lib (list Z)),
        isNull v || isEmptyArray v = false ->
        now + ttl * 1000 < now' ->
        fst (getCachedData key now' (cacheData ok key v ttl now l)) = None).
Proof.
  intros claim.
  specialize (claim false "k" [7] 1 10 2000 lib_with_entry eq_refl eq_refl).
  vm_compute in claim. discriminate claim.
Qed.

(** C8, amended.  After [set(key, v, ttl)] with a value that is neither null
    nor an empty array, a [get(key)] up to the expiry instant returns [v];
    a [get(key)] after it returns a miss provided the durable write of the
    [set] succeeded; when that write failed, the [get] returns whatever the
    durable tier held before the [set]. *)
Theorem set_then_get {T : Type} `{JsData T}
    (ok : bool) (key : string) (v : T) (ttl now : Z) (l : Lib T) :
  isNull v || isEmptyArray v = false ->
  let l1 := cacheData ok key v ttl now l in
  (forall now', now' <= now + ttl * 1000 ->
     fst (getCachedData key now' l1) = Some v)
  /\ (forall now', now + ttl * 1000 < now' -> ok = true ->
        fst (getCachedData key now' l1) = None)
  /\ (forall now', now + ttl * 1000 < now' -> ok = false ->
        fst (getCachedData key now' l1)
        = fst (getCachedData_durable key now' l)).
Proof.
  intros Hv l1.
  pose proof (cacheData_memory ok key v ttl now l Hv) as Hmem.
  pose proof (cacheData_durable ok key v ttl now l Hv) as Hdur.
  fold l1 in Hmem, Hdur.
  repeat split.
  - intros now' Hle.
    now rewrite (getCachedData_memory_hit key now' l1 _ Hmem Hle).
  - intros now' Hlt ->.
    rewrite (getCachedData_memory_expired key now' l1 _ Hmem Hlt).
    unfold getCachedData_durable. rewrite Hdur. simpl.
    apply Z.leb_gt in Hlt. now rewrite Hlt.
  - intros now' Hlt ->.
    rewrite (getCachedData_memory_expired key now' l1 _ Hmem Hlt).
    unfold getCachedData_durable. rewrite Hdur.
    destruct (localStorage l !! durable_key key) as [[s|it|]|]; try reflexivity.
    now destruct (now' <=? expiry it).
Qed.

Lemma set_then_get_witness :
  (forall now', now' <= 10 + 60 * 1000 ->
     fst (getCachedData "k" now' (cacheData true "k" [7] 60 10 empty_lib))
     = Some [7])
  /\ (forall now', 10 + 60 * 1000 < now' -> true = true ->
        fst (getCachedData "k" now' (cacheData true "k" [7] 60 10 empty_lib))
        = None)
  /\ (forall now', 10 + 60 * 1000 < now' -> true = false ->
        fst (getCachedData "k" now' (cacheData true "k" [7] 60 10 empty_lib))
        = fst (getCachedData_durable "k" now' (@empty_lib (list Z)))).
Proof.
  apply (set_then_get true "k" ([7] : list Z) 60 10 empty_lib). reflexivity.
Defined.

(** ** The connectivity monitor *)

Section MonitorFacts.

Context {T : Type} `{JsData T}.
Implicit Types (l : Lib T) (now : Z) (o : CheckOracle).

Lemma durable_key_not_offline key : durable_key key <> "app_offline_mode".
Proof. unfold durable_key. simpl. discriminate. Qed.

Lemma durable_key_not_unreachable key :
  durable_key key <> "app_network_unreachable".
Proof. unfold durable_key. simpl. discriminate. Qed.

Lemma same_cache_refl l : same_cache l l.
Proof. split; auto. Qed.

Lemma same_cache_trans l1 l2 l3 :
  same_cache l1 l2 -> same_cache l2 l3 -> same_cache l1 l3.
Proof.
  intros [Hd1 Hs1] [Hd2 Hs2]. split; [congruence|].
  intros key. now rewrite Hs2, Hs1.
Qed.

Lemma same_cache_setItem k v l :
  (forall key, durable_key key <> k) -> same_cache l (setItem k v l).
Proof.
  intros Hk. split; [reflexivity|]. intros key. simpl.
  apply lookup_insert_ne. intros Heq. now apply (Hk key).
Qed.

Lemma same_cache_removeItem k l :
  (forall key, durable_key key <> k) -> same_cache l (removeItem k l).
Proof.
  intros Hk. split; [reflexivity|]. intros key. simpl.
  apply lookup_delete_ne. intros Heq. now apply (Hk key).
Qed.

Lemma same_cache_status s l : same_cache l (set_lastConnectionStatus s l).
Proof. split; reflexivity. Qed.

Lemma same_cache_log r l : same_cache l (log_request r l).
Proof. split; reflexivity. Qed.

Create HintDb cache.
#[local] Hint Resolve same_cache_refl same_cache_status same_cache_log
  durable_key_not_offline durable_key_not_unreachable : cache.

Lemma same_cache_configuredFetch n l :
  same_cache l (snd (configuredFetch n l)).
Proof.
  unfold configuredFetch.
  destruct (isOfflineMode l); [apply same_cache_refl|].
  destruct n as [|err]; simpl.
  - destruct (getItem_is_true _ l); [|apply same_cache_refl].
    apply same_cache_removeItem; auto with cache.
  - destruct (String.eqb (name err) "AbortError"); simpl.
    + apply same_cache_setItem; auto with cache.
    + destruct (_ && _); simpl; [|apply same_cache_refl].
      apply same_cache_setItem; auto with cache.
Qed.

Lemma same_cache_supabase_query {A : Type} q (r : Reply A) l :
  same_cache l (snd (supabase_query q r l)).
Proof.
  unfold supabase_query. simpl.
  eapply same_cache_trans; [apply same_cache_log|].
  apply same_cache_configuredFetch.
Qed.

Lemma same_cache_try_urls ok urls l :
  same_cache l (snd (try_urls ok urls l)).
Proof.
  revert l. induction urls as [|url rest IH]; intros l; simpl.
  - apply same_cache_refl.
  - destruct (ok url); simpl.
    + apply same_cache_log.
    + eapply same_cache_trans; [apply same_cache_log | apply IH].
Qed.

Lemma same_cache_probe_loop remaining currentRetry pr now l :
  same_cache l (snd (probe_loop remaining currentRetry pr now l)).
Proof.
  revert currentRetry l.
  induction remaining as [|n IH]; intros currentRetry l; cbn [probe_loop].
  - apply same_cache_status.
  - pose proof (same_cache_supabase_query QConfigCount (pr currentRetry) l) as Hq.
    destruct (supabase_query QConfigCount (pr currentRetry) l) as [out l1].
    cbn [snd] in Hq.
    destruct out as [d [m|]|e]; cbn [snd].
    + eapply same_cache_trans; [exact Hq | apply same_cache_status].
    + eapply same_cache_trans; [exact Hq|].
      eapply same_cache_trans; [apply same_cache_status|].
      eapply same_cache_trans;
        [apply same_cache_removeItem | apply same_cache_removeItem];
        auto with cache.
    + destruct (maxRetries <=? S currentRetry)%nat; cbn [snd].
      * eapply same_cache_trans; [exact Hq|].
        eapply same_cache_trans; [apply same_cache_status|].
        apply same_cache_setItem; auto with cache.
      * eapply same_cache_trans; [exact Hq | apply IH].
Qed.

(** A connectivity check never touches the cache. *)
Lemma same_cache_checkSupabaseConnection now o l :
  same_cache l (snd (checkSupabaseConnection now o l)).
Proof.
  unfold checkSupabaseConnection.
  destruct (_ <? CACHE_TTL); [apply same_cache_refl|].
  destruct (isOfflineMode l); [apply same_cache_status|].
  unfold checkInternetConnection.
  pose proof (same_cache_try_urls (head_ok o) testUrls l) as Hu.
  destruct (try_urls (head_ok o) testUrls l) as [[|] l1]; cbn [snd negb] in *.
  - eapply same_cache_trans; [exact Hu | apply same_cache_probe_loop].
  - eapply same_cache_trans; [exact Hu|].
    eapply same_cache_trans; [|apply same_cache_status].
    apply same_cache_setItem; auto with cache.
Qed.

(** Within the debounce window the check is answered from
    [lastConnectionStatus] and leaves the state alone. *)
Lemma checkSupabaseConnection_debounced now o l :
  now - checkedAt (lastConnectionStatus l) < CACHE_TTL ->
  checkSupabaseConnection now o l = (isConnected (lastConnectionStatus l), l).
Proof.
  intros Hlt. unfold checkSupabaseConnection.
  apply Z.ltb_lt in Hlt. now rewrite Hlt.
Qed.

(** Outside the window, offline mode answers [false] at once. *)
Lemma checkSupabaseConnection_offline now o l :
  CACHE_TTL <= now - checkedAt (lastConnectionStatus l) ->
  isOfflineMode l = true ->
  checkSupabaseConnection now o l
  = (false, set_lastConnectionStatus (mkConnectionStatus false now) l).
Proof.
  intros Hge Hoff. unfold checkSupabaseConnection.
  apply Z.ltb_ge in Hge. now rewrite Hge, Hoff.
Qed.

End MonitorFacts.

(** C2, as stated, fails: with the override flag set, a check made within
    10 s of a successful one returns the remembered [true]. *)
Lemma offline_check_counterexample :
  ~ (forall (now : Z) (o : CheckOracle) (l : Lib (list Z)),
        getItem_is_true "app_offline_mode" l = true ->
        fst (checkSupabaseConnection now o l) = false
        /\ requests (snd (checkSupabaseConnection now o l)) = requests l).
Proof.
  intros claim.
  destruct (claim 5000
              (mkCheckOracle (fun _ => false)
                 (fun _ => mkReply (FetchFails (Error "down")) (Rejected (Error "down"))))
              (toggleOfflineMode true
                 (set_lastConnectionStatus (mkConnectionStatus true 1000) empty_lib))
              eq_refl) as [Hfalse _].
  vm_compute in Hfalse. discriminate Hfalse.
Qed.

(** C2, amended.  With the offline-mode override flag set,
    [checkSupabaseConnection] issues no request at all; it returns [false],
    except within 10 s of the previous check, where it returns the result
    of that check (which may be [true]). *)
Theorem offline_check (T : Type) `{JsData T}
    (now : Z) (o : CheckOracle) (l : Lib T) :
  getItem_is_true "app_offline_mode" l = true ->
  requests (snd (checkSupabaseConnection now o l)) = requests l
  /\ fst (checkSupabaseConnection now o l)
     = (if now - checkedAt (lastConnectionStatus l) <? CACHE_TTL
        then isConnected (lastConnectionStatus l) else false).
Proof.
  intros Hflag. unfold checkSupabaseConnection.
  destruct (now - checkedAt (lastConnectionStatus l) <? CACHE_TTL);
    [split; reflexivity|].
  unfold isOfflineMode. rewrite Hflag. simpl. split; reflexivity.
Qed.

Lemma offline_check_witness :
  let l : Lib (list Z) := toggleOfflineMode true empty_lib in
  let o := mkCheckOracle (fun _ => true)
             (fun _ => mkReply Responds (Resolved (Some tt) None)) in
  requests (snd (checkSupabaseConnection 1700000000000 o l)) = requests l
  /\ fst (checkSupabaseConnection 1700000000000 o l)
     = (if 1700000000000 - checkedAt (lastConnectionStatus l) <? CACHE_TTL
        then isConnected (lastConnectionStatus l) else false).
Proof.
  intros l o. apply (offline_check (list Z) 1700000000000 o l). reflexivity.
Defined.

(** ** The back-off delay *)








(** Once the exponential term passes the cap the order is lost: attempt 5
    (nominal 96 s) can wait longer than attempt 6 (nominal 120 s). *)
Example retry_delay_can_drop_at_the_cap :
  getRetryDelay 5 (99 # 100) = 124224 /\ getRetryDelay 6 0 = 84000.
Proof. split; vm_compute; reflexivity. Qed.

(** ** Reading the cache writes nothing *)

Section ReadFacts.

Context {T : Type} `{JsData T}.
Implicit Types (l : Lib T) (key : string) (now : Z).

Lemma no_cache_write_refl l : no_cache_write l l.
Proof. split; auto. Qed.

Lemma no_cache_write_trans l1 l2 l3 :
  no_cache_write l1 l2 -> no_cache_write l2 l3 -> no_cache_write l1 l3.
Proof.
  intros [Hm1 Hs1] [Hm2 Hs2]. split.
  - intros key it Hit. destruct (Hm2 key it Hit) as [Hin|Hin].
    + now apply Hm1.
    + right. now apply Hs1.
  - intros key v Hv. now apply Hs1, Hs2.
Qed.

Lemma same_cache_no_write l l' : same_cache l l' -> no_cache_write l l'.
Proof.
  intros [Hd Hs]. split.
  - intros key it Hit. left. now rewrite <- Hd.
  - intros key v Hv. now rewrite <- Hs.
Qed.

Lemma held_in_cache_earlier l l' key (v : T) :
  no_cache_write l l' -> held_in_cache l' key v -> held_in_cache l key v.
Proof.
  intros [Hm Hs] (it & Hdata & [Hin|Hin]); exists it; split; auto.
Qed.

Lemma durable_key_inj key key' : durable_key key = durable_key key' -> key = key'.
Proof. unfold durable_key. cbn [String.append]. intros [=]. assumption. Qed.

Lemma same_monitor_refl l : same_monitor l l.
Proof. repeat split. Qed.

Lemma same_monitor_trans l1 l2 l3 :
  same_monitor l1 l2 -> same_monitor l2 l3 -> same_monitor l1 l3.
Proof.
  intros (A1 & B1 & C1 & D1) (A2 & B2 & C2 & D2).
  repeat split; congruence.
Qed.

Lemma getCachedData_durable_reads key now l :
  no_cache_write l (snd (getCachedData_durable key now l))
  /\ same_monitor l (snd (getCachedData_durable key now l))
  /\ (forall v, fst (getCachedData_durable key now l) = Some v ->
        held_in_cache l key v).
Proof.
  unfold getCachedData_durable.
  destruct (localStorage l !! durable_key key) as [[s|it|]|] eqn:Hs;
    cbn [fst snd].
  - repeat split; auto; discriminate.
  - destruct (now <=? expiry it); cbn [fst snd].
    + split; [|split].
      * split; [|auto]. intros key' it' Hit'. simpl in Hit'.
        rewrite lookup_insert in Hit'. case_decide as Hk.
        -- subst key'. injection Hit' as <-. now right.
        -- now left.
      * repeat split.
      * intros v [= <-]. exists it. auto.
    + split; [|split].
      * split; [auto|]. intros key' v Hv. simpl in Hv.
        rewrite lookup_delete in Hv. now case_decide.
      * repeat split; simpl; apply lookup_delete_ne;
          [apply durable_key_not_offline | apply durable_key_not_unreachable].
      * discriminate.
  - split; [|split].
    + split; [auto|]. intros key' v Hv. simpl in Hv.
      rewrite lookup_delete in Hv. now case_decide.
    + repeat split; simpl; apply lookup_delete_ne;
        [apply durable_key_not_offline | apply durable_key_not_unreachable].
    + discriminate.
  - repeat split; auto; discriminate.
Qed.

(** [getCachedData] only moves entries between the tiers or drops them, and
    what it returns was held by the cache. *)
Lemma getCachedData_reads key now l :
  no_cache_write l (snd (getCachedData key now l))
  /\ same_monitor l (snd (getCachedData key now l))
  /\ (forall v, fst (getCachedData key now l) = Some v -> held_in_cache l key v).
Proof.
  unfold getCachedData.
  destruct (dataCache l !! key) as [it|] eqn:Hm;
    [destruct (now <=? expiry it)|];
    try apply getCachedData_durable_reads.
  cbn [fst snd]. split; [apply no_cache_write_refl|].
  split; [apply same_monitor_refl|].
  intros v [= <-]. exists it. auto.
Qed.

Lemma try_urls_result ok urls l l' :
  fst (try_urls ok urls l) = fst (try_urls ok urls l').
Proof.
  revert l l'. induction urls as [|url rest IH]; intros l l'; simpl; [easy|].
  destruct (ok url); [reflexivity | apply IH].
Qed.

Lemma probe_loop_result remaining currentRetry pr now l l' :
  fst (probe_loop remaining currentRetry pr now l)
  = fst (probe_loop remaining currentRetry pr now l').
Proof.
  revert currentRetry l l'.
  induction remaining as [|n IH]; intros currentRetry l l'; cbn [probe_loop];
    [reflexivity|].
  unfold supabase_query.
  destruct (outcome (pr currentRetry)) as [d [m|]|e]; try reflexivity.
  destruct (maxRetries <=? S currentRetry)%nat; [reflexivity | apply IH].
Qed.

(** The answer of a connectivity check depends on the module state only
    through the remembered status and the two flags. *)
Lemma checkSupabaseConnection_result now o l l' :
  same_monitor l l' ->
  fst (checkSupabaseConnection now o l') = fst (checkSupabaseConnection now o l).
Proof.
  intros (Hst & _ & Hoff & Hun). unfold checkSupabaseConnection.
  rewrite Hst.
  destruct (_ <? CACHE_TTL); [reflexivity|].
  assert (Hmode : isOfflineMode l' = isOfflineMode l).
  { unfold isOfflineMode, getItem_is_true. now rewrite Hoff, Hun. }
  rewrite Hmode. destruct (isOfflineMode l); [reflexivity|].
  unfold checkInternetConnection.
  pose proof (try_urls_result (head_ok o) testUrls l' l) as Hu.
  destruct (try_urls (head_ok o) testUrls l') as [b1 l1'].
  destruct (try_urls (head_ok o) testUrls l) as [b1' l1].
  cbn [fst] in Hu. subst b1'.
  destruct b1; cbn [negb fst]; [apply probe_loop_result | reflexivity].
Qed.

End ReadFacts.

(** ** The provider *)

Lemma same_controls_refl p : same_controls p p.
Proof. repeat split. Qed.

Lemma same_controls_trans p1 p2 p3 :
  same_controls p1 p2 -> same_controls p2 p3 -> same_controls p1 p3.
Proof. unfold same_controls. intuition congruence. Qed.

Lemma length_gt_0_default c :
  length_gt_0 c = true -> c = Some (default [] c).
Proof. destruct c as [[|x l]|]; simpl; intros; congruence. Qed.

(** The block that shows cached lists never throws, writes nothing into the
    cache, and a list it shows was held by the cache. *)
Lemma use_cached_reads now a :
  exists c1 c2 a',
    use_cached now a = (Ret (c1, c2), a')
    /\ no_cache_write (lib a) (lib a')
    /\ same_monitor (lib a) (lib a')
    /\ same_controls (ui a) (ui a')
    /\ (consentimientos (ui a') = consentimientos (ui a)
        \/ held_in_cache (lib a) CONSENT_CACHE_KEY (consentimientos (ui a')))
    /\ (consentimientosArchivados (ui a') = consentimientosArchivados (ui a)
        \/ held_in_cache (lib a) ARCHIVED_CONSENT_CACHE_KEY
             (consentimientosArchivados (ui a'))).
Proof.
  unfold use_cached, bind, call_lib.
  destruct (getCachedData_reads CONSENT_CACHE_KEY now (lib a)) as (W1 & M1 & H1).
  destruct (getCachedData CONSENT_CACHE_KEY now (lib a)) as [c1 l1].
  cbn [fst snd lib ui] in *.
  destruct (getCachedData_reads ARCHIVED_CONSENT_CACHE_KEY now l1) as (W2 & M2 & H2).
  destruct (getCachedData ARCHIVED_CONSENT_CACHE_KEY now l1) as [c2 l2].
  cbn [fst snd lib ui] in *.
  assert (W : no_cache_write (lib a) l2) by (eapply no_cache_write_trans; eauto).
  assert (Mo : same_monitor (lib a) l2) by (eapply same_monitor_trans; eauto).
  exists c1, c2.
  destruct (length_gt_0 c1) eqn:L1; destruct (length_gt_0 c2) eqn:L2;
    cbn [orb]; unfold setConsentimientos, setConsentimientosArchivados,
      update_ui, ret; cbn [lib ui];
    eexists; (split; [reflexivity|]); cbn [lib ui];
    (split; [exact W|]); (split; [exact Mo|]);
    (split; [repeat split|]); cbn;
    split; auto; right.
  all: try (apply H1; now apply length_gt_0_default).
  all: eapply held_in_cache_earlier; [exact W1|];
    apply H2; now apply length_gt_0_default.
Qed.

(** ** Symbolic execution of the monadic code *)

Ltac run :=
  repeat progress
    (unfold bind, ret, throw, try_catch, finally, update_ui, update_lib,
       setIsRetrying, setLoading, setConnectionError, setRetryCount,
       setLastConnectionAttempt, setConsentimientos,
       setConsentimientosArchivados, incrRetryCount, setTimeout;
     cbn [lib ui fst snd]).

(** ** Requests *)

Section RequestFacts.
Context {T : Type} `{JsData T}.
Implicit Types (l : Lib T).

Lemma requests_configuredFetch n l :
  requests (snd (configuredFetch n l)) = requests l.
Proof.
  unfold configuredFetch.
  destruct (isOfflineMode l); [reflexivity|].
  destruct n as [|err]; cbn [snd].
  - now destruct (getItem_is_true _ l).
  - destruct (String.eqb (name err) "AbortError"); [reflexivity|].
    now destruct (_ && _).
Qed.

Lemma requests_supabase_query {A : Type} q (r : Reply A) l :
  requests (snd (supabase_query q r l)) = SupabaseQuery q :: requests l.
Proof. unfold supabase_query. cbn [snd]. now rewrite requests_configuredFetch. Qed.

Lemma only_probes_refl l : only_probes_added l l.
Proof. now exists []. Qed.

Lemma only_probes_trans l1 l2 l3 :
  only_probes_added l1 l2 -> only_probes_added l2 l3 -> only_probes_added l1 l3.
Proof.
  intros (x & Hx & Px) (y & Hy & Py). exists (y ++ x)%list. split.
  - rewrite Hy, Hx. now rewrite app_assoc.
  - rewrite forallb_app. now rewrite Px, Py.
Qed.

Lemma only_probes_one r l l' :
  is_probe r = true -> requests l' = r :: requests l -> only_probes_added l l'.
Proof. intros Hr Heq. exists [r]. split; [exact Heq|]. cbn. now rewrite Hr. Qed.

Lemma only_probes_same l l' : requests l' = requests l -> only_probes_added l l'.
Proof. intros Heq. now exists []. Qed.

Lemma only_probes_try_urls ok urls l :
  only_probes_added l (snd (try_urls ok urls l)).
Proof.
  revert l. induction urls as [|url rest IH]; intros l; cbn [try_urls].
  - apply only_probes_refl.
  - destruct (ok url); cbn [snd].
    + now apply (only_probes_one (HeadFetch url)).
    + eapply only_probes_trans; [|apply IH].
      now apply (only_probes_one (HeadFetch url)).
Qed.

Lemma only_probes_probe_loop remaining currentRetry pr now l :
  only_probes_added l (snd (probe_loop remaining currentRetry pr now l)).
Proof.
  revert currentRetry l.
  induction remaining as [|n IH]; intros currentRetry l; cbn [probe_loop].
  - now apply only_probes_same.
  - pose proof (requests_supabase_query QConfigCount (pr currentRetry) l) as Hq.
    destruct (supabase_query QConfigCount (pr currentRetry) l) as [out l1].
    cbn [snd] in Hq.
    assert (Hone : only_probes_added l l1)
      by now apply (only_probes_one (SupabaseQuery QConfigCount)).
    destruct out as [d [m|]|e]; cbn [snd].
    + eapply only_probes_trans; [exact Hone|]. now apply only_probes_same.
    + eapply only_probes_trans; [exact Hone|]. now apply only_probes_same.
    + destruct (maxRetries <=? S currentRetry)%nat; cbn [snd].
      * eapply only_probes_trans; [exact Hone|]. now apply only_probes_same.
      * eapply only_probes_trans; [exact Hone | apply IH].
Qed.

(** A connectivity check issues probes only. *)
Lemma only_probes_checkSupabaseConnection now o l :
  only_probes_added l (snd (checkSupabaseConnection now o l)).
Proof.
  unfold checkSupabaseConnection.
  destruct (_ <? CACHE_TTL); [apply only_probes_refl|].
  destruct (isOfflineMode l); [now apply only_probes_same|].
  unfold checkInternetConnection.
  pose proof (only_probes_try_urls (head_ok o) testUrls l) as Hu.
  destruct (try_urls (head_ok o) testUrls l) as [[|] l1]; cbn [snd negb] in *.
  - eapply only_probes_trans; [exact Hu | apply only_probes_probe_loop].
  - eapply only_probes_trans; [exact Hu|]. now apply only_probes_same.
Qed.

End RequestFacts.

Lemma find_id_absent (i : string) (cs : list Consentimiento) :
  (forall c, In c cs -> id c <> i) ->
  find (fun c => String.eqb (id c) i) cs = None.
Proof.
  induction cs as [|c cs IH]; intros Hno; cbn [find]; [reflexivity|].
  destruct (String.eqb (id c) i) eqn:Heq.
  - apply String.eqb_eq in Heq. exfalso. apply (Hno c); [now left | exact Heq].
  - apply IH. intros c' Hin. apply Hno. now right.
Qed.

(** The handler of create and archive: the error goes on, the cache and the
    lists stay, and at most the connection-error flag is raised. *)
Lemma recheck_and_rethrow_run {A : Type} now o e (a : App) :
  exists a',
    @recheck_and_rethrow A now o e a = (Throw e, a')
    /\ same_cache (lib a) (lib a')
    /\ only_probes_added (lib a) (lib a')
    /\ (ui a' = ui a \/ ui a' = setConnectionError_ui true (ui a)).
Proof.
  unfold recheck_and_rethrow, call_lib. run.
  pose proof (same_cache_checkSupabaseConnection now o (lib a)) as Hs.
  pose proof (only_probes_checkSupabaseConnection now o (lib a)) as Hp.
  destruct (checkSupabaseConnection now o (lib a)) as [[|] l1];
    cbn [negb fst snd] in *; run; eexists; (split; [reflexivity|]);
    cbn [lib ui]; auto.
Qed.

Lemma await_query_run {A : Type} (q : Query) (r : Reply A) (a : App) :
  exists l,
    same_cache (lib a) l
    /\ requests l = SupabaseQuery q :: requests (lib a)
    /\ await_query q r a
       = (match outcome r with
          | Resolved d error => Ret (d, error)
          | Rejected e => Throw e
          end, mkApp l (ui a)).
Proof.
  unfold await_query.
  pose proof (same_cache_supabase_query q r (lib a)) as Hs.
  pose proof (requests_supabase_query q r (lib a)) as Hr.
  destruct (supabase_query q r (lib a)) as [out l] eqn:E.
  assert (Hout : out = outcome r).
  { unfold supabase_query in E. now injection E as <- _. }
  cbn [snd] in *. exists l. subst out. split; [exact Hs|]. split; [exact Hr|].
  now destruct (outcome r).
Qed.

Ltac await :=
  match goal with |- context [await_query ?q ?r ?s] =>
    let l := fresh "l" in let Hsame := fresh "Hsame" in
    let Hreq := fresh "Hreq" in let E := fresh "E" in
    destruct (await_query_run q r s) as (l & Hsame & Hreq & E); rewrite E; clear E;
    cbn [lib ui] in Hsame, Hreq
  end.

Section CacheKeyFacts.
Context {T : Type} `{JsData T}.
Implicit Types (l : Lib T).

Lemma cacheData_other_key ok key key' (d : T) ttl now l :
  key <> key' ->
  dataCache (cacheData ok key d ttl now l) !! key' = dataCache l !! key'
  /\ localStorage (cacheData ok key d ttl now l) !! durable_key key'
     = localStorage l !! durable_key key'.
Proof.
  intros Hne. unfold cacheData.
  destruct (isNull d || isEmptyArray d); [auto|].
  destruct ok; cbn; split; try reflexivity.
  - now apply lookup_insert_ne.
  - apply lookup_insert_ne. intros Heq. now apply durable_key_inj in Heq.
  - now apply lookup_insert_ne.
Qed.


End CacheKeyFacts.

Lemma keys_differ : CONSENT_CACHE_KEY <> ARCHIVED_CONSENT_CACHE_KEY.
Proof. discriminate. Qed.



(** ** Partial failure of a load *)

Lemma archived_failure_run
    (c : Closure) (manual : bool) (o : LoadOracle) (a : App)
    (dataActivos : option (list Row)) (e : JsError) :
  load_guard c manual = false ->
  fst (checkSupabaseConnection (load_now o) (load_check o) (lib a)) = true ->
  load_check_in_time o = true ->
  outcome (load_active o) = Resolved dataActivos None ->
  archived_fetch_fails (load_archived o) e ->
  exists a',
    loadConsentimientos c manual o a = (Ret (Some e), a')
    /\ no_cache_write (lib a) (lib a')
    /\ connectionError (ui a') = true
    /\ (consentimientos (ui a') = consentimientos (ui a)
        \/ held_in_cache (lib a) CONSENT_CACHE_KEY (consentimientos (ui a'))).
Proof.
  intros Hguard Hconn Htime Hactive Harch.
  unfold loadConsentimientos. rewrite Hguard.
  unfold load_begin. run.
  match goal with |- context [use_cached ?n ?s] =>
    destruct (use_cached_reads n s) as (c1 & c2 & a1 & E1 & W1 & M1 & K1 & V1 & _);
    rewrite E1 end.
  cbn [lib ui] in *.
  unfold race_connection, call_lib. run.
  pose proof (checkSupabaseConnection_result (load_now o) (load_check o) _ _ M1) as Hres.
  pose proof (same_cache_checkSupabaseConnection (load_now o) (load_check o) (lib a1)) as S2.
  destruct (checkSupabaseConnection (load_now o) (load_check o) (lib a1)) as [b l2].
  cbn [fst snd] in *. rewrite Hconn in Hres. subst b. rewrite Htime.
  cbn [andb]. unfold load_after_race. cbn [negb]. run.
  unfold fetch_and_commit. run. await. rewrite Hactive.
  unfold fetch_archived_and_commit. run. await.
  assert (Hne : String.eqb (name e) "AbortError" = false).
  { destruct Harch as [(d & m & _ & ->)|[_ Hne]]; [reflexivity|].
    now apply String.eqb_neq. }
  assert (W3 : no_cache_write (lib a) l0).
  { eapply no_cache_write_trans; [exact W1|]. apply same_cache_no_write.
    eapply same_cache_trans; [exact S2|].
    eapply same_cache_trans; [exact Hsame|exact Hsame0]. }
  destruct Harch as [(d & m & -> & He)|[-> _]]; run;
    unfold catch_archivedError; rewrite <- ?He;
    repeat (rewrite Hne; run);
    unfold load_catch; run;
    match goal with |- context [use_cached ?n ?s] =>
      destruct (use_cached_reads n s)
        as (c3 & c4 & a5 & E5 & W5 & M5 & K5 & V5 & _);
      rewrite E5 end;
    cbn [lib ui] in *;
    (eexists; split; [reflexivity|]);
    unfold load_finally; cbn [lib ui];
    (split; [eapply no_cache_write_trans; eassumption|]);
    (split; [cbn; destruct K5 as (_ & -> & _); reflexivity|]).
  all: cbn in V1, V5 |- *.
  all: destruct V5 as [->|V5];
    [exact V1 | right; eapply held_in_cache_earlier; eassumption].
Qed.

(** C1, as stated, fails: when the archived fetch comes back with an error
    object after the active fetch delivered one row, the row is neither
    shown nor cached. *)
Lemma archived_failure_counterexample :
  ~ (forall (c : Closure) (manual : bool) (o : LoadOracle) (a : App)
            (dataActivos : option (list Row)),
        load_guard c manual = false ->
        fst (checkSupabaseConnection (load_now o) (load_check o) (lib a)) = true ->
        load_check_in_time o = true ->
        outcome (load_active o) = Resolved dataActivos None ->
        ((exists d m, outcome (load_archived o) = Resolved d (Some m))
         \/ (exists e, outcome (load_archived o) = Rejected e)) ->
        consentimientos (ui (snd (loadConsentimientos c manual o a)))
        = transformarDatos dataActivos
        /\ fst (getCachedData CONSENT_CACHE_KEY (load_catch_now o)
                  (lib (snd (loadConsentimientos c manual o a))))
           = Some (transformarDatos dataActivos)).
Proof.
  intros claim.
  destruct (claim initial_closure false load_archived_error app_at_mount
              (Some [example_row "a1" false]) eq_refl eq_refl eq_refl eq_refl)
    as [Hshown _].
  - left. now exists None, "permission denied for table consents".
  - vm_compute in Hshown. discriminate Hshown.
Qed.

(** C1, amended.  When the active fetch succeeds and the archived fetch then
    fails otherwise than by an abort (an error object in the reply, or a
    rejection whose name is not [AbortError]), the load commits nothing:
    no entry is written into the cache, the active list shown is the one
    shown before or one the cache held, the connection-error state is set,
    and the error reported is the archived-fetch error. *)
Theorem archived_failure_commits_nothing
    (c : Closure) (manual : bool) (o : LoadOracle) (a : App)
    (dataActivos : option (list Row)) (e : JsError) :
  load_guard c manual = false ->
  fst (checkSupabaseConnection (load_now o) (load_check o) (lib a)) = true ->
  load_check_in_time o = true ->
  outcome (load_active o) = Resolved dataActivos None ->
  archived_fetch_fails (load_archived o) e ->
  fst (loadConsentimientos c manual o a) = Ret (Some e)
  /\ no_cache_write (lib a) (lib (snd (loadConsentimientos c manual o a)))
  /\ connectionError (ui (snd (loadConsentimientos c manual o a))) = true
  /\ (consentimientos (ui (snd (loadConsentimientos c manual o a)))
      = consentimientos (ui a)
      \/ held_in_cache (lib a) CONSENT_CACHE_KEY
           (consentimientos (ui (snd (loadConsentimientos c manual o a))))).
Proof.
  intros Hguard Hconn Htime Hactive Harch.
  destruct (archived_failure_run c manual o a dataActivos e
              Hguard Hconn Htime Hactive Harch) as (a' & -> & Hrest).
  cbn [fst snd]. split; [reflexivity | exact Hrest].
Qed.

Lemma archived_failure_commits_nothing_witness :
  let e := Error ("Error al cargar consentimientos archivados: "
                  ++ "permission denied for table consents") in
  let after := snd (loadConsentimientos initial_closure false
                      load_archived_error app_at_mount) in
  fst (loadConsentimientos initial_closure false load_archived_error app_at_mount)
  = Ret (Some e)
  /\ no_cache_write (lib app_at_mount) (lib after)
  /\ connectionError (ui after) = true
  /\ (consentimientos (ui after) = consentimientos (ui app_at_mount)
      \/ held_in_cache (lib app_at_mount) CONSENT_CACHE_KEY
           (consentimientos (ui after))).
Proof.
  intros e after.
  apply (archived_failure_commits_nothing initial_closure false
           load_archived_error app_at_mount (Some [example_row "a1" false]) e);
    try reflexivity.
  left. exists None, "permission denied for table consents".
  split; reflexivity.
Defined.

(** The abort branch of the handler, evaluated: the archived query is
    aborted by its timer, the handler stops at the name it cannot resolve,
    and the row delivered by the active query is not shown. *)
Example archived_timeout_run :
  fst (loadConsentimientos initial_closure false load_archived_timeout app_at_mount)
  = Ret (Some (mkJsError "ReferenceError" "transformarDatos is not defined"))
  /\ consentimientos
       (ui (snd (loadConsentimientos initial_closure false
                   load_archived_timeout app_at_mount))) = []
  /\ dataCache
       (lib (snd (loadConsentimientos initial_closure false
                    load_archived_timeout app_at_mount))) !! CONSENT_CACHE_KEY
     = None.
Proof. repeat split; vm_compute; reflexivity. Qed.

(** The same load with both queries answered commits both lists. *)
Example load_success_run :
  let o := mkLoadOracle 1700000000000 network_up true 0
             (mkReply Responds (Resolved (Some [example_row "a1" false]) None))
             (mkReply Responds (Resolved (Some [example_row "z9" true]) None))
             1700000000400 true true 1700000000500 in
  let after := snd (loadConsentimientos initial_closure false o app_at_mount) in
  List.map id (consentimientos (ui after)) = ["a1"]
  /\ List.map id (consentimientosArchivados (ui after)) = ["z9"]
  /\ connectionError (ui after) = false
  /\ cyclesInFlight (ui after) = 0%nat.
Proof. repeat split; vm_compute; reflexivity. Qed.

(** ** Archive *)







(** ** Triggers and the in-flight guard *)

(** The synchronous start of a load: what it leaves behind. *)
Lemma load_begin_run (manual : bool) (now : Z) (a : App) :
  exists a1,
    load_begin manual now a = (Ret tt, a1)
    /\ no_cache_write (lib a) (lib a1)
    /\ same_monitor (lib a) (lib a1)
    /\ isRetrying (ui a1) = true
    /\ cyclesInFlight (ui a1) = S (cyclesInFlight (ui a))
    /\ retryCount (ui a1) = retryCount (ui a)
    /\ connectionError (ui a1) = connectionError (ui a)
    /\ timers (ui a1) = timers (ui a)
    /\ (consentimientos (ui a1) = consentimientos (ui a)
        \/ held_in_cache (lib a) CONSENT_CACHE_KEY (consentimientos (ui a1))).
Proof.
  unfold load_begin. run.
  match goal with |- context [use_cached ?n ?s] =>
    destruct (use_cached_reads n s)
      as (c1 & c2 & a1 & E1 & W1 & M1 & K1 & V1 & _);
    rewrite E1 end.
  cbn [lib ui] in *.
  destruct K1 as (_ & Kerr & Kcount & _ & Kretry & Ktimers & Kcycles).
  exists a1. split; [reflexivity|].
  rewrite Kerr, Kcount, Kretry, Ktimers, Kcycles. cbn.
  repeat split; try apply W1; try apply M1. exact V1.
Qed.

(** Cutting the function at its first [await] loses nothing. *)
Lemma loadConsentimientos_cut (c : Closure) (manual : bool) (o : LoadOracle)
    (a : App) :
  loadConsentimientos c manual o a
  = if load_guard c manual then (Ret None, a)
    else load_continue c manual o (load_start c manual (load_now o) a).
Proof.
  unfold loadConsentimientos, load_continue, load_start.
  destruct (load_guard c manual); [reflexivity|].
  unfold finally, try_catch. unfold bind at 1.
  destruct (load_begin_run manual (load_now o) a) as (a1 & -> & _).
  reflexivity.
Qed.

Lemma retryConnection_cut (c : Closure) (o : LoadOracle) (a : App) :
  retryConnection c o a
  = load_continue c true o (retryConnection_start c (load_now o) a).
Proof.
  unfold retryConnection, retryConnection_start. run.
  rewrite loadConsentimientos_cut. unfold load_guard.
  now rewrite andb_false_r.
Qed.

Lemma load_start_cycles (c : Closure) (manual : bool) (now : Z) (a : App) :
  cyclesInFlight (ui (load_start c manual now a))
  = if load_guard c manual then cyclesInFlight (ui a)
    else S (cyclesInFlight (ui a)).
Proof.
  unfold load_start. destruct (load_guard c manual); [reflexivity|].
  destruct (load_begin_run manual now a) as (a1 & -> & _ & _ & _ & Hc & _).
  exact Hc.
Qed.



(** ** Manual retry *)

(** The fetches touch the two lists only. *)
Lemma fetch_and_commit_controls (o : LoadOracle) (s : App) :
  same_controls (ui s) (ui (snd (fetch_and_commit o s))).
Proof.
  unfold fetch_and_commit. run. await.
  destruct (outcome (load_active o)) as [dA [m|]|e]; run.
  - apply same_controls_refl.
  - unfold fetch_archived_and_commit. run. await.
    destruct (outcome (load_archived o)) as [dB [m|]|e]; run;
      unfold catch_archivedError; run;
      repeat (match goal with |- context [if ?b then _ else _] => destruct b end;
              run);
      repeat split.
  - destruct (String.eqb (name e) "AbortError"); run; apply same_controls_refl.
Qed.

Lemma load_catch_controls (o : LoadOracle) (e : JsError) (s : App) :
  retryCount (ui (snd (load_catch o e s))) = retryCount (ui s)
  /\ timers (ui (snd (load_catch o e s))) = timers (ui s).
Proof.
  unfold load_catch. run.
  match goal with |- context [use_cached ?n ?st] =>
    destruct (use_cached_reads n st)
      as (c1 & c2 & a1 & -> & _ & _ & K1 & _);
    destruct K1 as (_ & _ & Kcount & _ & _ & Ktimers & _) end.
  cbn [snd]. rewrite Kcount, Ktimers. split; reflexivity.
Qed.

Lemma load_after_race_manual (c : Closure) (o : LoadOracle) (b : bool) (s : App) :
  retryCount (ui (snd (load_after_race c true o b s))) = 0%nat
  /\ timers (ui (snd (load_after_race c true o b s))) = timers (ui s).
Proof.
  unfold load_after_race. destruct b; cbn [negb].
  - run.
    match goal with |- context [fetch_and_commit o ?st] =>
      destruct (fetch_and_commit_controls o st)
        as (_ & _ & Kcount & _ & _ & Ktimers & _) end.
    cbn [ui] in *. rewrite Kcount, Ktimers. split; reflexivity.
  - unfold load_disconnected. rewrite andb_false_r. run. split; reflexivity.
Qed.

(** C5, as stated, fails: a manual retry made while a back-off timer is
    pending leaves the timer armed. *)
Lemma manual_retry_counterexample :
  ~ (forall (c : Closure) (now : Z) (a : App),
        retryCount (ui (retryConnection_start c now a)) = 0%nat
        /\ connectionError (ui (retryConnection_start c now a)) = false
        /\ timers (ui (retryConnection_start c now a)) = []).
Proof.
  intros claim.
  destruct (claim initial_closure 1700000001000
              (snd (loadConsentimientos initial_closure false
                      load_network_down app_at_mount))) as (_ & _ & Htimers).
  vm_compute in Htimers. discriminate Htimers.
Qed.

(** C5, amended.  A manual retry sets the attempt count to 0 and clears the
    connection-error state before the connectivity probe of the load it
    starts (no request has gone out at that point), and it starts that load
    whatever the in-flight flag says.  It does not cancel pending back-off
    timers: the timers armed before it are still armed when the probe
    starts and when the load has finished, where the count is 0 again. *)
Theorem manual_retry_resets (c : Closure) (now : Z) (a : App) (o : LoadOracle) :
  let started := retryConnection_start c now a in
  let finished := snd (retryConnection c o a) in
  (retryCount (ui started) = 0%nat
   /\ connectionError (ui started) = false
   /\ isRetrying (ui started) = true
   /\ cyclesInFlight (ui started) = S (cyclesInFlight (ui a))
   /\ requests (lib started) = requests (lib a)
   /\ timers (ui started) = timers (ui a))
  /\ retryCount (ui finished) = 0%nat
  /\ timers (ui finished) = timers (ui a).
Proof.
  intros started finished. split.
  - unfold started, retryConnection_start, load_start, load_guard.
    rewrite andb_false_r.
    match goal with |- context [load_begin ?m ?n ?s] =>
      destruct (load_begin_run m n s)
        as (a1 & -> & _ & (_ & Hreq & _) & Hretry & Hcyc & Hcount & Herr & Htim & _)
    end.
    cbn [snd lib ui] in *. cbn in Hcount, Herr, Htim, Hcyc. repeat split; auto.
  - unfold finished, retryConnection. run.
    unfold loadConsentimientos, load_guard. rewrite andb_false_r. run.
    match goal with |- context [load_begin ?m ?n ?s] =>
      destruct (load_begin_run m n s)
        as (a1 & -> & _ & _ & _ & _ & Hcount & _ & Htim & _)
    end.
    cbn [lib ui] in *.
    unfold race_connection, call_lib. run.
    destruct (checkSupabaseConnection (load_now o) (load_check o) (lib a1))
      as [b l2].
    match goal with |- context [load_after_race c true o ?bb ?st] =>
      destruct (load_after_race_manual c o bb st) as [Hc2 Ht2];
      destruct (load_after_race c true o bb st) as [[u|e] a2] end;
      cbn [snd ui] in Hc2, Ht2.
    + cbn [snd]. unfold load_finally. cbn. rewrite Hc2, Ht2, Htim. auto.
    + destruct (load_catch_controls o e a2) as [Hc3 Ht3].
      destruct (load_catch o e a2) as [r3 a3]. cbn [snd] in *.
      unfold load_finally. cbn. rewrite Hc3, Ht3, Hc2, Ht2, Htim. auto.
Qed.

(** ** Create *)

(** C4, as stated, fails: with a successful check remembered from 5 s
    earlier and the network now down, the create call does not probe; it
    goes on to the artist lookup. *)
Lemma create_fresh_check_counterexample :
  ~ (forall (o : AddOracle) (n : NuevoConsentimiento) (a : App),
        (forall url, head_ok (add_check o) url = false) ->
        fst (addConsentimiento o n a) = Throw (Error connectivity_message)
        /\ only_probes_added (lib a) (lib (snd (addConsentimiento o n a)))).
Proof.
  intros claim.
  destruct (claim add_network_down example_nuevo app_one_active
              (fun _ => eq_refl)) as [Hthrown _].
  vm_compute in Hthrown. discriminate Hthrown.
Qed.

Example create_after_recent_check_requests :
  requests (lib (snd (addConsentimiento add_network_down example_nuevo
                        app_one_active)))
  = [SupabaseQuery (QArtist "Dani")].
Proof. vm_compute. reflexivity. Qed.

(** C4, amended.  A create call starts with [checkSupabaseConnection], the
    debounced check: within 10 s of the previous check it is answered from
    the remembered status, without a probe.  When that check reports
    disconnected the call fails at once with the connectivity error: the
    provider state is untouched and only probes of the check, if any, went
    out (no lookup, no insert). *)
Theorem create_checks_connectivity_first
    (o : AddOracle) (n : NuevoConsentimiento) (a : App) :
  let checked := checkSupabaseConnection (add_now o) (add_check o) (lib a) in
  (add_now o - checkedAt (lastConnectionStatus (lib a)) < CACHE_TTL ->
   checked = (isConnected (lastConnectionStatus (lib a)), lib a))
  /\ (fst checked = false ->
      addConsentimiento o n a
      = (Throw (Error connectivity_message), mkApp (snd checked) (ui a))
      /\ only_probes_added (lib a) (snd checked)).
Proof.
  intros checked. split.
  - apply checkSupabaseConnection_debounced.
  - intros Hoff. split.
    + unfold addConsentimiento, call_lib. run. fold checked.
      destruct checked as [b l1]. cbn [fst snd] in *. subst b. reflexivity.
    + apply only_probes_checkSupabaseConnection.
Qed.

(** A create call 5 s after a failed check. *)
Lemma create_checks_connectivity_first_witness :
  let a := mkApp (set_lastConnectionStatus
                    (mkConnectionStatus false 1700000095000) empty_lib)
                 initial_provider in
  let o := add_network_down in
  let checked := checkSupabaseConnection (add_now o) (add_check o) (lib a) in
  checked = (isConnected (lastConnectionStatus (lib a)), lib a)
  /\ addConsentimiento o example_nuevo a
     = (Throw (Error connectivity_message), mkApp (snd checked) (ui a))
  /\ only_probes_added (lib a) (snd checked).
Proof.
  intros a o checked.
  destruct (create_checks_connectivity_first o example_nuevo a) as [Hdeb Hoff].
  split.
  - apply Hdeb. vm_compute. reflexivity.
  - apply Hoff. reflexivity.
Defined.

(** * Further properties of the code *)

(** ** The cache, beyond set-then-get *)

Section CacheMore.

Context {T : Type} `{JsData T}.
Implicit Types (l : Lib T) (key : string) (now : Z).

(** What a read returns depends on the two entries under its key only. *)
Lemma getCachedData_own_entries key now l l' :
  dataCache l' !! key = dataCache l !! key ->
  localStorage l' !! durable_key key = localStorage l !! durable_key key ->
  fst (getCachedData key now l') = fst (getCachedData key now l).
Proof.
  intros Hd Hs. unfold getCachedData, getCachedData_durable. rewrite Hd, Hs.
  destruct (dataCache l !! key) as [it|];
    [destruct (now <=? expiry it); [reflexivity|]|];
    (destruct (localStorage l !! durable_key key) as [[s|it'|]|];
     try reflexivity; now destruct (now <=? expiry it')).
Qed.

Lemma durable_key_prefix key : String.prefix "cache_" (durable_key key) = true.
Proof. unfold durable_key. destruct key; reflexivity. Qed.

(** X1.  Whatever is in the two tiers, a value returned by [getCachedData]
    is the data of an entry that one of the tiers held under that key and
    that has not expired at the instant of the read. *)
Theorem get_returns_unexpired key now l (v : T) :
  fst (getCachedData key now l) = Some v ->
  exists it,
    data it = v /\ now <= expiry it
    /\ (dataCache l !! key = Some it
        \/ localStorage l !! durable_key key = Some (Json it)).
Proof.
  unfold getCachedData, getCachedData_durable.
  destruct (dataCache l !! key) as [it|] eqn:Hm.
  - destruct (now <=? expiry it) eqn:Hle.
    + intros [= <-]. exists it. apply Z.leb_le in Hle. auto.
    + destruct (localStorage l !! durable_key key) as [[s|it'|]|];
        try discriminate.
      destruct (now <=? expiry it') eqn:Hle'; [|discriminate].
      intros [= <-]. exists it'. apply Z.leb_le in Hle'. auto.
  - destruct (localStorage l !! durable_key key) as [[s|it'|]|];
      try discriminate.
    destruct (now <=? expiry it') eqn:Hle'; [|discriminate].
    intros [= <-]. exists it'. apply Z.leb_le in Hle'. auto.
Qed.

(** X2.  Reading twice at the same instant is reading once: the second
    [getCachedData] returns what the first returned and changes nothing
    more. *)
Theorem get_twice key now l :
  getCachedData key now (snd (getCachedData key now l))
  = getCachedData key now l.
Proof.
  destruct (getCachedData key now l) as [r l1] eqn:E. cbn [snd].
  unfold getCachedData, getCachedData_durable in E |- *.
  destruct (dataCache l !! key) as [it|] eqn:Hm;
    [destruct (now <=? expiry it) eqn:Hle|];
    try (injection E as <- <-; now rewrite Hm, Hle);
    (destruct (localStorage l !! durable_key key) as [[s|it'|]|] eqn:Hs;
     [ | destruct (now <=? expiry it') eqn:Hle' | | ]);
    injection E as <- <-; cbn;
    rewrite ?Hm, ?Hle, ?Hs, ?lookup_insert_eq, ?lookup_delete_eq, ?Hle';
    reflexivity.
Qed.

(** X3.  A miss stays a miss: after a read that returned [null], every later
    read of the same key returns [null] too, until something is stored
    again. *)
Theorem miss_is_stable key now now' l :
  fst (getCachedData key now l) = None ->
  now <= now' ->
  fst (getCachedData key now' (snd (getCachedData key now l))) = None.
Proof.
  intros Hmiss Hlater.
  destruct (getCachedData key now l) as [r l1] eqn:E. cbn [fst snd] in *.
  subst r.
  unfold getCachedData, getCachedData_durable in E |- *.
  destruct (dataCache l !! key) as [it|] eqn:Hm;
    [destruct (now <=? expiry it) eqn:Hle; [discriminate E|]|];
    (destruct (localStorage l !! durable_key key) as [[s|it'|]|] eqn:Hs;
     [ | destruct (now <=? expiry it') eqn:Hle'; [discriminate E|] | | ]);
    injection E as <-; cbn;
    rewrite ?Hm, ?Hs, ?lookup_delete_eq;
    try (apply Z.leb_gt in Hle;
         assert (Hle2 : (now' <=? expiry it) = false) by (apply Z.leb_gt; lia);
         rewrite Hle2);
    reflexivity.
Qed.

(** X4.  The durable tier carries a value over a page reload: after a
    [cacheData] whose durable write succeeded, and with the memory tier
    gone, a read before the expiry returns the value and puts the entry
    back into the memory tier. *)
Theorem durable_tier_survives_reload key (v : T) ttl now now' l :
  isNull v || isEmptyArray v = false ->
  now' <= now + ttl * 1000 ->
  let reloaded := page_reload (cacheData true key v ttl now l) in
  fst (getCachedData key now' reloaded) = Some v
  /\ dataCache (snd (getCachedData key now' reloaded)) !! key
     = Some (mkCacheItem v now (now + ttl * 1000)).
Proof.
  intros Hv Hle reloaded.
  subst reloaded.
  unfold getCachedData, getCachedData_durable, page_reload, cacheData.
  rewrite Hv. cbn. rewrite lookup_empty, lookup_insert_eq. cbn.
  apply Z.leb_le in Hle. rewrite Hle. cbn.
  split; [reflexivity | apply lookup_insert_eq].
Qed.

(** X5.  Keys do not interfere: storing under one key leaves what a read of
    any other key returns as it was. *)
Theorem set_leaves_other_keys ok key key' (v : T) ttl now now' l :
  key <> key' ->
  fst (getCachedData key' now' (cacheData ok key v ttl now l))
  = fst (getCachedData key' now' l).
Proof.
  intros Hne.
  destruct (cacheData_other_key ok key key' v ttl now l Hne) as [Hd Hs].
  now apply getCachedData_own_entries.
Qed.

(** X6.  [clearCacheItem] removes the key from both tiers, so that a read
    of it misses, and leaves what a read of any other key returns as it
    was. *)
Theorem clearCacheItem_forgets_one_key key key' now l :
  fst (getCachedData key now (clearCacheItem key l)) = None
  /\ (key <> key' ->
      fst (getCachedData key' now (clearCacheItem key l))
      = fst (getCachedData key' now l)).
Proof.
  split.
  - unfold getCachedData, getCachedData_durable, clearCacheItem. cbn.
    now rewrite !lookup_delete_eq.
  - intros Hne. apply getCachedData_own_entries; unfold clearCacheItem; cbn.
    + now apply lookup_delete_ne.
    + apply lookup_delete_ne. intros Heq. now apply durable_key_inj in Heq.
Qed.

(** X7.  [clearCache] empties the cache and nothing else: afterwards every
    read misses, while every [localStorage] key that does not start with
    ['cache_'] (the two offline flags among them) holds what it held, so
    offline mode is as before. *)
Theorem clearCache_forgets_cache_only l :
  (forall key now, fst (getCachedData key now (clearCache l)) = None)
  /\ (forall k, String.prefix "cache_" k = false ->
        localStorage (clearCache l) !! k = localStorage l !! k)
  /\ isOfflineMode (clearCache l) = isOfflineMode l
  /\ lastConnectionStatus (clearCache l) = lastConnectionStatus l.
Proof.
  assert (Hkeep : forall k, String.prefix "cache_" k = false ->
            localStorage (clearCache l) !! k = localStorage l !! k).
  { intros k Hk. unfold clearCache. cbn.
    destruct (localStorage l !! k) as [v|] eqn:Hv.
    - apply map_lookup_filter_Some. split; [exact Hv | exact Hk].
    - apply map_lookup_filter_None. left. exact Hv. }
  split; [|split; [exact Hkeep | split; [|reflexivity]]].
  - intros key now. unfold getCachedData, getCachedData_durable, clearCache.
    cbn. rewrite lookup_empty.
    assert (Hgone : filter (fun kv => String.prefix "cache_" (fst kv) = false)
                      (localStorage l) !! durable_key key = None).
    { apply map_lookup_filter_None. right. intros v _ Hc.
      cbn [fst] in Hc. now rewrite durable_key_prefix in Hc. }
    now rewrite Hgone.
  - unfold isOfflineMode, getItem_is_true.
    now rewrite !Hkeep by reflexivity.
Qed.

End CacheMore.

Lemma get_returns_unexpired_witness :
  exists it : CacheItem (list Z),
    data it = [1; 2] /\ 5 <= expiry it
    /\ (dataCache lib_with_entry !! "k" = Some it
        \/ localStorage lib_with_entry !! durable_key "k" = Some (Json it)).
Proof.
  apply (get_returns_unexpired "k" 5 lib_with_entry [1; 2]). reflexivity.
Defined.

Lemma miss_is_stable_witness :
  fst (getCachedData "k" 80000 (snd (getCachedData "k" 70000 lib_with_entry)))
  = None.
Proof.
  apply (miss_is_stable "k" 70000 80000 lib_with_entry); [reflexivity | lia].
Defined.

Lemma durable_tier_survives_reload_witness :
  let reloaded := page_reload (cacheData true "k" [7] 60 10 (@empty_lib (list Z))) in
  fst (getCachedData "k" 100 reloaded) = Some [7]
  /\ dataCache (snd (getCachedData "k" 100 reloaded)) !! "k"
     = Some (mkCacheItem [7] 10 (10 + 60 * 1000)).
Proof.
  apply (durable_tier_survives_reload "k" [7] 60 10 100 empty_lib);
    [reflexivity | lia].
Defined.

Lemma set_leaves_other_keys_witness :
  fst (getCachedData "k" 5 (cacheData true "j" [9] 60 1 lib_with_entry))
  = fst (getCachedData "k" 5 lib_with_entry).
Proof.
  apply (set_leaves_other_keys true "j" "k" [9] 60 1 5 lib_with_entry).
  discriminate.
Defined.

(** ** The connectivity monitor, beyond the offline override *)

Section MonitorMore.

Context {T : Type} `{JsData T}.
Implicit Types (l : Lib T) (now : Z) (o : CheckOracle).

Lemma probe_loop_status remaining currentRetry pr now l :
  lastConnectionStatus (snd (probe_loop remaining currentRetry pr now l))
  = mkConnectionStatus (fst (probe_loop remaining currentRetry pr now l)) now.
Proof.
  revert currentRetry l.
  induction remaining as [|n IH]; intros currentRetry l; cbn [probe_loop];
    [reflexivity|].
  destruct (supabase_query QConfigCount (pr currentRetry) l) as [out l1].
  destruct out as [d [m|]|e]; try reflexivity.
  destruct (maxRetries <=? S currentRetry)%nat; [reflexivity | apply IH].
Qed.

(** A check made outside the window remembers its own answer. *)
Lemma checkSupabaseConnection_status now o l :
  CACHE_TTL <= now - checkedAt (lastConnectionStatus l) ->
  lastConnectionStatus (snd (checkSupabaseConnection now o l))
  = mkConnectionStatus (fst (checkSupabaseConnection now o l)) now.
Proof.
  intros Hge. unfold checkSupabaseConnection.
  apply Z.ltb_ge in Hge. rewrite Hge.
  destruct (isOfflineMode l); [reflexivity|].
  destruct (checkInternetConnection (head_ok o) l) as [[|] l1]; cbn [negb].
  - apply probe_loop_status.
  - reflexivity.
Qed.


Lemma at_most_probes_refl n l : at_most_probes n l l.
Proof. exists []. repeat split. cbn. lia. Qed.

Lemma at_most_probes_same n l l' :
  requests l' = requests l -> at_most_probes n l l'.
Proof. intros Heq. exists []. repeat split; [exact Heq | cbn; lia]. Qed.

Lemma at_most_probes_trans n m l1 l2 l3 :
  at_most_probes n l1 l2 -> at_most_probes m l2 l3 ->
  at_most_probes (n + m) l1 l3.
Proof.
  intros (x & Hx & Px & Lx) (y & Hy & Py & Ly). exists (y ++ x)%list.
  split; [|split].
  - rewrite Hy, Hx. now rewrite app_assoc.
  - rewrite forallb_app. now rewrite Px, Py.
  - rewrite length_app. lia.
Qed.

Lemma at_most_probes_weaken n m l l' :
  (n <= m)%nat -> at_most_probes n l l' -> at_most_probes m l l'.
Proof. intros Hle (x & Hx & Px & Lx). exists x. repeat split; auto. lia. Qed.

Lemma at_most_probes_one r l l' :
  is_probe r = true -> requests l' = r :: requests l -> at_most_probes 1 l l'.
Proof.
  intros Hr Heq. exists [r]. split; [exact Heq|]. cbn. rewrite Hr. auto.
Qed.

Lemma at_most_probes_try_urls ok urls l :
  at_most_probes (length urls) l (snd (try_urls ok urls l)).
Proof.
  revert l. induction urls as [|url rest IH]; intros l; cbn [try_urls length].
  - apply at_most_probes_refl.
  - destruct (ok url); cbn [snd].
    + apply (at_most_probes_weaken 1); [lia|].
      now apply (at_most_probes_one (HeadFetch url)).
    + change (S (length rest)) with (1 + length rest)%nat.
      eapply at_most_probes_trans; [|apply IH].
      now apply (at_most_probes_one (HeadFetch url)).
Qed.

Lemma at_most_probes_probe_loop remaining currentRetry pr now l :
  at_most_probes remaining l (snd (probe_loop remaining currentRetry pr now l)).
Proof.
  revert currentRetry l.
  induction remaining as [|n IH]; intros currentRetry l; cbn [probe_loop].
  - now apply at_most_probes_same.
  - pose proof (requests_supabase_query QConfigCount (pr currentRetry) l) as Hq.
    destruct (supabase_query QConfigCount (pr currentRetry) l) as [out l1].
    cbn [snd] in Hq.
    assert (Hone : at_most_probes 1 l l1)
      by now apply (at_most_probes_one (SupabaseQuery QConfigCount)).
    change (S n) with (1 + n)%nat.
    destruct out as [d [m|]|e]; cbn [snd];
      try (eapply at_most_probes_trans; [exact Hone|];
           now apply at_most_probes_same).
    destruct (maxRetries <=? S currentRetry)%nat; cbn [snd].
    + eapply at_most_probes_trans; [exact Hone|]. now apply at_most_probes_same.
    + eapply at_most_probes_trans; [exact Hone | apply IH].
Qed.

(** X9.  One connectivity check costs at most 13 requests, all of them
    probes: up to three [HEAD] requests and up to ten backend probes. *)
Theorem check_request_budget now o l :
  at_most_probes 13 l (snd (checkSupabaseConnection now o l)).
Proof.
  unfold checkSupabaseConnection.
  destruct (_ <? CACHE_TTL); [apply at_most_probes_refl|].
  destruct (isOfflineMode l); [now apply at_most_probes_same|].
  unfold checkInternetConnection.
  pose proof (at_most_probes_try_urls (head_ok o) testUrls l) as Hu.
  destruct (try_urls (head_ok o) testUrls l) as [[|] l1]; cbn [snd negb] in *.
  - change 13%nat with (length testUrls + maxRetries)%nat.
    eapply at_most_probes_trans; [exact Hu | apply at_most_probes_probe_loop].
  - apply (at_most_probes_weaken (length testUrls + 0)); [cbn; lia|].
    eapply at_most_probes_trans; [exact Hu|]. now apply at_most_probes_same.
Qed.

Lemma getItem_is_true_removeItem k l : getItem_is_true k (removeItem k l) = false.
Proof. unfold getItem_is_true, removeItem. cbn. now rewrite lookup_delete_eq. Qed.

Lemma getItem_is_true_removeItem_ne k k' l :
  k <> k' -> getItem_is_true k' (removeItem k l) = getItem_is_true k' l.
Proof.
  intros Hne. unfold getItem_is_true, removeItem. cbn.
  now rewrite lookup_delete_ne.
Qed.

Lemma probe_loop_success remaining currentRetry pr now l :
  fst (probe_loop remaining currentRetry pr now l) = true ->
  isOfflineMode (snd (probe_loop remaining currentRetry pr now l)) = false.
Proof.
  revert currentRetry l.
  induction remaining as [|n IH]; intros currentRetry l; cbn [probe_loop];
    [discriminate|].
  destruct (supabase_query QConfigCount (pr currentRetry) l) as [out l1].
  destruct out as [d [m|]|e]; cbn [fst snd]; try discriminate.
  - intros _. unfold isOfflineMode.
    rewrite getItem_is_true_removeItem.
    rewrite getItem_is_true_removeItem_ne by discriminate.
    now rewrite getItem_is_true_removeItem.
  - destruct (maxRetries <=? S currentRetry)%nat; [discriminate | apply IH].
Qed.

(** X10.  A check that goes to the network and succeeds leaves offline mode
    off: both flags are removed, and the success is remembered. *)
Theorem successful_check_clears_flags now o l :
  CACHE_TTL <= now - checkedAt (lastConnectionStatus l) ->
  fst (checkSupabaseConnection now o l) = true ->
  isOfflineMode (snd (checkSupabaseConnection now o l)) = false
  /\ lastConnectionStatus (snd (checkSupabaseConnection now o l))
     = mkConnectionStatus true now.
Proof.
  intros Hge Hok. split.
  - revert Hok. unfold checkSupabaseConnection.
    apply Z.ltb_ge in Hge. rewrite Hge.
    destruct (isOfflineMode l); [discriminate|].
    destruct (checkInternetConnection (head_ok o) l) as [[|] l1]; cbn [negb];
      [apply probe_loop_success | discriminate].
  - rewrite checkSupabaseConnection_status by exact Hge. now rewrite Hok.
Qed.

(** X11.  A locked monitor stays locked: with offline mode on and
    "disconnected" remembered, every check returns [false] without a
    request and leaves the monitor locked, and every query through the
    client is refused without changing anything, whatever the network
    would answer. *)
Theorem locked_monitor_stays_locked l :
  locked l ->
  (forall now o,
     fst (checkSupabaseConnection now o l) = false
     /\ requests (snd (checkSupabaseConnection now o l)) = requests l
     /\ locked (snd (checkSupabaseConnection now o l)))
  /\ (forall n, configuredFetch n l
                = (Throw (Error "Aplicación en modo offline"), l)).
Proof.
  intros [Hoff Hdis]. split.
  - intros now o. unfold checkSupabaseConnection.
    destruct (_ <? CACHE_TTL).
    + cbn [fst snd]. repeat split; auto.
    + rewrite Hoff. cbn [fst snd]. repeat split. exact Hoff.
  - intros n. unfold configuredFetch. now rewrite Hoff.
Qed.

Lemma try_urls_none ok urls l :
  (forall url, In url urls -> ok url = false) ->
  fst (try_urls ok urls l) = false.
Proof.
  revert l. induction urls as [|url rest IH]; intros l Hno; cbn [try_urls];
    [reflexivity|].
  rewrite (Hno url) by now left. apply IH. intros u Hu. apply Hno. now right.
Qed.

(** X12.  One check without internet locks the monitor: when none of the
    test URLs answers, the check returns [false] and sets the
    network-unreachable flag, after which the monitor is locked. *)
Theorem check_without_internet_locks now o l :
  CACHE_TTL <= now - checkedAt (lastConnectionStatus l) ->
  (forall url, In url testUrls -> head_ok o url = false) ->
  fst (checkSupabaseConnection now o l) = false
  /\ locked (snd (checkSupabaseConnection now o l)).
Proof.
  intros Hge Hno. unfold checkSupabaseConnection.
  apply Z.ltb_ge in Hge. rewrite Hge.
  destruct (isOfflineMode l) eqn:Hoff.
  - cbn [fst snd]. split; [reflexivity|]. split; [exact Hoff | reflexivity].
  - unfold checkInternetConnection.
    pose proof (try_urls_none (head_ok o) testUrls l Hno) as Hu.
    destruct (try_urls (head_ok o) testUrls l) as [b l1]. cbn [fst] in Hu.
    subst b. cbn [negb fst snd]. split; [reflexivity|].
    split; [|reflexivity].
    unfold isOfflineMode, getItem_is_true, setItem. cbn.
    rewrite lookup_insert_eq. cbn. apply orb_true_r.
Qed.

Lemma try_urls_spec ok urls l :
  fst (try_urls ok urls l) = existsb ok urls
  /\ requests (snd (try_urls ok urls l))
     = (rev (map HeadFetch (tried_urls ok urls)) ++ requests l)%list.
Proof.
  revert l. induction urls as [|url rest IH]; intros l;
    cbn [try_urls existsb tried_urls]; [split; reflexivity|].
  destruct (ok url); cbn [fst snd orb].
  - split; reflexivity.
  - destruct (IH (log_request (HeadFetch url) l)) as [-> ->].
    split; [reflexivity|]. cbn [map rev requests log_request].
    now rewrite <- app_assoc.
Qed.

(** X13.  [toggleOfflineMode(false)] is the way out: it removes both flags,
    so offline mode is off, and the next check made outside the window
    goes to the network, starting with a [HEAD] request to the first test
    URL. *)
Theorem toggle_off_unlocks now o l :
  CACHE_TTL <= now - checkedAt (lastConnectionStatus l) ->
  isOfflineMode (toggleOfflineMode false l) = false
  /\ exists later,
       requests (snd (checkSupabaseConnection now o (toggleOfflineMode false l)))
       = (later ++ HeadFetch "https://www.gstatic.com/generate/1x1.png"
                   :: requests l)%list.
Proof.
  intros Hge.
  assert (Hoff : isOfflineMode (toggleOfflineMode false l) = false).
  { unfold toggleOfflineMode, isOfflineMode.
    rewrite getItem_is_true_removeItem.
    rewrite getItem_is_true_removeItem_ne by discriminate.
    now rewrite getItem_is_true_removeItem. }
  split; [exact Hoff|].
  unfold checkSupabaseConnection. rewrite Hoff.
  change (lastConnectionStatus (toggleOfflineMode false l))
    with (lastConnectionStatus l).
  apply Z.ltb_ge in Hge. rewrite Hge.
  unfold checkInternetConnection.
  destruct (try_urls_spec (head_ok o) testUrls (toggleOfflineMode false l))
    as [_ Hreq].
  change (requests (toggleOfflineMode false l)) with (requests l) in Hreq.
  cbn [testUrls tried_urls map rev] in Hreq. rewrite <- app_assoc in Hreq.
  cbn [app] in Hreq.
  destruct (try_urls (head_ok o) testUrls (toggleOfflineMode false l))
    as [[|] l1]; cbn [snd negb] in *.
  - destruct (at_most_probes_probe_loop maxRetries 0 (probe o) now l1)
      as (added & -> & _). rewrite Hreq. eexists. now rewrite app_assoc.
  - cbn. rewrite Hreq. eexists. reflexivity.
Qed.

(** X14.  One timed-out fetch closes the client: when a request made with
    offline mode off is aborted, the configured [fetch] sets the
    network-unreachable flag, and from then on it refuses every request
    before sending it, including those the network would answer. *)
Theorem aborted_fetch_blocks_later_requests (err : JsError) l :
  isOfflineMode l = false ->
  name err = "AbortError" ->
  let after := snd (configuredFetch (FetchFails err) l) in
  isOfflineMode after = true
  /\ (forall n, configuredFetch n after
                = (Throw (Error "Aplicación en modo offline"), after)).
Proof.
  intros Hoff Hname after.
  assert (Hon : isOfflineMode after = true).
  { unfold after, configuredFetch. rewrite Hoff, Hname. cbn.
    unfold isOfflineMode, getItem_is_true, setItem. cbn.
    rewrite lookup_insert_eq. cbn. apply orb_true_r. }
  split; [exact Hon|].
  intros n. unfold configuredFetch. now rewrite Hon.
Qed.

End MonitorMore.


Lemma successful_check_clears_flags_witness :
  isOfflineMode
    (snd (checkSupabaseConnection 1700000000000 network_up (@empty_lib (list Z))))
  = false
  /\ lastConnectionStatus
       (snd (checkSupabaseConnection 1700000000000 network_up
               (@empty_lib (list Z))))
     = mkConnectionStatus true 1700000000000.
Proof.
  apply (successful_check_clears_flags 1700000000000 network_up
           (@empty_lib (list Z)));
    [vm_compute; discriminate | reflexivity].
Defined.

Lemma locked_monitor_stays_locked_witness :
  (forall now o,
     fst (checkSupabaseConnection now o lib_offline) = false
     /\ requests (snd (checkSupabaseConnection now o lib_offline))
        = requests lib_offline
     /\ locked (snd (checkSupabaseConnection now o lib_offline)))
  /\ (forall n, configuredFetch n lib_offline
                = (Throw (Error "Aplicación en modo offline"), lib_offline)).
Proof.
  apply (locked_monitor_stays_locked lib_offline). split; reflexivity.
Defined.

Lemma check_without_internet_locks_witness :
  fst (checkSupabaseConnection 1700000000000 network_down (@empty_lib (list Z)))
  = false
  /\ locked (snd (checkSupabaseConnection 1700000000000 network_down
                    (@empty_lib (list Z)))).
Proof.
  apply (check_without_internet_locks 1700000000000 network_down
           (@empty_lib (list Z)));
    [vm_compute; discriminate | intros url _; reflexivity].
Defined.

Lemma toggle_off_unlocks_witness :
  isOfflineMode (toggleOfflineMode false lib_offline) = false
  /\ exists later,
       requests (snd (checkSupabaseConnection 1700000000000 network_up
                        (toggleOfflineMode false lib_offline)))
       = (later ++ HeadFetch "https://www.gstatic.com/generate/1x1.png"
                   :: requests lib_offline)%list.
Proof.
  apply (toggle_off_unlocks 1700000000000 network_up lib_offline).
  vm_compute. discriminate.
Defined.

Lemma aborted_fetch_blocks_later_requests_witness :
  let after := snd (configuredFetch (FetchFails abort_error) (@empty_lib (list Z))) in
  isOfflineMode after = true
  /\ (forall n, configuredFetch n after
                = (Throw (Error "Aplicación en modo offline"), after)).
Proof.
  apply (aborted_fetch_blocks_later_requests abort_error (@empty_lib (list Z)));
    reflexivity.
Defined.

(** ** Rows, lookups and codes *)

(** X15.  [transformarDatos] keeps the rows that have a [client_info], in
    their order, with their ids and their archived marks, and drops the
    others; a [null] result set gives the empty list. *)
Theorem transformarDatos_keeps_rows_with_client (rows : list Row) :
  let has_client (r : Row) :=
    match client_info r with Some _ => true | None => false end in
  transformarDatos None = []
  /\ map id (transformarDatos (Some rows))
     = map row_id (List.filter has_client rows)
  /\ map archivado (transformarDatos (Some rows))
     = map archived (List.filter has_client rows)
  /\ (length (transformarDatos (Some rows)) <= length rows)%nat
  /\ (forallb has_client rows = true ->
      length (transformarDatos (Some rows)) = length rows).
Proof.
  intros has_client. split; [reflexivity|].
  unfold transformarDatos.
  induction rows as [|r rows (IHid & IHarch & IHlen & IHall)];
    [repeat split; cbn; auto|].
  assert (Hitem :
    (exists c, transformar_item r = Some c /\ has_client r = true
               /\ id c = row_id r /\ archivado c = archived r)
    \/ (transformar_item r = None /\ has_client r = false)).
  { unfold transformar_item, has_client.
    destruct (client_info r); [left; eexists; repeat split | right; auto]. }
  cbn [map filter_Boolean List.filter forallb length].
  destruct Hitem as [(c & -> & -> & Hid & Harch)|[-> ->]];
    cbn [map length andb].
  - rewrite Hid, Harch, IHid, IHarch.
    split; [reflexivity|]. split; [reflexivity|]. split; [lia|].
    intros Hall. now rewrite IHall.
  - split; [exact IHid|]. split; [exact IHarch|].
    split; [lia | discriminate].
Qed.

Lemma find_some_id (i : string) (cs : list Consentimiento) c :
  find (fun c => String.eqb (id c) i) cs = Some c -> id c = i /\ In c cs.
Proof.
  intros Hf. apply find_some in Hf as [Hin Heq].
  apply String.eqb_eq in Heq. auto.
Qed.

Lemma find_none_id (i : string) (cs : list Consentimiento) :
  find (fun c => String.eqb (id c) i) cs = None <->
  (forall c, In c cs -> id c <> i).
Proof.
  split; [|apply find_id_absent].
  intros Hf c Hin Heq.
  pose proof (find_none _ _ Hf c Hin) as Hne. cbn in Hne.
  apply String.eqb_neq in Hne. contradiction.
Qed.

(** X16.  [getConsentimiento] finds a record by id in the two lists, active
    list first: what it returns has the id asked for and is in one of the
    lists; it returns nothing exactly when no record of either list has
    the id; and when the active list has a record with the id, the result
    comes from the active list. *)
Theorem getConsentimiento_by_id (p : Provider) (i : string) :
  (forall c, getConsentimiento p i = Some c ->
     id c = i
     /\ (In c (consentimientos p) \/ In c (consentimientosArchivados p)))
  /\ (getConsentimiento p i = None <->
      forall c, In c (consentimientos p) \/ In c (consentimientosArchivados p) ->
                id c <> i)
  /\ (forall c, In c (consentimientos p) -> id c = i ->
        exists c', getConsentimiento p i = Some c'
                   /\ In c' (consentimientos p)).
Proof.
  unfold getConsentimiento.
  destruct (find _ (consentimientos p)) as [c0|] eqn:Hact.
  - apply find_some_id in Hact as [Hid Hin]. split; [|split].
    + intros c [= <-]. auto.
    + split; [discriminate|]. intros Hno. exfalso. apply (Hno c0); auto.
    + intros c _ _. exists c0. auto.
  - pose proof (proj1 (find_none_id i _) Hact) as Hnone. split; [|split].
    + intros c Hf. apply find_some_id in Hf as [Hid Hin]. auto.
    + rewrite find_none_id. split.
      * intros Hno c [Hin|Hin]; [now apply Hnone | now apply Hno].
      * intros Hno c Hin. apply Hno. now right.
    + intros c Hin Hid. exfalso. now apply (Hnone c).
Qed.









(** ** Statistics *)

Lemma filter_complement_length {A : Type} (f : A -> bool) (l : list A) :
  (length (List.filter f l) + length (List.filter (fun x => negb (f x)) l)
   = length l)%nat.
Proof.
  induction l as [|x l IH]; cbn [List.filter length]; [reflexivity|].
  destruct (f x); cbn [negb length]; lia.
Qed.

(** X18.  The two age counts split the active list: [menoresEdad] counts the
    records whose client is under 18, [mayoresEdad] those whose client is
    18 or older, and neither is negative. *)
Theorem edades_split_the_active_list (p : Provider) :
  0 <= menoresEdad p <= totalFormularios p
  /\ mayoresEdad p
     = Z.of_nat (length (List.filter (fun c => 18 <=? edad (cliente c))
                           (consentimientos p))).
Proof.
  unfold mayoresEdad, menoresEdad, totalFormularios.
  pose proof (filter_complement_length (fun c => edad (cliente c) <? 18)
                (consentimientos p)) as Hsplit.
  assert (Hneg : List.filter (fun c => negb (edad (cliente c) <? 18))
                   (consentimientos p)
                 = List.filter (fun c => 18 <=? edad (cliente c))
                     (consentimientos p)).
  { apply filter_ext. intros c. now rewrite Z.leb_antisym. }
  cbv beta in Hsplit. rewrite Hneg in Hsplit. lia.
Qed.

Lemma map_get_set_eq (k : string) (v : Z) (m : JsMap) :
  map_get k (map_set k v m) = Some v.
Proof.
  induction m as [|[k' v'] m IH]; cbn [map_set map_get].
  - now rewrite String.eqb_refl.
  - destruct (String.eqb k' k) eqn:E; cbn [map_get]; rewrite ?String.eqb_refl, ?E;
      auto.
Qed.

Lemma map_get_set_ne (k k' : string) (v : Z) (m : JsMap) :
  k <> k' -> map_get k' (map_set k v m) = map_get k' m.
Proof.
  intros Hne. induction m as [|[k0 v0] m IH]; cbn [map_set map_get].
  - apply String.eqb_neq in Hne. now rewrite Hne.
  - destruct (String.eqb k0 k) eqn:E; cbn [map_get].
    + apply String.eqb_eq in E. subst k0.
      apply String.eqb_neq in Hne. now rewrite Hne.
    + now rewrite IH.
Qed.

Lemma map_get_in (k : string) (m : JsMap) :
  match map_get k m with
  | Some v => In (k, v) m
  | None => ~ In k (map fst m)
  end.
Proof.
  induction m as [|[k' v'] m IH]; cbn [map_get map fst]; [auto|].
  destruct (String.eqb k' k) eqn:E.
  - apply String.eqb_eq in E. subst. now left.
  - apply String.eqb_neq in E. destruct (map_get k m).
    + now right.
    + intros [Heq|Hin]; [now apply E | now apply IH].
Qed.

Lemma in_map_get (k : string) (v : Z) (m : JsMap) :
  List.NoDup (map fst m) -> In (k, v) m -> map_get k m = Some v.
Proof.
  induction m as [|[k' v'] m IH]; cbn [map_get map fst]; [intros _ []|].
  intros Hnd [Heq|Hin].
  - injection Heq as -> ->. now rewrite String.eqb_refl.
  - inversion Hnd as [|? ? Hnotin Hnd']; subst.
    destruct (String.eqb k' k) eqn:E.
    + apply String.eqb_eq in E. subst k'. exfalso. apply Hnotin.
      apply (in_map fst) in Hin. exact Hin.
    + now apply IH.
Qed.

Lemma map_set_keys (k : string) (v : Z) (m : JsMap) :
  map fst (map_set k v m)
  = match map_get k m with
    | Some _ => map fst m
    | None => (map fst m ++ [k])%list
    end.
Proof.
  induction m as [|[k' v'] m IH]; cbn [map_set map_get map fst app];
    [reflexivity|].
  destruct (String.eqb k' k) eqn:E; cbn [map fst].
  - apply String.eqb_eq in E. now subst.
  - rewrite IH. now destruct (map_get k m).
Qed.

Lemma map_set_NoDup (k : string) (v : Z) (m : JsMap) :
  List.NoDup (map fst m) -> List.NoDup (map fst (map_set k v m)).
Proof.
  intros Hnd. rewrite map_set_keys.
  pose proof (map_get_in k m) as Hin.
  destruct (map_get k m); [exact Hnd|].
  apply List.NoDup_app; auto.
  - constructor; [intros []|constructor].
  - intros x Hx [<-|[]]. contradiction.
Qed.

Lemma clients_of_snoc (k : string) (seen : list Consentimiento)
    (c : Consentimiento) :
  clients_of k (seen ++ [c])
  = clients_of k seen
    + (if String.eqb (artistaSeleccionado c) k then 1 else 0).
Proof.
  unfold clients_of. rewrite List.filter_app, length_app. cbn [List.filter].
  destruct (String.eqb (artistaSeleccionado c) k); cbn [length]; lia.
Qed.

Lemma clients_of_nonneg (k : string) (cs : list Consentimiento) :
  0 <= clients_of k cs.
Proof. unfold clients_of. lia. Qed.

Lemma artistasMap_counts (cs : list Consentimiento) :
  List.NoDup (map fst (artistasMap cs))
  /\ forall k,
       map_get k (artistasMap cs)
       = if String.eqb k "" || (clients_of k cs =? 0) then None
         else Some (clients_of k cs).
Proof.
  unfold artistasMap.
  assert (Hgen : forall (seen : list Consentimiento) (m : JsMap),
    (List.NoDup (map fst m)
     /\ forall k, map_get k m
                  = if String.eqb k "" || (clients_of k seen =? 0) then None
                    else Some (clients_of k seen)) ->
    let m' := fold_left
      (fun m c =>
         let artista := artistaSeleccionado c in
         if String.eqb artista "" then m
         else map_set artista (default 0 (map_get artista m) + 1) m) cs m in
    List.NoDup (map fst m')
    /\ forall k, map_get k m'
                 = if String.eqb k "" || (clients_of k (seen ++ cs) =? 0) then None
                   else Some (clients_of k (seen ++ cs))).
  { induction cs as [|c cs IH]; intros seen m [Hnd Hget]; cbn [fold_left].
    - now rewrite app_nil_r.
    - replace (seen ++ c :: cs)%list with ((seen ++ [c]) ++ cs)%list
        by now rewrite <- app_assoc.
      apply IH. clear IH. cbv zeta.
      destruct (String.eqb (artistaSeleccionado c) "") eqn:Eempty.
      + split; [exact Hnd|]. intros k. rewrite Hget, clients_of_snoc.
        destruct (String.eqb k "") eqn:Ek; [reflexivity|].
        apply String.eqb_eq in Eempty.
        assert (Hk : String.eqb (artistaSeleccionado c) k = false).
        { apply String.eqb_neq. rewrite Eempty. apply String.eqb_neq in Ek.
          congruence. }
        rewrite Hk. now rewrite Z.add_0_r.
      + split; [now apply map_set_NoDup|]. intros k.
        rewrite clients_of_snoc.
        pose proof (clients_of_nonneg k seen) as Hpos.
        destruct (String.eqb (artistaSeleccionado c) k) eqn:Ek.
        * apply String.eqb_eq in Ek. subst k.
          rewrite map_get_set_eq, Hget, Eempty. cbn [orb].
          destruct (clients_of (artistaSeleccionado c) seen =? 0) eqn:E0.
          -- apply Z.eqb_eq in E0. rewrite E0. reflexivity.
          -- cbn [default].
             destruct (_ + 1 =? 0) eqn:E1; [apply Z.eqb_eq in E1; lia|].
             reflexivity.
        * rewrite map_get_set_ne by (now apply String.eqb_neq).
          rewrite Hget. now rewrite Z.add_0_r. }
  apply (Hgen [] []). split; [constructor|]. intros k. cbn.
  now rewrite orb_true_r.
Qed.

Lemma insert_desc_perm x l : Permutation (insert_desc x l) (x :: l).
Proof.
  induction l as [|y l IH]; cbn [insert_desc]; [reflexivity|].
  destruct (totalClientes x <? totalClientes y); [|reflexivity].
  rewrite IH. apply perm_swap.
Qed.

Lemma sort_desc_perm l : Permutation (sort_desc l) l.
Proof.
  induction l as [|x l IH]; cbn; [reflexivity|].
  rewrite insert_desc_perm. now constructor.
Qed.

Lemma insert_desc_sorted x l :
  Sorted (fun a b => totalClientes b <= totalClientes a) l ->
  Sorted (fun a b => totalClientes b <= totalClientes a) (insert_desc x l).
Proof.
  induction l as [|y l IH]; intros Hs; cbn [insert_desc].
  - repeat constructor.
  - destruct (totalClientes x <? totalClientes y) eqn:E.
    + apply Z.ltb_lt in E. inversion Hs as [|? ? Hs' Hhd]; subst.
      constructor; [now apply IH|].
      destruct l as [|z l]; cbn [insert_desc].
      * constructor. lia.
      * destruct (totalClientes x <? totalClientes z).
        -- inversion Hhd; subst. now constructor.
        -- constructor. lia.
    + apply Z.ltb_ge in E. constructor; [exact Hs|]. now constructor.
Qed.

Lemma sort_desc_sorted l :
  Sorted (fun a b => totalClientes b <= totalClientes a) (sort_desc l).
Proof.
  induction l as [|x l IH]; cbn; [constructor | now apply insert_desc_sorted].
Qed.

(** X19.  The artist statistics are right: the list is in descending order
    of clients, no artist appears twice, and an entry is in the list
    exactly when its artist is named (with a non-empty name) by at least
    one active record and its count is the number of active records that
    name that artist. *)
Theorem artistasStats_counts_clients (p : Provider) :
  Sorted (fun a b => totalClientes b <= totalClientes a) (artistasStats p)
  /\ List.NoDup (map artista_nombre (artistasStats p))
  /\ forall e,
       In e (artistasStats p) <->
       (artista_nombre e <> ""
        /\ 0 < totalClientes e
        /\ totalClientes e
           = clients_of (artista_nombre e) (consentimientos p)).
Proof.
  unfold artistasStats.
  destruct (artistasMap_counts (consentimientos p)) as [Hnd Hget].
  set (m := artistasMap (consentimientos p)) in *.
  set (entries := map (fun kv => mkEstadisticaArtista (fst kv) (snd kv)) m).
  assert (Hnames : map artista_nombre entries = map fst m).
  { unfold entries. rewrite map_map. now apply map_ext. }
  split; [apply sort_desc_sorted|]. split.
  - eapply (@Permutation.Permutation_NoDup);
      [apply Permutation_map, Permutation_sym, sort_desc_perm|].
    now rewrite Hnames.
  - intros e.
    assert (Hin : In e (sort_desc entries) <-> In (artista_nombre e, totalClientes e) m).
    { split.
      - intros He. apply (Permutation_in _ (sort_desc_perm entries)) in He.
        unfold entries in He. apply in_map_iff in He as ([k v] & <- & Hkv).
        exact Hkv.
      - intros He. apply (Permutation_in _ (Permutation_sym (sort_desc_perm entries))).
        unfold entries. apply in_map_iff.
        exists (artista_nombre e, totalClientes e). split; [now destruct e | exact He]. }
    rewrite Hin. split.
    + intros He. apply (in_map_get _ _ _ Hnd) in He. rewrite Hget in He.
      destruct (String.eqb (artista_nombre e) "") eqn:Ek; [discriminate|].
      apply String.eqb_neq in Ek. cbn [orb] in He.
      destruct (_ =? 0) eqn:E0; [discriminate|].
      injection He as He. apply Z.eqb_neq in E0.
      pose proof (clients_of_nonneg (artista_nombre e) (consentimientos p)).
      repeat split; auto; lia.
    + intros (Hne & Hpos & Hcount).
      pose proof (map_get_in (artista_nombre e) m) as Hm.
      rewrite Hget in Hm. apply String.eqb_neq in Hne. rewrite Hne in Hm.
      cbn [orb] in Hm.
      destruct (_ =? 0) eqn:E0; [apply Z.eqb_eq in E0; lia|].
      now rewrite Hcount.
Qed.

(** ** The age of the last attempt *)

(** X20.  [formatLastAttempt] never shows a count out of range: under a
    minute (or with the attempt in the future) it says so; from one minute
    to under an hour it shows between 1 and 59 minutes; from an hour on it
    shows at least 1 hour; the unit is singular exactly for 1. *)
Theorem formatLastAttempt_ranges (t now : Z) :
  formatLastAttempt None now = "Sin intentos previos"
  /\ (now - t < 60000 ->
      formatLastAttempt (Some t) now = "hace menos de un minuto")
  /\ (60000 <= now - t < 3600000 ->
      exists minutes,
        1 <= minutes <= 59 /\ minutes = (now - t) / 60000
        /\ formatLastAttempt (Some t) now
           = "hace " ++ pretty minutes ++ " "
             ++ (if minutes =? 1 then "minuto" else "minutos"))
  /\ (3600000 <= now - t ->
      exists hours,
        1 <= hours /\ hours = (now - t) / 3600000
        /\ formatLastAttempt (Some t) now
           = "hace " ++ pretty hours ++ " "
             ++ (if hours =? 1 then "hora" else "horas")).
Proof.
  split; [reflexivity|]. unfold formatLastAttempt. split; [|split].
  - intros Hlt. apply Z.ltb_lt in Hlt. now rewrite Hlt.
  - intros [Hge Hlt]. apply Z.ltb_ge in Hge. apply Z.ltb_lt in Hlt.
    rewrite Hge, Hlt. exists ((now - t) / 60000).
    apply Z.ltb_ge in Hge. apply Z.ltb_lt in Hlt.
    split; [|split; reflexivity].
    split.
    + apply Z.div_le_lower_bound; lia.
    + apply Z.lt_succ_r. apply Z.div_lt_upper_bound; lia.
  - intros Hge.
    assert (H1 : (now - t <? 60000) = false) by (apply Z.ltb_ge; lia).
    assert (H2 : (now - t <? 3600000) = false) by (apply Z.ltb_ge; lia).
    rewrite H1, H2. exists ((now - t) / 3600000).
    split; [|split; reflexivity].
    apply Z.div_le_lower_bound; lia.
Qed.

(** Projections of the provider state through its setters. *)
Ltac ui_simpl :=
  cbn [consentimientos consentimientosArchivados loading connectionError
       retryCount lastConnectionAttempt isRetrying timers cyclesInFlight
       setConsentimientos_ui setConsentimientosArchivados_ui setLoading_ui
       setConnectionError_ui setRetryCount_ui setLastConnectionAttempt_ui
       setIsRetrying_ui set_timers set_cyclesInFlight lib ui fst snd] in *.

(** ** The load cycle, case by case *)

(** A load that passes the guard, up to the outcome of the race: the cache
    blocks only read, the check only probes, and the rest of the function
    runs from the state they leave. *)
Lemma load_prefix_run (c : Closure) (manual : bool) (o : LoadOracle) (a : App) :
  load_guard c manual = false ->
  exists a1 l2,
    no_cache_write (lib a) (lib a1)
    /\ requests (lib a1) = requests (lib a)
    /\ (loading (ui a1) = (if manual then true else loading (ui a))
        /\ connectionError (ui a1) = connectionError (ui a)
        /\ retryCount (ui a1) = retryCount (ui a)
        /\ lastConnectionAttempt (ui a1) = Some (load_now o)
        /\ isRetrying (ui a1) = true
        /\ timers (ui a1) = timers (ui a)
        /\ cyclesInFlight (ui a1) = S (cyclesInFlight (ui a)))
    /\ (consentimientos (ui a1) = consentimientos (ui a)
        \/ held_in_cache (lib a) CONSENT_CACHE_KEY (consentimientos (ui a1)))
    /\ (consentimientosArchivados (ui a1) = consentimientosArchivados (ui a)
        \/ held_in_cache (lib a) ARCHIVED_CONSENT_CACHE_KEY
             (consentimientosArchivados (ui a1)))
    /\ same_cache (lib a1) l2
    /\ only_probes_added (lib a1) l2
    /\ loadConsentimientos c manual o a
       = finally
           (try_catch
              (do _ <- load_after_race c manual o
                         (fst (checkSupabaseConnection (load_now o) (load_check o)
                                 (lib a))
                          && load_check_in_time o);
               ret None)
              (load_catch o))
           load_finally (mkApp l2 (ui a1)).
Proof.
  intros Hguard. unfold loadConsentimientos. rewrite Hguard.
  unfold load_begin. run.
  match goal with |- context [use_cached ?n ?s] =>
    destruct (use_cached_reads n s) as (c1 & c2 & a1 & E1 & W1 & M1 & K1 & V1 & V2);
    rewrite E1 end.
  cbn [lib ui] in *.
  unfold race_connection, call_lib. run.
  pose proof (checkSupabaseConnection_result (load_now o) (load_check o) _ _ M1) as Hres.
  pose proof (same_cache_checkSupabaseConnection (load_now o) (load_check o) (lib a1)) as S2.
  pose proof (only_probes_checkSupabaseConnection (load_now o) (load_check o) (lib a1)) as P2.
  destruct (checkSupabaseConnection (load_now o) (load_check o) (lib a1)) as [b l2].
  cbn [fst snd] in *. subst b.
  exists a1, l2.
  destruct K1 as (Kl & Ke & Kc & Ka & Kr & Kt & Ky). cbn in Kl, Ke, Kc, Ka, Kr, Kt, Ky.
  destruct M1 as (_ & Mreq & _).
  repeat (split; [assumption|]).
  split; [repeat split; assumption|].
  repeat (split; [assumption|]).
  reflexivity.
Qed.

(** The outermost handler never throws and only raises the error flag and
    shows cached lists. *)
Lemma load_catch_run (o : LoadOracle) (e : JsError) (s : App) :
  exists s',
    load_catch o e s = (Ret (Some e), s')
    /\ no_cache_write (lib s) (lib s')
    /\ requests (lib s') = requests (lib s)
    /\ same_controls (setConnectionError_ui true (ui s)) (ui s')
    /\ (consentimientos (ui s') = consentimientos (ui s)
        \/ held_in_cache (lib s) CONSENT_CACHE_KEY (consentimientos (ui s')))
    /\ (consentimientosArchivados (ui s') = consentimientosArchivados (ui s)
        \/ held_in_cache (lib s) ARCHIVED_CONSENT_CACHE_KEY
             (consentimientosArchivados (ui s'))).
Proof.
  unfold load_catch. run.
  match goal with |- context [use_cached ?n ?s] =>
    destruct (use_cached_reads n s) as (c1 & c2 & s' & E1 & W1 & M1 & K1 & V1 & V2);
    rewrite E1 end.
  cbn [lib ui] in *. destruct M1 as (_ & Mreq & _).
  exists s'. repeat (split; [first [reflexivity | assumption]|]). exact V2.
Qed.

Lemma load_disconnected_cycles (c : Closure) (manual : bool) (rnd : Q) (s : App) :
  exists s',
    load_disconnected c manual rnd s = (Ret tt, s')
    /\ lib s' = lib s
    /\ cyclesInFlight (ui s') = cyclesInFlight (ui s)
    /\ lastConnectionAttempt (ui s') = lastConnectionAttempt (ui s).
Proof.
  unfold load_disconnected. run.
  destruct ((seen_retryCount c <? MAX_RETRIES)%nat && negb manual); run;
    [|destruct manual; run]; eexists; (split; [reflexivity|]); repeat split.
Qed.

(** Whatever happens after the race, the count of cycles in flight and the
    instant of the attempt stay. *)
Lemma load_after_race_keeps (c : Closure) (manual : bool) (o : LoadOracle)
    (b : bool) (s : App) :
  cyclesInFlight (ui (snd (load_after_race c manual o b s))) = cyclesInFlight (ui s)
  /\ lastConnectionAttempt (ui (snd (load_after_race c manual o b s)))
     = lastConnectionAttempt (ui s).
Proof.
  unfold load_after_race. destruct b; cbn [negb].
  - run.
    match goal with |- context [fetch_and_commit o ?s0] =>
      destruct (fetch_and_commit_controls o s0) as (_ & _ & _ & Ha & _ & _ & Hy)
    end.
    cbn [ui] in Ha, Hy. rewrite Ha, Hy. split; reflexivity.
  - destruct (load_disconnected_cycles c manual (load_random o) s)
      as (s' & -> & _ & Hy & Ha).
    now split.
Qed.

(** X21.  A load never rejects and always settles: whatever the network
    does, the call returns, the cycle it opened is closed again, and, when
    it passed the guard, the loading and retrying flags are off and the
    attempt is dated at the start of the call.  When the guard stops it,
    nothing changes. *)
Theorem load_always_settles (c : Closure) (manual : bool) (o : LoadOracle)
    (a : App) :
  exists logged a',
    loadConsentimientos c manual o a = (Ret logged, a')
    /\ cyclesInFlight (ui a') = cyclesInFlight (ui a)
    /\ (load_guard c manual = true -> logged = None /\ a' = a)
    /\ (load_guard c manual = false ->
        loading (ui a') = false
        /\ isRetrying (ui a') = false
        /\ lastConnectionAttempt (ui a') = Some (load_now o)).
Proof.
  destruct (load_guard c manual) eqn:Hguard.
  - unfold loadConsentimientos. rewrite Hguard. exists None, a.
    repeat split; congruence.
  - destruct (load_prefix_run c manual o a Hguard)
      as (a1 & l2 & _ & _ & (_ & _ & _ & Ha & _ & _ & Hy) & _ & _ & _ & _ & ->).
    unfold finally, try_catch, bind at 1.
    pose proof (load_after_race_keeps c manual o
                  (fst (checkSupabaseConnection (load_now o) (load_check o) (lib a))
                   && load_check_in_time o) (mkApp l2 (ui a1))) as [Ky Ka].
    destruct (load_after_race _ _ _ _ _) as [[[]|e] s3]; cbn [snd ui] in Ky, Ka.
    + unfold ret. exists None, (load_finally s3). split; [reflexivity|].
      unfold load_finally. cbn. rewrite Ky, Hy, Ka, Ha.
      repeat split; congruence.
    + destruct (load_catch_run o e s3) as (s4 & -> & _ & _ & K4 & _).
      destruct K4 as (_ & _ & _ & K4a & _ & _ & K4y). cbn in K4a, K4y.
      exists (Some e), (load_finally s4). split; [reflexivity|].
      unfold load_finally. cbn. rewrite K4y, Ky, Hy, K4a, Ka, Ha.
      repeat split; congruence.
Qed.

(** A load that passes the guard and finds no connection (the check says
    no, or the 60 s timer wins the race). *)
Lemma load_disconnected_run (c : Closure) (manual : bool) (o : LoadOracle)
    (a : App) :
  load_guard c manual = false ->
  fst (checkSupabaseConnection (load_now o) (load_check o) (lib a))
  && load_check_in_time o = false ->
  exists a',
    loadConsentimientos c manual o a = (Ret None, a')
    /\ no_cache_write (lib a) (lib a')
    /\ only_probes_added (lib a) (lib a')
    /\ connectionError (ui a') = true
    /\ cyclesInFlight (ui a') = cyclesInFlight (ui a)
    /\ (retryCount (ui a'), timers (ui a'))
       = (if (seen_retryCount c <? MAX_RETRIES)%nat && negb manual
          then (S (retryCount (ui a)),
                (timers (ui a)
                 ++ [mkTimer (getRetryDelay (seen_retryCount c) (load_random o)) c])%list)
          else ((if manual then 0%nat else retryCount (ui a)), timers (ui a)))
    /\ (consentimientos (ui a') = consentimientos (ui a)
        \/ held_in_cache (lib a) CONSENT_CACHE_KEY (consentimientos (ui a')))
    /\ (consentimientosArchivados (ui a') = consentimientosArchivados (ui a)
        \/ held_in_cache (lib a) ARCHIVED_CONSENT_CACHE_KEY
             (consentimientosArchivados (ui a'))).
Proof.
  intros Hguard Hdown.
  destruct (load_prefix_run c manual o a Hguard)
    as (a1 & l2 & W1 & Hreq & (_ & _ & Hc & _ & _ & Ht & Hy) & V1 & V2 & S2 & P2 & ->).
  rewrite Hdown. unfold load_after_race. cbn [negb].
  unfold load_disconnected, finally, try_catch. run.
  assert (Wend : no_cache_write (lib a) l2).
  { eapply no_cache_write_trans; [exact W1|]. now apply same_cache_no_write. }
  assert (Pend : only_probes_added (lib a) l2).
  { destruct P2 as (added & Hadd & Hpr). exists added. now rewrite Hadd, Hreq. }
  destruct ((seen_retryCount c <? MAX_RETRIES)%nat && negb manual); run;
    [|destruct manual; run];
    (eexists; split; [reflexivity|]); unfold load_finally; cbn;
    rewrite ?Hc, ?Ht, ?Hy;
    repeat (split; [first [reflexivity | assumption]|]);
    try assumption.
Qed.

(** X22.  A load without connection: it returns without an error, raises
    the connection-error flag, sends nothing but the probes of the check,
    writes nothing into the cache and shows the lists it had or cached
    ones.  A background load whose callback saw fewer than 15 retries counts
    one more retry and arms one timer, with the delay computed from the
    count the callback saw; a manual one resets the count and arms none;
    otherwise count and timers stay. *)
Theorem load_without_connection (c : Closure) (manual : bool) (o : LoadOracle)
    (a : App) :
  load_guard c manual = false ->
  fst (checkSupabaseConnection (load_now o) (load_check o) (lib a))
  && load_check_in_time o = false ->
  let after := snd (loadConsentimientos c manual o a) in
  fst (loadConsentimientos c manual o a) = Ret None
  /\ connectionError (ui after) = true
  /\ only_probes_added (lib a) (lib after)
  /\ no_cache_write (lib a) (lib after)
  /\ (retryCount (ui after), timers (ui after))
     = (if (seen_retryCount c <? MAX_RETRIES)%nat && negb manual
        then (S (retryCount (ui a)),
              (timers (ui a)
               ++ [mkTimer (getRetryDelay (seen_retryCount c) (load_random o)) c])%list)
        else ((if manual then 0%nat else retryCount (ui a)), timers (ui a)))
  /\ (consentimientos (ui after) = consentimientos (ui a)
      \/ held_in_cache (lib a) CONSENT_CACHE_KEY (consentimientos (ui after)))
  /\ (consentimientosArchivados (ui after) = consentimientosArchivados (ui a)
      \/ held_in_cache (lib a) ARCHIVED_CONSENT_CACHE_KEY
           (consentimientosArchivados (ui after))).
Proof.
  intros Hguard Hdown after.
  destruct (load_disconnected_run c manual o a Hguard Hdown)
    as (a' & E & W & P & He & _ & Hrt & V1 & V2).
  unfold after. rewrite E. cbn [fst snd].
  split; [reflexivity|]. repeat (split; [assumption|]). assumption.
Qed.

Lemma load_without_connection_witness :
  let c := initial_closure in
  let o := load_network_down in
  let a := app_at_mount in
  let after := snd (loadConsentimientos c false o a) in
  fst (loadConsentimientos c false o a) = Ret None
  /\ connectionError (ui after) = true
  /\ only_probes_added (lib a) (lib after)
  /\ no_cache_write (lib a) (lib after)
  /\ (retryCount (ui after), timers (ui after))
     = (if (seen_retryCount c <? MAX_RETRIES)%nat && negb false
        then (S (retryCount (ui a)),
              (timers (ui a)
               ++ [mkTimer (getRetryDelay (seen_retryCount c) (load_random o)) c])%list)
        else ((if false then 0%nat else retryCount (ui a)), timers (ui a)))
  /\ (consentimientos (ui after) = consentimientos (ui a)
      \/ held_in_cache (lib a) CONSENT_CACHE_KEY (consentimientos (ui after)))
  /\ (consentimientosArchivados (ui after) = consentimientosArchivados (ui a)
      \/ held_in_cache (lib a) ARCHIVED_CONSENT_CACHE_KEY
           (consentimientosArchivados (ui after))).
Proof.
  apply (load_without_connection initial_closure false load_network_down
           app_at_mount); reflexivity.
Defined.

(** X23.  A chain of scheduled retries does not back off.  The timer armed
    by a background load without connection calls the same instance of the
    callback: when it fires, a new cycle starts whatever the retrying flag
    says, and if that cycle finds no connection either, the next timer is
    armed with the delay of the same attempt number as the first, while the
    retry count shown has grown by two. *)
Theorem scheduled_retry_repeats_the_attempt (c : Closure) (o1 o2 : LoadOracle)
    (a : App) :
  seen_isRetrying c = false ->
  (seen_retryCount c < MAX_RETRIES)%nat ->
  timers (ui a) = [] ->
  fst (checkSupabaseConnection (load_now o1) (load_check o1) (lib a))
  && load_check_in_time o1 = false ->
  let first := snd (loadConsentimientos c false o1 a) in
  fst (checkSupabaseConnection (load_now o2) (load_check o2) (lib first))
  && load_check_in_time o2 = false ->
  let fired := fire_timer (load_now o2) first in
  let second := snd (load_continue c false o2 fired) in
  timers (ui first)
  = [mkTimer (getRetryDelay (seen_retryCount c) (load_random o1)) c]
  /\ cyclesInFlight (ui fired) = S (cyclesInFlight (ui a))
  /\ timers (ui second)
     = [mkTimer (getRetryDelay (seen_retryCount c) (load_random o2)) c]
  /\ retryCount (ui second) = S (S (retryCount (ui a))).
Proof.
  intros Hseen Hcount Htimers Hdown1 first Hdown2 fired second.
  assert (Hguard : load_guard c false = false).
  { unfold load_guard. now rewrite Hseen. }
  assert (Hcond : (seen_retryCount c <? MAX_RETRIES)%nat && negb false = true).
  { apply andb_true_iff. split; [now apply Nat.ltb_lt | reflexivity]. }
  destruct (load_disconnected_run c false o1 a Hguard Hdown1)
    as (a1 & E1 & _ & _ & _ & Hy1 & Hrt1 & _).
  rewrite Hcond, Htimers in Hrt1. cbn [app] in Hrt1.
  injection Hrt1 as Hr1 Ht1.
  assert (Hfirst : first = a1) by (unfold first; now rewrite E1).
  pose (restart := clear_flag (mkApp (lib a1) (set_timers [] (ui a1)))).
  assert (Hfired : fired = load_start c false (load_now o2) restart).
  { unfold fired, fire_timer. rewrite Hfirst, Ht1. reflexivity. }
  assert (Hsecond : second = snd (loadConsentimientos c false o2 restart)).
  { unfold second. rewrite loadConsentimientos_cut, Hguard, Hfired. reflexivity. }
  assert (Hdown2' :
    fst (checkSupabaseConnection (load_now o2) (load_check o2) (lib restart))
    && load_check_in_time o2 = false).
  { rewrite Hfirst in Hdown2. exact Hdown2. }
  destruct (load_disconnected_run c false o2 restart Hguard Hdown2')
    as (a2 & E2 & _ & _ & _ & _ & Hrt2 & _).
  rewrite Hcond in Hrt2. cbn in Hrt2. injection Hrt2 as Hr2 Ht2.
  rewrite Hsecond, E2, Hfirst. cbn [snd].
  split; [exact Ht1|]. split.
  - rewrite Hfired, load_start_cycles, Hguard. cbn. now rewrite Hy1.
  - split; [exact Ht2|]. now rewrite Hr2, Hr1.
Qed.

Lemma scheduled_retry_repeats_the_attempt_witness :
  let c := initial_closure in
  let first := snd (loadConsentimientos c false load_network_down app_at_mount) in
  let fired := fire_timer (load_now load_network_still_down) first in
  let second := snd (load_continue c false load_network_still_down fired) in
  timers (ui first)
  = [mkTimer (getRetryDelay (seen_retryCount c) (load_random load_network_down)) c]
  /\ cyclesInFlight (ui fired) = S (cyclesInFlight (ui app_at_mount))
  /\ timers (ui second)
     = [mkTimer (getRetryDelay (seen_retryCount c)
                   (load_random load_network_still_down)) c]
  /\ retryCount (ui second) = S (S (retryCount (ui app_at_mount))).
Proof.
  apply (scheduled_retry_repeats_the_attempt initial_closure load_network_down
           load_network_still_down app_at_mount);
    first [reflexivity | unfold MAX_RETRIES; cbn; lia].
Defined.

Section CacheReload.

Context {T : Type} `{JsData T}.
Implicit Types (l : Lib T) (key : string) (now : Z).

Lemma requests_cacheData ok key (d : T) ttl now l :
  requests (cacheData ok key d ttl now l) = requests l.
Proof.
  unfold cacheData. destruct (isNull d || isEmptyArray d); [reflexivity|].
  now destruct ok.
Qed.

(** Reading one key leaves the entries of every other key alone. *)
Lemma getCachedData_other_key key key' now l :
  key <> key' ->
  dataCache (snd (getCachedData key now l)) !! key' = dataCache l !! key'
  /\ localStorage (snd (getCachedData key now l)) !! durable_key key'
     = localStorage l !! durable_key key'.
Proof.
  intros Hne.
  assert (Hd : durable_key key <> durable_key key').
  { intros Heq. now apply durable_key_inj in Heq. }
  assert (Hdur :
    dataCache (snd (getCachedData_durable key now l)) !! key' = dataCache l !! key'
    /\ localStorage (snd (getCachedData_durable key now l)) !! durable_key key'
       = localStorage l !! durable_key key').
  { unfold getCachedData_durable.
    destruct (localStorage l !! durable_key key) as [[s|it|]|]; cbn; auto.
    - destruct (now <=? expiry it); cbn.
      + split; [now apply lookup_insert_ne | reflexivity].
      + split; [reflexivity | now apply lookup_delete_ne].
    - split; [reflexivity | now apply lookup_delete_ne]. }
  unfold getCachedData.
  destruct (dataCache l !! key) as [it|]; [|exact Hdur].
  destruct (now <=? expiry it); [auto | exact Hdur].
Qed.

(** After a reload the memory tier is empty and the durable tier answers. *)
Lemma getCachedData_after_reload key now l it :
  localStorage l !! durable_key key = Some (Json it) ->
  now <= expiry it ->
  fst (getCachedData key now (page_reload l)) = Some (data it).
Proof.
  intros Hl Hle. unfold getCachedData, page_reload. cbn [dataCache].
  rewrite lookup_empty. unfold getCachedData_durable. cbn [localStorage].
  rewrite Hl. apply Z.leb_le in Hle. now rewrite Hle.
Qed.

End CacheReload.

(** A load in which the check succeeds in time and both queries are
    answered without an error. *)
Lemma load_success_state (c : Closure) (manual : bool) (o : LoadOracle) (a : App)
    (dataActivos dataArchivados : option (list Row)) :
  load_guard c manual = false ->
  fst (checkSupabaseConnection (load_now o) (load_check o) (lib a)) = true ->
  load_check_in_time o = true ->
  outcome (load_active o) = Resolved dataActivos None ->
  outcome (load_archived o) = Resolved dataArchivados None ->
  exists l4 p,
    loadConsentimientos c manual o a
    = (Ret None,
       mkApp (cacheData (load_store_archived_ok o) ARCHIVED_CONSENT_CACHE_KEY
                (transformarDatos dataArchivados) CONSENT_CACHE_TTL
                (load_commit_now o)
                (cacheData (load_store_active_ok o) CONSENT_CACHE_KEY
                   (transformarDatos dataActivos) CONSENT_CACHE_TTL
                   (load_commit_now o) l4))
             p)
    /\ (exists added,
          requests l4
          = (SupabaseQuery QArchived :: SupabaseQuery QActive
               :: added ++ requests (lib a))%list
          /\ forallb is_probe added = true)
    /\ consentimientos p = transformarDatos dataActivos
    /\ consentimientosArchivados p = transformarDatos dataArchivados
    /\ connectionError p = false
    /\ retryCount p = 0%nat
    /\ timers p = timers (ui a).
Proof.
  intros Hguard Hconn Htime Hactive Harch.
  destruct (load_prefix_run c manual o a Hguard)
    as (a1 & l2 & _ & Hreq & (_ & _ & _ & _ & _ & Ht & _) & _ & _ & _ & P2 & ->).
  rewrite Hconn, Htime. cbn [andb]. unfold load_after_race. cbn [negb].
  unfold finally, try_catch. run.
  unfold fetch_and_commit. run. await. rewrite Hactive.
  unfold fetch_archived_and_commit. run. await. rewrite Harch. run.
  eexists; eexists. split; [reflexivity|].
  split.
  { destruct P2 as (added & Hadd & Hpr). exists added.
    split; [|exact Hpr]. now rewrite Hreq1, Hreq0, Hadd, Hreq. }
  unfold load_finally. cbn. now rewrite Ht.
Qed.

(** X24.  A load that finds the connection and gets both answers: it
    returns without an error, shows exactly the two transformed lists,
    clears the error flag and the retry count, sends the active query and
    then the archived query after the probes of the check, and leaves each
    non-empty list readable from the cache for the next 172800 seconds. *)
Theorem load_success (c : Closure) (manual : bool) (o : LoadOracle) (a : App)
    (dataActivos dataArchivados : option (list Row)) :
  load_guard c manual = false ->
  fst (checkSupabaseConnection (load_now o) (load_check o) (lib a)) = true ->
  load_check_in_time o = true ->
  outcome (load_active o) = Resolved dataActivos None ->
  outcome (load_archived o) = Resolved dataArchivados None ->
  let after := snd (loadConsentimientos c manual o a) in
  let valid_until := load_commit_now o + CONSENT_CACHE_TTL * 1000 in
  fst (loadConsentimientos c manual o a) = Ret None
  /\ consentimientos (ui after) = transformarDatos dataActivos
  /\ consentimientosArchivados (ui after) = transformarDatos dataArchivados
  /\ connectionError (ui after) = false
  /\ retryCount (ui after) = 0%nat
  /\ (exists added,
        requests (lib after)
        = (SupabaseQuery QArchived :: SupabaseQuery QActive
             :: added ++ requests (lib a))%list
        /\ forallb is_probe added = true)
  /\ (transformarDatos dataActivos <> [] ->
      forall now', now' <= valid_until ->
        fst (getCachedData CONSENT_CACHE_KEY now' (lib after))
        = Some (transformarDatos dataActivos))
  /\ (transformarDatos dataArchivados <> [] ->
      forall now', now' <= valid_until ->
        fst (getCachedData ARCHIVED_CONSENT_CACHE_KEY now' (lib after))
        = Some (transformarDatos dataArchivados)).
Proof.
  intros Hguard Hconn Htime Hactive Harch after valid_until.
  destruct (load_success_state c manual o a dataActivos dataArchivados
              Hguard Hconn Htime Hactive Harch)
    as (l4 & p & E & Hreq & Hact & Harc & Herr & Hcount & _).
  unfold after. rewrite E. cbn [fst snd lib ui].
  split; [reflexivity|].
  repeat (split; [assumption|]).
  split; [now rewrite !requests_cacheData|].
  split.
  - intros Hne now' Hle.
    match goal with |- fst (getCachedData _ _ ?l) = _ =>
      assert (Hitem : dataCache l !! CONSENT_CACHE_KEY
                      = Some (mkCacheItem (transformarDatos dataActivos)
                                (load_commit_now o) valid_until)) end.
    { destruct (cacheData_other_key (load_store_archived_ok o)
                  ARCHIVED_CONSENT_CACHE_KEY CONSENT_CACHE_KEY
                  (transformarDatos dataArchivados) CONSENT_CACHE_TTL
                  (load_commit_now o)
                  (cacheData (load_store_active_ok o) CONSENT_CACHE_KEY
                     (transformarDatos dataActivos) CONSENT_CACHE_TTL
                     (load_commit_now o) l4)) as [-> _]; [discriminate|].
      apply cacheData_memory. now destruct (transformarDatos dataActivos). }
    now rewrite (getCachedData_memory_hit _ _ _ _ Hitem Hle).
  - intros Hne now' Hle.
    match goal with |- fst (getCachedData _ _ ?l) = _ =>
      assert (Hitem : dataCache l !! ARCHIVED_CONSENT_CACHE_KEY
                      = Some (mkCacheItem (transformarDatos dataArchivados)
                                (load_commit_now o) valid_until)) end.
    { apply cacheData_memory. now destruct (transformarDatos dataArchivados). }
    now rewrite (getCachedData_memory_hit _ _ _ _ Hitem Hle).
Qed.

Lemma load_success_witness :
  let c := initial_closure in
  let o := load_both_answered in
  let a := app_at_mount in
  let dataActivos := Some [example_row "a1" false] in
  let dataArchivados := Some [example_row "z9" true] in
  let after := snd (loadConsentimientos c false o a) in
  let valid_until := load_commit_now o + CONSENT_CACHE_TTL * 1000 in
  fst (loadConsentimientos c false o a) = Ret None
  /\ consentimientos (ui after) = transformarDatos dataActivos
  /\ consentimientosArchivados (ui after) = transformarDatos dataArchivados
  /\ connectionError (ui after) = false
  /\ retryCount (ui after) = 0%nat
  /\ (exists added,
        requests (lib after)
        = (SupabaseQuery QArchived :: SupabaseQuery QActive
             :: added ++ requests (lib a))%list
        /\ forallb is_probe added = true)
  /\ (transformarDatos dataActivos <> [] ->
      forall now', now' <= valid_until ->
        fst (getCachedData CONSENT_CACHE_KEY now' (lib after))
        = Some (transformarDatos dataActivos))
  /\ (transformarDatos dataArchivados <> [] ->
      forall now', now' <= valid_until ->
        fst (getCachedData ARCHIVED_CONSENT_CACHE_KEY now' (lib after))
        = Some (transformarDatos dataArchivados)).
Proof.
  apply (load_success initial_closure false load_both_answered app_at_mount
           (Some [example_row "a1" false]) (Some [example_row "z9" true]));
    reflexivity.
Defined.

(** X25.  What a successful load stored is what the next page load starts
    with: for each list that was non-empty and whose durable write
    succeeded, a provider mounted after a reload within 172800 seconds
    shows that list before any request is made. *)
Theorem reload_shows_last_load (c : Closure) (manual : bool) (o : LoadOracle)
    (a : App) (dataActivos dataArchivados : option (list Row)) (now' : Z) :
  load_guard c manual = false ->
  fst (checkSupabaseConnection (load_now o) (load_check o) (lib a)) = true ->
  load_check_in_time o = true ->
  outcome (load_active o) = Resolved dataActivos None ->
  outcome (load_archived o) = Resolved dataArchivados None ->
  now' <= load_commit_now o + CONSENT_CACHE_TTL * 1000 ->
  let after := snd (loadConsentimientos c manual o a) in
  let mounted := provider_at_mount now' (page_reload (lib after)) in
  (load_store_active_ok o = true -> transformarDatos dataActivos <> [] ->
   consentimientos (fst mounted) = transformarDatos dataActivos)
  /\ (load_store_archived_ok o = true -> transformarDatos dataArchivados <> [] ->
      consentimientosArchivados (fst mounted) = transformarDatos dataArchivados)
  /\ requests (snd mounted) = requests (lib after).
Proof.
  intros Hguard Hconn Htime Hactive Harch Hle after mounted.
  destruct (load_success_state c manual o a dataActivos dataArchivados
              Hguard Hconn Htime Hactive Harch)
    as (l4 & p & E & _).
  assert (Hafter : lib after
    = cacheData (load_store_archived_ok o) ARCHIVED_CONSENT_CACHE_KEY
        (transformarDatos dataArchivados) CONSENT_CACHE_TTL (load_commit_now o)
        (cacheData (load_store_active_ok o) CONSENT_CACHE_KEY
           (transformarDatos dataActivos) CONSENT_CACHE_TTL
           (load_commit_now o) l4)).
  { unfold after. now rewrite E. }
  set (reloaded := page_reload (lib after)) in *.
  pose proof (getCachedData_other_key CONSENT_CACHE_KEY ARCHIVED_CONSENT_CACHE_KEY
                now' reloaded keys_differ) as [Hmem Hdur].
  pose proof (getCachedData_reads CONSENT_CACHE_KEY now' reloaded)
    as (_ & (_ & Hreq1 & _) & _).
  assert (Hmounted : mounted
    = (mkProvider
         (default [] (fst (getCachedData CONSENT_CACHE_KEY now' reloaded)))
         (default [] (fst (getCachedData ARCHIVED_CONSENT_CACHE_KEY now'
                             (snd (getCachedData CONSENT_CACHE_KEY now' reloaded)))))
         true false 0 None false [] 0,
       snd (getCachedData ARCHIVED_CONSENT_CACHE_KEY now'
              (snd (getCachedData CONSENT_CACHE_KEY now' reloaded))))).
  { unfold mounted, provider_at_mount.
    destruct (getCachedData CONSENT_CACHE_KEY now' reloaded) as [r1 l1].
    cbn [fst snd]. now destruct (getCachedData ARCHIVED_CONSENT_CACHE_KEY now' l1). }
  rewrite Hmounted. cbn [fst snd consentimientos consentimientosArchivados].
  rewrite (getCachedData_own_entries _ _ _ _ Hmem Hdur).
  unfold reloaded in *. clear reloaded.
  split; [|split].
  - intros Hok Hne.
    rewrite (getCachedData_after_reload CONSENT_CACHE_KEY now' (lib after)
               (mkCacheItem (transformarDatos dataActivos) (load_commit_now o)
                  (load_commit_now o + CONSENT_CACHE_TTL * 1000)));
      [reflexivity| |exact Hle].
    rewrite Hafter.
    destruct (cacheData_other_key (load_store_archived_ok o)
                ARCHIVED_CONSENT_CACHE_KEY CONSENT_CACHE_KEY
                (transformarDatos dataArchivados) CONSENT_CACHE_TTL
                (load_commit_now o)
                (cacheData (load_store_active_ok o) CONSENT_CACHE_KEY
                   (transformarDatos dataActivos) CONSENT_CACHE_TTL
                   (load_commit_now o) l4)) as [_ ->]; [discriminate|].
    rewrite cacheData_durable by (now destruct (transformarDatos dataActivos)).
    now rewrite Hok.
  - intros Hok Hne.
    rewrite (getCachedData_after_reload ARCHIVED_CONSENT_CACHE_KEY now' (lib after)
               (mkCacheItem (transformarDatos dataArchivados) (load_commit_now o)
                  (load_commit_now o + CONSENT_CACHE_TTL * 1000)));
      [reflexivity| |exact Hle].
    rewrite Hafter.
    rewrite cacheData_durable by (now destruct (transformarDatos dataArchivados)).
    now rewrite Hok.
  - pose proof (getCachedData_reads ARCHIVED_CONSENT_CACHE_KEY now'
                  (snd (getCachedData CONSENT_CACHE_KEY now'
                          (page_reload (lib after)))))
      as (_ & (_ & Hreq2 & _) & _).
    now rewrite Hreq2, Hreq1.
Qed.

Lemma reload_shows_last_load_witness :
  let o := load_both_answered in
  let dataActivos := Some [example_row "a1" false] in
  let dataArchivados := Some [example_row "z9" true] in
  let after := snd (loadConsentimientos initial_closure false o app_at_mount) in
  let mounted := provider_at_mount 1700000100000 (page_reload (lib after)) in
  (load_store_active_ok o = true -> transformarDatos dataActivos <> [] ->
   consentimientos (fst mounted) = transformarDatos dataActivos)
  /\ (load_store_archived_ok o = true -> transformarDatos dataArchivados <> [] ->
      consentimientosArchivados (fst mounted) = transformarDatos dataArchivados)
  /\ requests (snd mounted) = requests (lib after).
Proof.
  apply (reload_shows_last_load initial_closure false load_both_answered
           app_at_mount (Some [example_row "a1" false])
           (Some [example_row "z9" true]) 1700000100000);
    first [reflexivity | vm_compute; discriminate].
Defined.

(** X26.  A load whose active query fails: the archived query is never
    sent, nothing is written into the cache, the error is logged (a timeout
    under its own message), the error flag is raised and the retry count is
    back at zero. *)
Theorem active_failure_skips_archived (c : Closure) (manual : bool)
    (o : LoadOracle) (a : App) (e : JsError) :
  load_guard c manual = false ->
  fst (checkSupabaseConnection (load_now o) (load_check o) (lib a)) = true ->
  load_check_in_time o = true ->
  active_fetch_fails (load_active o) e ->
  let after := snd (loadConsentimientos c manual o a) in
  fst (loadConsentimientos c manual o a) = Ret (Some e)
  /\ (exists added,
        requests (lib after) = (SupabaseQuery QActive :: added ++ requests (lib a))%list
        /\ forallb is_probe added = true)
  /\ no_cache_write (lib a) (lib after)
  /\ connectionError (ui after) = true
  /\ retryCount (ui after) = 0%nat
  /\ (consentimientos (ui after) = consentimientos (ui a)
      \/ held_in_cache (lib a) CONSENT_CACHE_KEY (consentimientos (ui after)))
  /\ (consentimientosArchivados (ui after) = consentimientosArchivados (ui a)
      \/ held_in_cache (lib a) ARCHIVED_CONSENT_CACHE_KEY
           (consentimientosArchivados (ui after))).
Proof.
  intros Hguard Hconn Htime Hfail after.
  destruct (load_prefix_run c manual o a Hguard)
    as (a1 & l2 & W1 & Hreq & _ & V1 & V2 & S2 & P2 & E).
  unfold after. rewrite E. clear E after.
  rewrite Hconn, Htime. cbn [andb]. unfold load_after_race. cbn [negb].
  unfold finally, try_catch. run.
  unfold fetch_and_commit. run. await.
  assert (W3 : no_cache_write (lib a) l).
  { eapply no_cache_write_trans; [exact W1|]. apply same_cache_no_write.
    eapply same_cache_trans; eassumption. }
  assert (R3 : exists added,
    requests l = (SupabaseQuery QActive :: added ++ requests (lib a))%list
    /\ forallb is_probe added = true).
  { destruct P2 as (added & Hadd & Hpr). exists added.
    split; [|exact Hpr]. now rewrite Hreq0, Hadd, Hreq. }
  assert (Hend : forall err s,
    s = mkApp l (setRetryCount_ui 0 (setConnectionError_ui false (ui a1))) ->
    let after := load_finally (snd (load_catch o err s)) in
    fst (load_catch o err s) = Ret (Some err)
    /\ (exists added,
          requests (lib after)
          = (SupabaseQuery QActive :: added ++ requests (lib a))%list
          /\ forallb is_probe added = true)
    /\ no_cache_write (lib a) (lib after)
    /\ connectionError (ui after) = true
    /\ retryCount (ui after) = 0%nat
    /\ (consentimientos (ui after) = consentimientos (ui a)
        \/ held_in_cache (lib a) CONSENT_CACHE_KEY (consentimientos (ui after)))
    /\ (consentimientosArchivados (ui after) = consentimientosArchivados (ui a)
        \/ held_in_cache (lib a) ARCHIVED_CONSENT_CACHE_KEY
             (consentimientosArchivados (ui after)))).
  { intros err s Hs after.
    destruct (load_catch_run o err s) as (s' & E & W5 & R5 & K5 & V5 & V6).
    unfold after. rewrite E. subst s. unfold load_finally.
    destruct K5 as (_ & Ke & Kc & _). ui_simpl.
    split; [reflexivity|]. split; [now rewrite R5|].
    split; [eapply no_cache_write_trans; eassumption|].
    split; [exact Ke|]. split; [exact Kc|].
    split.
    - destruct V5 as [->|V5]; [exact V1|].
      right. eapply held_in_cache_earlier; eassumption.
    - destruct V6 as [->|V6]; [exact V2|].
      right. eapply held_in_cache_earlier; eassumption. }
  destruct Hfail as [(d & m & -> & ->)|(e0 & -> & ->)]; run.
  - cbn [String.eqb Ascii.eqb Bool.eqb name Error]. run.
    match goal with |- context [load_catch o ?err ?s] =>
      specialize (Hend err s eq_refl); cbv zeta in Hend;
      destruct (load_catch o err s) as [r s'] end.
    cbn [fst snd] in Hend |- *. destruct Hend as (-> & Hend). exact (conj eq_refl Hend).
  - destruct (String.eqb (name e0) "AbortError"); run;
      match goal with |- context [load_catch o ?err ?s] =>
        specialize (Hend err s eq_refl); cbv zeta in Hend;
        destruct (load_catch o err s) as [r s'] end;
      cbn [fst snd] in Hend |- *; destruct Hend as (-> & Hend);
      exact (conj eq_refl Hend).
Qed.

Lemma active_failure_skips_archived_witness :
  let c := initial_closure in
  let o := load_active_timeout in
  let a := app_at_mount in
  let e := Error "Tiempo de espera agotado al cargar consentimientos activos." in
  let after := snd (loadConsentimientos c false o a) in
  fst (loadConsentimientos c false o a) = Ret (Some e)
  /\ (exists added,
        requests (lib after) = (SupabaseQuery QActive :: added ++ requests (lib a))%list
        /\ forallb is_probe added = true)
  /\ no_cache_write (lib a) (lib after)
  /\ connectionError (ui after) = true
  /\ retryCount (ui after) = 0%nat
  /\ (consentimientos (ui after) = consentimientos (ui a)
      \/ held_in_cache (lib a) CONSENT_CACHE_KEY (consentimientos (ui after)))
  /\ (consentimientosArchivados (ui after) = consentimientosArchivados (ui a)
      \/ held_in_cache (lib a) ARCHIVED_CONSENT_CACHE_KEY
           (consentimientosArchivados (ui after))).
Proof.
  apply (active_failure_skips_archived initial_closure false load_active_timeout
           app_at_mount
           (Error "Tiempo de espera agotado al cargar consentimientos activos."));
    try reflexivity.
  right. exists abort_error. split; reflexivity.
Defined.

(** ** Create *)

(** The end of every failing path of create and archive: the shared handler
    rethrows, and the lists and the cache are those of the state it ran
    from. *)
Ltac rethrown A :=
  match goal with |- context [recheck_and_rethrow ?n ?oo ?ee ?s] =>
    let a' := fresh "a'" in let E := fresh "E" in let Hs' := fresh "Hs'" in
    let Hp' := fresh "Hp'" in let Hui := fresh "Hui" in
    destruct (@recheck_and_rethrow_run A n oo ee s) as (a' & E & Hs' & Hp' & Hui);
    rewrite E; clear E; cbn [fst snd lib ui] in *
  end.

(** X27.  Create is all or nothing on the client: when the call fails, for
    whatever reason, the active list and the cache are what they were; when
    it succeeds, the record it returns carries the first id the insert
    returned and the generated code, is not archived, and is at the head of
    the active list and of the cached list.  The archived list is never
    touched. *)
Theorem create_all_or_nothing (o : AddOracle) (n : NuevoConsentimiento) (a : App) :
  let after := snd (addConsentimiento o n a) in
  consentimientosArchivados (ui after) = consentimientosArchivados (ui a)
  /\ match fst (addConsentimiento o n a) with
     | Ret created =>
         consentimientos (ui after) = created :: consentimientos (ui a)
         /\ created
            = mkConsentimiento (id created) (add_codigo o) (add_fechaCreacion o)
                (nuevo_cliente n) (nuevo_tutor n) (nuevo_informacionSalud n)
                (nuevo_artistaSeleccionado n) (nuevo_firma n) false
         /\ (exists rest,
               outcome (add_insert o) = Resolved (Some (id created :: rest)) None)
         /\ (forall now', now' <= add_commit_now o + CONSENT_CACHE_TTL * 1000 ->
               fst (getCachedData CONSENT_CACHE_KEY now' (lib after))
               = Some (created :: consentimientos (ui a)))
         /\ connectionError (ui after) = connectionError (ui a)
     | Throw _ =>
         consentimientos (ui after) = consentimientos (ui a)
         /\ same_cache (lib a) (lib after)
     end.
Proof.
  intros after. unfold after. clear after.
  unfold addConsentimiento, call_lib. run.
  pose proof (same_cache_checkSupabaseConnection (add_now o) (add_check o) (lib a))
    as Hs0.
  destruct (checkSupabaseConnection (add_now o) (add_check o) (lib a)) as [[|] l1];
    cbn [negb fst snd] in *; run;
    [|repeat (split; [reflexivity|]); exact Hs0].
  await.
  assert (Hs1 : same_cache (lib a) l) by (eapply same_cache_trans; eassumption).
  assert (Hkeep : forall (a' : App) (l' : Lib (list Consentimiento)),
    same_cache l' (lib a') ->
    same_cache (lib a) l' ->
    ui a' = ui a \/ ui a' = setConnectionError_ui true (ui a) ->
    consentimientosArchivados (ui a') = consentimientosArchivados (ui a)
    /\ consentimientos (ui a') = consentimientos (ui a)
    /\ same_cache (lib a) (lib a')).
  { intros a' l' Hl' Hl Hui.
    split; [now destruct Hui as [-> | ->]|].
    split; [now destruct Hui as [-> | ->]|].
    eapply same_cache_trans; eassumption. }
  destruct (outcome (add_artist o)) as [[ad|] [m|]|e0]; run;
    cbn [String.eqb Ascii.eqb Bool.eqb name Error]; run;
    try (destruct (String.eqb (name e0) "AbortError"); run;
         cbn [String.eqb Ascii.eqb Bool.eqb name Error]; run);
    try (rethrown Consentimiento; now apply (Hkeep _ l)).
  (* the artist is found: the insert *)
  unfold add_insert_and_commit. run. await.
  assert (Hs2 : same_cache (lib a) l0) by (eapply same_cache_trans; eassumption).
  destruct (outcome (add_insert o)) as [[[|newId rest]|] [m|]|e1]; run;
    cbn [String.eqb Ascii.eqb Bool.eqb name Error]; run;
    try (destruct (String.eqb (name e1) "AbortError") eqn:Habort; run;
         cbn [String.eqb Ascii.eqb Bool.eqb name Error]; rewrite ?Habort; run);
    try (rethrown Consentimiento; now apply (Hkeep _ l0)).
  (* success *)
  ui_simpl. cbn [id]. split; [reflexivity|]. split; [reflexivity|].
  split; [reflexivity|]. split; [now exists rest|]. split; [|reflexivity].
  intros now' Hle.
  match goal with |- fst (getCachedData _ _ ?lib') = Some ?v =>
    assert (Hitem : dataCache lib' !! CONSENT_CACHE_KEY
                    = Some (mkCacheItem v (add_commit_now o)
                              (add_commit_now o + CONSENT_CACHE_TTL * 1000)))
      by (now apply cacheData_memory) end.
  now rewrite (getCachedData_memory_hit _ _ _ _ Hitem Hle).
Qed.

(** X28.  When create succeeds: with the connection up, the artist found
    and at least one row back from the insert, the call returns the new
    record under the id of the first row, and the requests it sent are the
    probes of the check, the artist lookup and the insert, in that order. *)
Theorem create_success (o : AddOracle) (n : NuevoConsentimiento) (a : App)
    (artistId newId : string) (rest : list string) :
  fst (checkSupabaseConnection (add_now o) (add_check o) (lib a)) = true ->
  outcome (add_artist o) = Resolved (Some artistId) None ->
  outcome (add_insert o) = Resolved (Some (newId :: rest)) None ->
  let after := snd (addConsentimiento o n a) in
  fst (addConsentimiento o n a)
  = Ret (mkConsentimiento newId (add_codigo o) (add_fechaCreacion o)
           (nuevo_cliente n) (nuevo_tutor n) (nuevo_informacionSalud n)
           (nuevo_artistaSeleccionado n) (nuevo_firma n) false)
  /\ exists added,
       requests (lib after)
       = (SupabaseQuery QInsert
            :: SupabaseQuery (QArtist (nuevo_artistaSeleccionado n))
            :: added ++ requests (lib a))%list
       /\ forallb is_probe added = true.
Proof.
  intros Hconn Hartist Hinsert after. unfold after. clear after.
  unfold addConsentimiento, call_lib. run.
  pose proof (only_probes_checkSupabaseConnection (add_now o) (add_check o) (lib a))
    as Hp0.
  destruct (checkSupabaseConnection (add_now o) (add_check o) (lib a)) as [b l1].
  cbn [fst snd] in *. subst b. cbn [negb]. run. await. rewrite Hartist. run.
  unfold add_insert_and_commit. run. await. rewrite Hinsert. run.
  split; [reflexivity|].
  destruct Hp0 as (added & Hadd & Hpr). exists added. split; [|exact Hpr].
  rewrite requests_cacheData. now rewrite Hreq0, Hreq, Hadd.
Qed.

Lemma create_success_witness :
  let o := add_answered in
  let n := example_nuevo in
  let a := app_one_active in
  let after := snd (addConsentimiento o n a) in
  fst (addConsentimiento o n a)
  = Ret (mkConsentimiento "n1" (add_codigo o) (add_fechaCreacion o)
           (nuevo_cliente n) (nuevo_tutor n) (nuevo_informacionSalud n)
           (nuevo_artistaSeleccionado n) (nuevo_firma n) false)
  /\ exists added,
       requests (lib after)
       = (SupabaseQuery QInsert
            :: SupabaseQuery (QArtist (nuevo_artistaSeleccionado n))
            :: added ++ requests (lib a))%list
       /\ forallb is_probe added = true.
Proof.
  apply (create_success add_answered example_nuevo app_one_active
           "artist-1" "n1" []); reflexivity.
Defined.

(** ** Archive *)

Lemma filter_none_matches (i : string) (cs : list Consentimiento) :
  find (fun c => String.eqb (id c) i) cs = None ->
  List.filter (fun c => negb (String.eqb (id c) i)) cs = cs.
Proof.
  induction cs as [|c cs IH]; cbn [find List.filter]; [reflexivity|].
  destruct (String.eqb (id c) i); [discriminate|].
  intros Hnone. cbn [negb]. now rewrite IH.
Qed.

(** X29.  Archive does not roll back.  Once the record is found and the
    connection is up, whatever the RPC does (answer, error, rejection), the
    record is out of the active list and a copy marked archived is at the
    head of the archived list when the call ends; the call succeeds exactly
    when the RPC answers without an error, and the RPC is sent once, between
    the probes of the two checks.  For a record found only in the archived
    list this adds a second entry with the same id. *)
Theorem archive_keeps_local_change (o : ArchiveOracle) (i : string) (a : App)
    (found : Consentimiento) :
  getConsentimiento (ui a) i = Some found ->
  fst (checkSupabaseConnection (archive_now o) (archive_check o) (lib a)) = true ->
  let after := snd (archivarConsentimiento o i a) in
  consentimientos (ui after)
  = List.filter (fun c => negb (String.eqb (id c) i)) (consentimientos (ui a))
  /\ consentimientosArchivados (ui after)
     = marcar_archivado found :: consentimientosArchivados (ui a)
  /\ (fst (archivarConsentimiento o i a) = Ret tt
      <-> exists d, outcome (archive_rpc o) = Resolved d None)
  /\ (exists later earlier,
        requests (lib after)
        = (later ++ SupabaseQuery (QRpcArchive i) :: earlier ++ requests (lib a))%list
        /\ forallb is_probe later = true /\ forallb is_probe earlier = true)
  /\ (find (fun c => String.eqb (id c) i) (consentimientos (ui a)) = None ->
      consentimientos (ui after) = consentimientos (ui a)
      /\ (2 <= length (List.filter (fun c => String.eqb (id c) i)
                         (consentimientosArchivados (ui after))))%nat).
Proof.
  intros Hfound Hconn after. unfold after. clear after.
  unfold archivarConsentimiento, call_lib. run.
  pose proof (only_probes_checkSupabaseConnection (archive_now o) (archive_check o)
                (lib a)) as Hp0.
  destruct (checkSupabaseConnection (archive_now o) (archive_check o) (lib a))
    as [b l1].
  cbn [fst snd] in *. subst b. cbn [negb]. run.
  unfold archivar_local. rewrite Hfound. run.
  unfold archivar_remote. run. await.
  rewrite !requests_cacheData in Hreq. cbn [lib] in Hreq.
  destruct Hp0 as (earlier & Hearlier & Hpr0).
  assert (Hlast :
    find (fun c => String.eqb (id c) i) (consentimientos (ui a)) = None ->
    List.filter (fun c => negb (String.eqb (id c) i)) (consentimientos (ui a))
    = consentimientos (ui a)
    /\ (2 <= length (List.filter (fun c => String.eqb (id c) i)
                       (marcar_archivado found
                        :: consentimientosArchivados (ui a))))%nat).
  { intros Hnone. split; [now apply filter_none_matches|].
    unfold getConsentimiento in Hfound. rewrite Hnone in Hfound.
    apply find_some_id in Hfound as [Hid Hin].
    assert (Hmatch : String.eqb (id found) i = true) by now apply String.eqb_eq.
    cbn [List.filter marcar_archivado id]. rewrite Hmatch. cbn [length].
    apply le_n_S.
    assert (Hin' : In found (List.filter (fun c => String.eqb (id c) i)
                               (consentimientosArchivados (ui a))))
      by (apply filter_In; now split).
    destruct (List.filter _ (consentimientosArchivados (ui a)));
      [destruct Hin' | cbn [length]; lia]. }
  destruct (outcome (archive_rpc o)) as [d [m|]|e0]; run;
    cbn [String.eqb Ascii.eqb Bool.eqb name Error]; run;
    try (destruct (String.eqb (name e0) "AbortError"); run).
  2: { (* the RPC answers without an error *)
       ui_simpl. split; [reflexivity|]. split; [reflexivity|].
       split; [split; [intros _; now exists d | reflexivity]|].
       split; [|exact Hlast].
       exists [], earlier. cbn [app]. now rewrite Hreq, Hearlier. }
  all: rethrown unit;
    (split; [now destruct Hui as [-> | ->]|]);
    (split; [now destruct Hui as [-> | ->]|]);
    (split; [split; [discriminate | intros (d' & Hd'); discriminate]|]);
    (split;
     [destruct Hp' as (later & Hlater & Hpr');
      exists later, earlier; now rewrite Hlater, Hreq, Hearlier
     |intros Hnone; destruct (Hlast Hnone) as (Hl1 & Hl2);
      split; destruct Hui as [-> | ->]; first [exact Hl1 | exact Hl2]]).
Qed.

Lemma archive_keeps_local_change_witness :
  let o := archive_rpc_error in
  let a := app_one_archived in
  let found := marcar_archivado (example_consentimiento "z9") in
  let after := snd (archivarConsentimiento o "z9" a) in
  consentimientos (ui after)
  = List.filter (fun c => negb (String.eqb (id c) "z9")) (consentimientos (ui a))
  /\ consentimientosArchivados (ui after)
     = marcar_archivado found :: consentimientosArchivados (ui a)
  /\ (fst (archivarConsentimiento o "z9" a) = Ret tt
      <-> exists d, outcome (archive_rpc o) = Resolved d None)
  /\ (exists later earlier,
        requests (lib after)
        = (later ++ SupabaseQuery (QRpcArchive "z9")
                 :: earlier ++ requests (lib a))%list
        /\ forallb is_probe later = true /\ forallb is_probe earlier = true)
  /\ (find (fun c => String.eqb (id c) "z9") (consentimientos (ui a)) = None ->
      consentimientos (ui after) = consentimientos (ui a)
      /\ (2 <= length (List.filter (fun c => String.eqb (id c) "z9")
                         (consentimientosArchivados (ui after))))%nat).
Proof.
  apply (archive_keeps_local_change archive_rpc_error "z9" app_one_archived
           (marcar_archivado (example_consentimiento "z9"))); reflexivity.
Defined.

(** X30.  Archive without connection changes nothing: when the check says
    no, the call fails with the connectivity message, both lists and the
    cache are what they were, and no RPC is sent. *)
Theorem archive_without_connection (o : ArchiveOracle) (i : string) (a : App) :
  fst (checkSupabaseConnection (archive_now o) (archive_check o) (lib a)) = false ->
  let after := snd (archivarConsentimiento o i a) in
  fst (archivarConsentimiento o i a) = Throw (Error connectivity_message)
  /\ ui after = ui a
  /\ same_cache (lib a) (lib after)
  /\ only_probes_added (lib a) (lib after).
Proof.
  intros Hconn after. unfold after. clear after.
  unfold archivarConsentimiento, call_lib. run.
  pose proof (only_probes_checkSupabaseConnection (archive_now o) (archive_check o)
                (lib a)) as Hp0.
  pose proof (same_cache_checkSupabaseConnection (archive_now o) (archive_check o)
                (lib a)) as Hs0.
  destruct (checkSupabaseConnection (archive_now o) (archive_check o) (lib a))
    as [b l1].
  cbn [fst snd] in *. subst b. cbn [negb]. run.
  repeat (split; [first [reflexivity | assumption]|]). assumption.
Qed.

Lemma archive_without_connection_witness :
  let o := archive_rpc_timeout in
  let a := app_recently_disconnected in
  let after := snd (archivarConsentimiento o "a1" a) in
  fst (archivarConsentimiento o "a1" a) = Throw (Error connectivity_message)
  /\ ui after = ui a
  /\ same_cache (lib a) (lib after)
  /\ only_probes_added (lib a) (lib after).
Proof.
  apply (archive_without_connection archive_rpc_timeout "a1"
           app_recently_disconnected); reflexivity.
Defined.
